(** * AML fraud-detection core: ledger store, risk scorer, policy engine,
      transaction processor and appeal workflow.

    Shallow embedding of
      - server/src/database/sqlite_connector.py   (module [Store])
      - server/src/services/fraud_service.py      (module [Fraud])
      - server/src/services/transaction_service.py (module [Txn])
      - server/src/routes/fraud_detection.py      (module [Routes])

    Conventions of the embedding.
      - Python floats (amounts, balances, risk scores) are exact rationals
        [Q]; equalities between computed rationals are stated with [==].
      - SQL tables are lists of rows in table order.  [UPDATE ... WHERE]
        rewrites every matching row, [SELECT ... WHERE] filters.
      - Timestamps are integers (seconds); the wall clock read by
        [datetime.now()] / [CURRENT_TIMESTAMP] / [datetime('now')] is the
        explicit argument [now].
      - Python sets are duplicate-free lists in insertion order.
      - The store is one logical database: each statement takes effect at
        once (connection-level locking of the engine is not modelled).

    Layout: the embedded code ([Store], [Fraud], [Txn], [Routes]), the
    vocabulary of the statements ([Vocab], [RiskSpec], [RingSpec]) and
    sample ledgers ([Fixtures]), then the proofs ([SubgraphFacts],
    [StoreFacts], [NetworkFacts], [AppealFacts], [TxnFacts], [RiskFacts],
    [RingFacts]). *)

From Stdlib Require Import List String Ascii ZArith QArith Qminmax Qround.
From Stdlib Require Import Bool Lia Lqa Permutation Sorted OrderedTypeEx.
From Stdlib Require DecimalString DecimalNat.
Import ListNotations.

Local Open Scope string_scope.
Local Open Scope list_scope.
Local Open Scope Z_scope.

(* ================================================================== *)
(** ** The ledger store ([sqlite_connector.py]) *)
(* ================================================================== *)

Module Store.

(** Row of table [users] (the columns the core reads or writes). *)
Record User := mkUser {
  user_id : string;
  name : string;
  risk_score : Q;
  account_age_days : Z;
  status : string;
  balance : Q
}.

(** Row of table [transactions]. *)
Record Transaction := mkTransaction {
  transaction_id : string;
  source_user_id : string;
  target_user_id : string;
  amount : Q;
  currency : string;
  transaction_type : string;
  timestamp : Z;
  tx_status : string;
  is_suspicious : Z;
  ai_risk_score : Q
}.

(** Row of table [appeals]; [reviewed_at] is NULL until the appeal is
    resolved. *)
Record Appeal := mkAppeal {
  appeal_user_id : string;
  justification : string;
  appeal_status : string;
  created_at : Z;
  reviewed_at : option Z
}.

Record DB := mkDB {
  users : list User;
  transactions : list Transaction;
  appeals : list Appeal
}.

Definition set_status (st : string) (u : User) : User :=
  mkUser (user_id u) (name u) (risk_score u) (account_age_days u) st (balance u).

Definition set_balance (b : Q) (u : User) : User :=
  mkUser (user_id u) (name u) (risk_score u) (account_age_days u) (status u) b.

(** [SELECT * FROM users WHERE user_id = ?] followed by [fetchone]. *)
Definition get_user_by_id (db : DB) (uid : string) : option User :=
  find (fun u => user_id u =? uid)%string (users db).

(** [UPDATE users SET status = ? WHERE user_id = ?]. *)
Definition update_user_status (db : DB) (uid st : string) : DB :=
  mkDB (map (fun u => if (user_id u =? uid)%string then set_status st u else u)
            (users db))
       (transactions db) (appeals db).

(** [UPDATE users SET balance = ? WHERE user_id = ?]. *)
Definition update_user_balance (db : DB) (uid : string) (b : Q) : DB :=
  mkDB (map (fun u => if (user_id u =? uid)%string then set_balance b u else u)
            (users db))
       (transactions db) (appeals db).

(** Zero-padded decimal rendering of [{n:06d}]. *)
Fixpoint pad_zeros (k : nat) (s : string) : string :=
  match k with
  | O => s
  | S k' => pad_zeros k' (String "0"%char s)
  end.

Definition format_06d (n : nat) : string :=
  let s := DecimalString.NilEmpty.string_of_uint (Nat.to_uint n) in
  pad_zeros (6 - String.length s) s.

(** [add_transaction]: the id is [TX{count+1:06d}], the timestamp is the
    clock.  Returns the id and the store with the row appended. *)
Definition add_transaction (db : DB) (now : Z)
    (src tgt : string) (amt : Q) (cur ttype st : string)
    (susp : Z) (ai : Q) : string * DB :=
  let count := List.length (transactions db) in
  let tx_id := ("TX" ++ format_06d (count + 1))%string in
  (tx_id,
   mkDB (users db)
        (transactions db ++
           [mkTransaction tx_id src tgt amt cur ttype now st susp ai])
        (appeals db)).

(** [get_user_transactions_in_window]: rows where the user is source or
    target and [timestamp >= now - hours].  The [ORDER BY timestamp DESC]
    clause only permutes the rows; both callers only count them, and the
    rows are kept here in table order. *)
Definition in_window (now : Z) (uid : string) (hours : Z) (t : Transaction) : bool :=
  ((source_user_id t =? uid)%string || (target_user_id t =? uid)%string)
  && (now - hours * 3600 <=? timestamp t).

Definition get_user_transactions_in_window
    (db : DB) (now : Z) (uid : string) (hours : Z) : list Transaction :=
  filter (in_window now uid hours) (transactions db).

(** *** Subgraph extraction ([get_user_subgraph]) *)

Record Link := mkLink {
  source : string;
  target : string;
  link_amount : Q;
  link_transaction_id : string;
  link_transaction_type : string
}.

Record Subgraph := mkSubgraph {
  nodes : list User;
  links : list Link
}.

Definition mem (x : string) (l : list string) : bool :=
  existsb (String.eqb x) l.

(** The UNION query of one round: targets of rows leaving the layer and
    sources of rows entering it, without duplicates. *)
Definition neighbors (txs : list Transaction) (layer : list string) : list string :=
  nodup string_dec
    (map target_user_id (filter (fun t => mem (source_user_id t) layer) txs)
     ++ map source_user_id (filter (fun t => mem (target_user_id t) layer) txs)).

(** Body of the inner [for row in c.fetchall()] loop; the state is
    [(visited, next_layer)]. *)
Definition visit (st : list string * list string) (neighbor : string)
    : list string * list string :=
  if mem neighbor (fst st) then st
  else (fst st ++ [neighbor], snd st ++ [neighbor]).

(** One round of the outer loop; the state is [(visited, current_layer)]. *)
Definition expand (txs : list Transaction) (st : list string * list string)
    : list string * list string :=
  fold_left visit (neighbors txs (snd st)) (fst st, []).

(** [for _ in range(depth)]. *)
Fixpoint rounds (depth : nat) (txs : list Transaction)
    (st : list string * list string) : list string * list string :=
  match depth with
  | O => st
  | S d => rounds d txs (expand txs st)
  end.

Definition visited_after (db : DB) (uid : string) (depth : Z) : list string :=
  fst (rounds (Z.to_nat depth) (transactions db) ([uid], [uid])).

Definition link_of (t : Transaction) : Link :=
  mkLink (source_user_id t) (target_user_id t) (amount t)
         (transaction_id t) (transaction_type t).

Definition get_user_subgraph (db : DB) (uid : string) (depth : Z) : Subgraph :=
  let visited := visited_after db uid depth in
  mkSubgraph
    (flat_map (fun v => match get_user_by_id db v with
                        | Some row => [row]
                        | None => []
                        end) visited)
    (map link_of
       (filter (fun t => mem (source_user_id t) visited
                         && mem (target_user_id t) visited)
               (transactions db))).

(** *** Ring detection ([find_laundering_rings]) *)

Record Edge := mkEdge {
  edge_target : string;
  edge_amount : Q
}.

(** The adjacency dict, as an association list in key-insertion order. *)
Definition Adj := list (string * list Edge).

Definition adj_get (adj : Adj) (k : string) : list Edge :=
  match find (fun kv => (fst kv =? k)%string) adj with
  | Some kv => snd kv
  | None => []
  end.

(** [if src not in adj: adj[src] = []] then [adj[src].append(...)]. *)
Definition adj_append (adj : Adj) (src : string) (e : Edge) : Adj :=
  if mem src (map fst adj)
  then map (fun kv => if (fst kv =? src)%string then (fst kv, snd kv ++ [e]) else kv) adj
  else adj ++ [(src, [e])].

Definition build_adj (txs : list Transaction) : Adj :=
  fold_left
    (fun adj t => adj_append adj (source_user_id t)
                    (mkEdge (target_user_id t) (amount t)))
    txs [].

Record RingNode := mkRingNode {
  rn_user_id : string;
  rn_name : string
}.

(** A reported ring; the ["transactions"] entry of the source dict is
    always the empty list and is left out. *)
Record Ring := mkRing {
  path : list RingNode;
  ring_length : nat
}.

(** [user_names.get(uid, uid)]; the dict comprehension keeps the last row
    of a key. *)
Definition user_name (db : DB) (uid : string) : string :=
  match find (fun u => (user_id u =? uid)%string) (List.rev (users db)) with
  | Some u => name u
  | None => uid
  end.

Definition ring_of (db : DB) (p : list string) : Ring :=
  mkRing (map (fun uid => mkRingNode uid (user_name db uid)) p) (List.length p).

(** The nested [dfs].  Each call of the source raises [depth] by one and
    returns at once when [depth > max_depth]; [fuel] bounds the nesting of
    calls and is chosen above [max_depth + 1 - depth] by the caller.  The
    rings appended to the shared list [rings] during a call are returned
    in the order of the appends. *)
Fixpoint dfs (fuel : nat) (db : DB) (adj : Adj) (max_depth : Z)
    (start current : string) (p visited : list string) (depth : Z)
    : list Ring :=
  match fuel with
  | O => []
  | S fuel' =>
    if max_depth <? depth then []
    else
      flat_map
        (fun edge =>
           let neighbor := edge_target edge in
           if (neighbor =? start)%string && (3 <=? List.length p)%nat
           then [ring_of db p]
           else if negb (mem neighbor visited)
           then dfs fuel' db adj max_depth start neighbor
                    (p ++ [neighbor]) (visited ++ [neighbor]) (depth + 1)
           else [])
        (adj_get adj current)
  end.

(** [sorted(...)] on user ids: insertion into an ascending list. *)
Fixpoint insert_sorted (x : string) (l : list string) : list string :=
  match l with
  | [] => [x]
  | y :: l' => if String.leb x y then x :: l else y :: insert_sorted x l'
  end.

Definition sorted (l : list string) : list string :=
  fold_right insert_sorted [] l.

(** [tuple(sorted([p["user_id"] for p in ring["path"]]))]. *)
Definition path_ids (r : Ring) : list string :=
  sorted (map rn_user_id (path r)).

Definition ids_eqb (a b : list string) : bool :=
  if list_eq_dec string_dec a b then true else false.

(** Body of the duplicate-removal loop; the state is
    [(seen, unique_rings)]. *)
Definition keep_first (st : list (list string) * list Ring) (ring : Ring)
    : list (list string) * list Ring :=
  if existsb (ids_eqb (path_ids ring)) (fst st) then st
  else (fst st ++ [path_ids ring], snd st ++ [ring]).

(** All rings in discovery order, before duplicate removal. *)
Definition discovered_rings (db : DB) (max_depth : Z) : list Ring :=
  let adj := build_adj (transactions db) in
  flat_map
    (fun start_node =>
       dfs (Z.to_nat (max_depth + 1) + 1) db adj max_depth
           start_node start_node [start_node] [start_node] 0)
    (firstn 50 (map fst adj)).

Definition find_laundering_rings (db : DB) (max_depth : Z) : list Ring :=
  let unique_rings := snd (fold_left keep_first (discovered_rings db max_depth) ([], [])) in
  firstn 20 unique_rings.

(** *** The remaining table operations *)

(** [ORDER BY key DESC]: [before y x] holds when row [y] may stay in
    front of row [x]; rows are inserted one by one from table order, each
    behind the rows that may stay in front of it (so rows with equal keys
    keep table order, which the engine does not promise). *)
Fixpoint insert_by {A : Type} (before : A -> A -> bool) (x : A) (l : list A) : list A :=
  match l with
  | [] => [x]
  | y :: l' => if before y x then y :: insert_by before x l' else x :: l
  end.

Definition order_by {A : Type} (before : A -> A -> bool) (l : list A) : list A :=
  fold_left (fun acc x => insert_by before x acc) l [].

Definition risk_desc (y x : User) : bool := Qle_bool (risk_score x) (risk_score y).

Definition timestamp_desc (y x : Transaction) : bool := timestamp x <=? timestamp y.

(** [SELECT * FROM users ORDER BY risk_score DESC]. *)
Definition get_all_users (db : DB) : list User :=
  order_by risk_desc (users db).

(** [add_user]: [INSERT OR REPLACE] drops the row that holds the same
    primary key and appends the new row. *)
Definition add_user (db : DB) (uid nm : string) (risk : Q) (age : Z)
    (bal : Q) (st : string) : DB :=
  mkDB (filter (fun u => negb (user_id u =? uid)%string) (users db)
        ++ [mkUser uid nm risk age st bal])
       (transactions db) (appeals db).

(** [create_user]: the alias used by the seed scripts; balance and status
    take the defaults of [add_user]. *)
Definition create_user (db : DB) (uid nm : string) (risk : Q) (age : Z) : DB :=
  add_user db uid nm risk age 0%Q "ACTIVE".

(** [SELECT * FROM transactions ORDER BY timestamp DESC]. *)
Definition get_all_transactions (db : DB) : list Transaction :=
  order_by timestamp_desc (transactions db).

(** [SELECT * FROM transactions WHERE status = 'FLAGGED'
     ORDER BY timestamp DESC]. *)
Definition get_flagged_transactions (db : DB) : list Transaction :=
  order_by timestamp_desc
    (filter (fun t => (tx_status t =? "FLAGGED")%string) (transactions db)).

(** [SELECT * FROM transactions WHERE source_user_id = ? OR
     target_user_id = ? ORDER BY timestamp DESC]. *)
Definition get_user_transactions (db : DB) (uid : string) : list Transaction :=
  order_by timestamp_desc
    (filter (fun t => (source_user_id t =? uid)%string
                      || (target_user_id t =? uid)%string)
            (transactions db)).

(** [get_high_risk_users]. *)
Definition get_high_risk_users (db : DB) (threshold : Q) : list User :=
  filter (fun u => Qle_bool threshold (risk_score u)) (get_all_users db).

(** [create_transaction] of the connector: the alias used by the seed
    scripts, which stores the row with status SUCCESS and runs no check. *)
Definition create_transaction (db : DB) (now : Z) (src tgt : string)
    (amt : Q) (cur ttype : string) : string * DB :=
  add_transaction db now src tgt amt cur ttype "SUCCESS" 0 0%Q.

End Store.

(* ================================================================== *)
(** ** Exceptions and the store monad *)
(* ================================================================== *)

(** The exceptions the core raises.  [InsufficientBalance b] is the
    [ValueError] whose message renders the balance [b] with two decimals;
    [InternalError] stands for any other exception. *)
Inductive exn : Type :=
| ValueError (msg : string)
| InsufficientBalance (current_balance : Q)
| HTTPException (status_code : Z) (detail : string)
| InternalError.

(** A computation over the store that returns a value or raises; writes
    made before a raise stay in the store. *)
Definition M (A : Type) : Type := Store.DB -> (exn + A) * Store.DB.

Definition ret {A : Type} (a : A) : M A := fun db => (inr a, db).

Definition raise {A : Type} (e : exn) : M A := fun db => (inl e, db).

Definition bind {A B : Type} (m : M A) (k : A -> M B) : M B :=
  fun db =>
    match m db with
    | (inl e, db') => (inl e, db')
    | (inr a, db') => k a db'
    end.

(** A read of the store. *)
Definition query {A : Type} (q : Store.DB -> A) : M A :=
  fun db => (inr (q db), db).

(** A committed write. *)
Definition exec (w : Store.DB -> Store.DB) : M unit :=
  fun db => (inr tt, w db).

(** A read that may raise. *)
Definition attempt {A : Type} (q : Store.DB -> exn + A) : M A :=
  fun db => (q db, db).

(** [try: m  except Exception: h]. *)
Definition try_except {A : Type} (m : M A) (h : exn -> M A) : M A :=
  fun db =>
    match m db with
    | (inl e, db') => h e db'
    | (inr a, db') => (inr a, db')
    end.

Declare Scope store_scope.
Delimit Scope store_scope with store.
Notation "x <- m ;; k" := (bind m (fun x => k))
  (at level 100, m at next level, right associativity) : store_scope.
Notation "m ;;; k" := (bind m (fun _ => k))
  (at level 100, right associativity) : store_scope.

(* ================================================================== *)
(** ** The risk scorer ([fraud_service.py]) *)
(* ================================================================== *)

Module Fraud.
Import Store.
Local Open Scope Q_scope.

(** Python's [sum]: start from 0 and add from the left. *)
Definition sumQ (l : list Q) : Q := fold_left Qplus l 0.

(** Python's [max] on a non-empty list, [0] on the empty one
    ([max(amounts) if amounts else 0]). *)
Definition max_or_zero (l : list Q) : Q :=
  match l with
  | [] => 0
  | a :: l' => fold_left Qmax l' a
  end.

Definition in_structuring_range (a : Q) : bool :=
  Qle_bool 9000 a && Qle_bool a 9999.

Definition incident (uid : string) (l : Link) : bool :=
  ((source l =? uid)%string || (target l =? uid)%string).

Definition _calculate_risk_score (uid : string) (user : User) (subgraph : Subgraph) : Q :=
  let base_risk := risk_score user in
  let neighbor_risks :=
    map risk_score
        (filter (fun node => negb (user_id node =? uid)%string) (nodes subgraph)) in
  let avg_neighbor_risk :=
    match neighbor_risks with
    | [] => 0.5
    | _ => sumQ neighbor_risks / inject_Z (Z.of_nat (List.length neighbor_risks))
    end in
  let user_txs := filter (incident uid) (links subgraph) in
  let tx_count := List.length user_txs in
  let volume_risk := Qmin (inject_Z (Z.of_nat tx_count) / 20) 1 in
  let amounts := map link_amount user_txs in
  let max_amount := max_or_zero amounts in
  let high_value_risk := Qmin (max_amount / 100000) 1 in
  let structuring_count := List.length (filter in_structuring_range amounts) in
  let structuring_risk := Qmin (inject_Z (Z.of_nat structuring_count) / 3) 1 in
  let combined_risk :=
    base_risk * 0.3 +
    avg_neighbor_risk * 0.25 +
    volume_risk * 0.15 +
    high_value_risk * 0.15 +
    structuring_risk * 0.15 in
  Qmin (Qmax combined_risk 0) 1.

Definition _get_risk_level (score : Q) : string :=
  if Qle_bool 0.8 score then "critical"
  else if Qle_bool 0.6 score then "high"
  else if Qle_bool 0.4 score then "medium"
  else "low".

(** Nearest integer, ties to the even one. *)
Definition round_half_even (x : Q) : Z :=
  let f := Qfloor x in
  match Qcompare (x - inject_Z f) (1 # 2) with
  | Lt => f
  | Gt => (f + 1)%Z
  | Eq => if Z.even f then f else (f + 1)%Z
  end.

(** [round(x, 4)]. *)
Definition round4 (x : Q) : Q :=
  inject_Z (round_half_even (x * 10000)) / 10000.

(** The part of [detect_fraud]'s result that the transaction processor
    and the claims read.  Pattern flags, contributing factors, suspicious
    transactions and the annotated subgraph are computed after the score
    from the same subgraph and do not feed back into it. *)
Record FraudResult := mkFraudResult {
  fr_user_id : string;
  risk_probability : Q;
  risk_level : string
}.

Definition detect_fraud (db : DB) (uid : string) : exn + FraudResult :=
  match get_user_by_id db uid with
  | None => inl (ValueError ("User " ++ uid ++ " not found")%string)
  | Some user =>
    let subgraph := get_user_subgraph db uid 2 in
    let risk := _calculate_risk_score uid user subgraph in
    inr (mkFraudResult uid (round4 risk) (_get_risk_level risk))
  end.

(** *** Node risk, patterns, factors and the full report *)

(** [_calculate_node_risk]. *)
Definition _calculate_node_risk (node : User) (subgraph : Subgraph) : Q :=
  let base_risk := risk_score node in
  let user_txs := filter (incident (user_id node)) (links subgraph) in
  let tx_factor := Qmin (inject_Z (Z.of_nat (List.length user_txs)) / 10) 0.3 in
  Qmin (base_risk + tx_factor) 1.

(** The [patterns] dict of [_detect_patterns]; [smurfing_total] is only
    present when smurfing is detected. *)
Record Patterns := mkPatterns {
  smurfing_detected : bool;
  smurfing_count : nat;
  smurfing_total : option Q;
  structuring_detected : bool;
  structuring_count : nat;
  structuring_amounts : list Q;
  circular_flow_detected : bool;
  circular_flow_depth : Z;
  rapid_movement_detected : bool;
  rapid_movement_count : nat;
  high_velocity_detected : bool;
  high_velocity_count : nat
}.

(** The adjacency dict of [_detect_patterns]: source -> set of targets. *)
Definition TargetSets := list (string * list string).

Definition targets_get (adj : TargetSets) (k : string) : list string :=
  match find (fun kv => (fst kv =? k)%string) adj with
  | Some kv => snd kv
  | None => []
  end.

(** [if src not in adj: adj[src] = set()] then [adj[src].add(target)]. *)
Definition targets_add (adj : TargetSets) (src tgt : string) : TargetSets :=
  if mem src (map fst adj)
  then map (fun kv =>
              if (fst kv =? src)%string
              then (fst kv, if mem tgt (snd kv) then snd kv else snd kv ++ [tgt])
              else kv) adj
  else adj ++ [(src, [tgt])].

Definition build_target_sets (ls : list Link) : TargetSets :=
  fold_left (fun adj l => targets_add adj (source l) (target l)) ls [].

(** The nested [has_path] of [_detect_patterns].  Each call raises
    [depth] by one and returns [False] when [depth > 5]; [fuel] bounds the
    nesting and the caller passes 7. *)
Fixpoint has_path (fuel : nat) (adj : TargetSets) (start end_ : string)
    (visited : list string) (depth : Z) : bool :=
  match fuel with
  | O => false
  | S fuel' =>
    if (5 <? depth)%Z then false
    else if (start =? end_)%string && (0 <? depth)%Z then true
    else
      existsb
        (fun neighbor =>
           (negb (mem neighbor visited) || (neighbor =? end_)%string)
           && has_path fuel' adj neighbor end_
                (if mem neighbor visited then visited else visited ++ [neighbor])
                (depth + 1)%Z)
        (targets_get adj start)
  end.

(** [_detect_patterns]. *)
Definition _detect_patterns (uid : string) (subgraph : Subgraph) : Patterns :=
  let ls := links subgraph in
  let incoming := filter (fun l => (target l =? uid)%string) ls in
  let outgoing := filter (fun l => (source l =? uid)%string) ls in
  let all_txs := incoming ++ outgoing in
  let small_incoming :=
    filter (fun l => negb (Qle_bool 3000 (link_amount l))) incoming in
  let structured :=
    filter (fun l => in_structuring_range (link_amount l)) all_txs in
  let adj := build_target_sets ls in
  let smurf := (5 <=? List.length small_incoming)%nat in
  let struct := (2 <=? List.length structured)%nat in
  let veloc := (10 <=? List.length all_txs)%nat in
  let circ := has_path 7 adj uid uid [] 0 in
  mkPatterns
    smurf
    (if smurf then List.length small_incoming else O)
    (if smurf then Some (sumQ (map link_amount small_incoming)) else None)
    struct
    (if struct then List.length structured else O)
    (if struct then map link_amount structured else [])
    circ
    (if circ then 3%Z else 0%Z)
    false O
    veloc
    (if veloc then List.length all_txs else O).

Record ContributingFactor := mkContributingFactor {
  factor_type : string;
  description : string;
  severity : string
}.

(** Python's [str] of a natural number. *)
Definition str_nat (n : nat) : string :=
  DecimalString.NilEmpty.string_of_uint (Nat.to_uint n).

(** [_build_contributing_factors]. *)
Definition _build_contributing_factors (user : User) (patterns : Patterns)
    (score : Q) : list ContributingFactor :=
  (if negb (Qle_bool score 0.7)
   then [mkContributingFactor "high_risk"
           "Overall risk score exceeds threshold" "high"]
   else [])
  ++ (if smurfing_detected patterns
      then [mkContributingFactor "smurfing"
              ("Smurfing pattern: " ++ str_nat (smurfing_count patterns)
               ++ " small deposits")%string "high"]
      else [])
  ++ (if structuring_detected patterns
      then [mkContributingFactor "structuring"
              ("Structuring: " ++ str_nat (structuring_count patterns)
               ++ " transactions near $10,000")%string "high"]
      else [])
  ++ (if circular_flow_detected patterns
      then [mkContributingFactor "circular_flow"
              "Circular transaction flow detected" "critical"]
      else [])
  ++ (if high_velocity_detected patterns
      then [mkContributingFactor "high_velocity"
              ("High transaction velocity: "
               ++ str_nat (high_velocity_count patterns) ++ " transactions")%string
              "medium"]
      else [])
  ++ (if (account_age_days user <? 90)%Z
      then [mkContributingFactor "new_account"
              "Account is less than 90 days old" "low"]
      else []).

Record SuspiciousTransaction := mkSuspiciousTransaction {
  st_transaction_id : string;
  st_amount : Q;
  st_source : string;
  st_target : string;
  st_reasons : list string
}.

Definition suspicion_reasons (l : Link) : list string :=
  (if in_structuring_range (link_amount l)
   then ["Amount near reporting threshold"%string] else [])
  ++ (if negb (Qle_bool (link_amount l) 50000)
      then ["Large transaction amount"%string] else [])
  ++ (if ((link_transaction_type l =? "crypto_buy")%string
          || (link_transaction_type l =? "international_wire")%string)
      then ["High-risk transaction type"%string] else []).

(** [_identify_suspicious_transactions]. *)
Definition _identify_suspicious_transactions (uid : string) (subgraph : Subgraph)
    : list SuspiciousTransaction :=
  firstn 10
    (flat_map
       (fun l =>
          if incident uid l
          then match suspicion_reasons l with
               | [] => []
               | reasons =>
                   [mkSuspiciousTransaction (link_transaction_id l) (link_amount l)
                      (source l) (target l) reasons]
               end
          else [])
       (links subgraph)).

(** [_get_primary_flag]. *)
Definition _get_primary_flag (patterns : Patterns) : option string :=
  if circular_flow_detected patterns then Some "Circular Flow Detected"%string
  else if smurfing_detected patterns then Some "Smurfing Detected"%string
  else if structuring_detected patterns then Some "Structuring Detected"%string
  else if high_velocity_detected patterns then Some "High Transaction Velocity"%string
  else None.

(** Everything [detect_fraud] returns: the three fields of [FraudResult]
    and the remaining entries of the dict. *)
Record FraudReport := mkFraudReport {
  rep_result : FraudResult;
  rep_primary_flag : option string;
  rep_contributing_factors : list ContributingFactor;
  rep_suspicious_transactions : list SuspiciousTransaction;
  rep_nodes : list (User * Q);
  rep_links : list Link
}.

(** [detect_fraud], all of it. *)
Definition detect_fraud_report (db : DB) (uid : string) : exn + FraudReport :=
  match get_user_by_id db uid with
  | None => inl (ValueError ("User " ++ uid ++ " not found")%string)
  | Some user =>
    let subgraph := get_user_subgraph db uid 2 in
    let risk := _calculate_risk_score uid user subgraph in
    let patterns := _detect_patterns uid subgraph in
    let factors := _build_contributing_factors user patterns risk in
    let suspicious_txs := _identify_suspicious_transactions uid subgraph in
    let primary_flag := _get_primary_flag patterns in
    let nodes_with_risk :=
      map (fun node => (node, _calculate_node_risk node subgraph)) (nodes subgraph) in
    inr (mkFraudReport
           (mkFraudResult uid (round4 risk) (_get_risk_level risk))
           primary_flag factors suspicious_txs nodes_with_risk (links subgraph))
  end.

End Fraud.

(* ================================================================== *)
(** ** The transaction processor ([transaction_service.py]) *)
(* ================================================================== *)

Module Txn.
Import Store.
Local Open Scope Q_scope.

Record TxResult := mkTxResult {
  r_transaction_id : string;
  r_status : string;
  r_source_user_id : string;
  r_target_user_id : string;
  r_amount : Q;
  r_ai_risk_score : Q;
  r_structuring_detected : bool;
  r_account_frozen : bool;
  r_new_balance : Q;
  r_message : string
}.

Definition Qlt_bool (a b : Q) : bool := negb (Qle_bool b a).

Definition in_range (a : Q) : bool := Qle_bool 9000 a && Qle_bool a 9999.

(** [_detect_structuring]. *)
Definition _detect_structuring (db : DB) (now : Z) (uid : string) (current_amount : Q) : bool :=
  let recent_txs := get_user_transactions_in_window db now uid 48 in
  let structuring_count :=
    List.length (filter (fun t => in_range (amount t)) recent_txs) in
  let structuring_count :=
    if in_range current_amount then (structuring_count + 1)%nat
    else structuring_count in
  (2 <? structuring_count)%nat.

(** [_detect_high_velocity]. *)
Definition _detect_high_velocity (db : DB) (now : Z) (uid : string) : bool :=
  let recent_txs := get_user_transactions_in_window db now uid 24 in
  (10 <? List.length recent_txs)%nat.

Section Processor.

(** The injected fraud service ([self.fraud_service.detect_fraud]); the
    default is [Fraud.detect_fraud]. *)
Variable fraud_service : DB -> string -> exn + Fraud.FraudResult.

Local Open Scope store_scope.

Definition create_transaction (now : Z) (source_user_id target_user_id : string)
    (amount : Q) (currency transaction_type : string) : M TxResult :=
  source_user_opt <- query (fun db => get_user_by_id db source_user_id) ;;
  match source_user_opt with
  | None => raise (ValueError ("Source user " ++ source_user_id ++ " not found")%string)
  | Some source_user =>
  target_user_opt <- query (fun db => get_user_by_id db target_user_id) ;;
  match target_user_opt with
  | None => raise (ValueError ("Target user " ++ target_user_id ++ " not found")%string)
  | Some target_user =>
  if (status source_user =? "FROZEN")%string
  then raise (ValueError "Account is frozen. Cannot process transactions.")
  else
  let current_balance := balance source_user in
  if Qlt_bool current_balance amount
  then raise (InsufficientBalance current_balance)
  else
  ai_risk_score <-
    try_except
      (fraud_result <- attempt (fun db => fraud_service db source_user_id) ;;
       ret (Fraud.risk_probability fraud_result))
      (fun _ => ret (risk_score source_user)) ;;
  structuring_detected <-
    query (fun db => _detect_structuring db now source_user_id amount) ;;
  high_velocity <-
    query (fun db => _detect_high_velocity db now source_user_id) ;;
  let should_flag :=
    structuring_detected || high_velocity || in_range amount
    || Qlt_bool 50000 amount || Qlt_bool 0.7 ai_risk_score in
  let is_suspicious := if should_flag then 1%Z else 0%Z in
  st <-
    (if structuring_detected
     then (exec (fun db => update_user_status db source_user_id "FROZEN") ;;;
           ret "BLOCKED"%string)
     else if should_flag then ret "FLAGGED"%string
     else ret "APPROVED"%string) ;;
  tx_id <-
    (fun db =>
       let '(tx_id, db') :=
         add_transaction db now source_user_id target_user_id amount
                         currency transaction_type st is_suspicious ai_risk_score in
       (inr tx_id, db')) ;;
  let new_source_balance := balance source_user - amount in
  let new_target_balance := balance target_user + amount in
  (if (st =? "APPROVED")%string
   then exec (fun db =>
                update_user_balance
                  (update_user_balance db source_user_id new_source_balance)
                  target_user_id new_target_balance)
   else ret tt) ;;;
  ret (mkTxResult tx_id st source_user_id target_user_id amount ai_risk_score
         structuring_detected structuring_detected
         (if (st =? "APPROVED")%string then new_source_balance
          else balance source_user)
         (if structuring_detected
          then "Account frozen due to structuring detection"%string
          else if should_flag
               then "Transaction flagged for compliance review"%string
               else "Transaction approved"%string))
  end
  end.

End Processor.

End Txn.

(* ================================================================== *)
(** ** The API routes ([routes/fraud_detection.py]) *)
(* ================================================================== *)

Module Routes.
Import Store.
Local Open Scope store_scope.

Record Reply := mkReply {
  reply_status : string;
  reply_user_id : string;
  reply_message : string
}.

(** [db.get_user_by_id] followed by the 404 guard shared by the routes. *)
Definition require_user (uid : string) : M User :=
  user <- query (fun db => get_user_by_id db uid) ;;
  match user with
  | None => raise (HTTPException 404 "User not found")
  | Some u => ret u
  end.

(** [get_user_network].  The declaration [depth: int = Query(2, ge=1, le=3)]
    makes the framework reject a depth outside [1..3] with status 422
    before the body runs. *)
Definition get_user_network (uid : string) (depth : Z) : M Subgraph :=
  if (1 <=? depth) && (depth <=? 3)
  then (require_user uid ;;;
        query (fun db => get_user_subgraph db uid depth))
  else raise (HTTPException 422 "depth out of range").






Definition freeze_user (uid : string) : M Reply :=
  require_user uid ;;;
  exec (fun db => update_user_status db uid "FROZEN") ;;;
  ret (mkReply "frozen" uid "").

(** The appeals of a user, in table order. *)
Definition appeals_of (db : DB) (uid : string) : list Appeal :=
  filter (fun a => (appeal_user_id a =? uid)%string) (appeals db).

(** *** The remaining account and transaction routes *)

Record DepositReply := mkDepositReply {
  deposit_message : string;
  deposit_new_balance : Q
}.

(** [deposit_funds]; [amount] is [deposit_data.get('amount', 0)]. *)
Definition deposit_funds (uid : string) (amount : Q) : M DepositReply :=
  user <- require_user uid ;;
  let new_balance := (balance user + amount)%Q in
  exec (fun db => update_user_balance db uid new_balance) ;;;
  ret (mkDepositReply "Deposit successful" new_balance).

Definition unfreeze_user (uid : string) : M Reply :=
  require_user uid ;;;
  exec (fun db => update_user_status db uid "ACTIVE") ;;;
  ret (mkReply "active" uid "").

Definition block_user (uid : string) : M Reply :=
  require_user uid ;;;
  exec (fun db => update_user_status db uid "BLOCKED") ;;;
  ret (mkReply "blocked" uid "").

Definition set_tx_status (st : string) (t : Transaction) : Transaction :=
  mkTransaction (transaction_id t) (source_user_id t) (target_user_id t)
    (amount t) (currency t) (transaction_type t) (timestamp t) st
    (is_suspicious t) (ai_risk_score t).

Record TxReply := mkTxReply {
  tx_reply_status : string;
  tx_reply_transaction_id : string
}.

(** [approve_transaction]:
    [UPDATE transactions SET status = 'APPROVED' WHERE transaction_id = ?];
    there is no check that the id exists. *)
Definition approve_transaction (tid : string) : M TxReply :=
  exec (fun db =>
          mkDB (users db)
               (map (fun t => if (transaction_id t =? tid)%string
                              then set_tx_status "APPROVED" t else t)
                    (transactions db))
               (appeals db)) ;;;
  ret (mkTxReply "approved" tid).

(** [get_flagged_transactions] (also served as [get_alerts]): every
    flagged row with the stored risk score of its source, 0.5 when the
    source row is absent. *)
Record Alert := mkAlert {
  alert_transaction_id : string;
  alert_source_user_id : string;
  alert_target_user_id : string;
  alert_amount : Q;
  alert_status : string;
  alert_risk_score : Q;
  alert_timestamp : Z
}.

Definition get_flagged_transactions : M (list Alert) :=
  query (fun db =>
    map (fun t =>
           mkAlert (transaction_id t) (source_user_id t) (target_user_id t)
             (amount t) (tx_status t)
             (match get_user_by_id db (source_user_id t) with
              | Some u => risk_score u
              | None => 0.5%Q
              end)
             (timestamp t))
        (Store.get_flagged_transactions db)).

Definition created_desc (y x : Appeal) : bool := created_at x <=? created_at y.

(** [get_user_appeals]:
    [SELECT * FROM appeals WHERE user_id = ? ORDER BY created_at DESC]. *)
Definition get_user_appeals (uid : string) : M (list Appeal) :=
  query (fun db => order_by created_desc (appeals_of db uid)).

(** [create_user]: the row is written with [add_user]'s default balance
    0.0 and status ACTIVE. *)
Definition create_user (uid nm : string) (risk : Q) (age : Z) : M Reply :=
  exec (fun db => add_user db uid nm risk age 0%Q "ACTIVE") ;;;
  ret (mkReply "" uid "User created").

(** [get_laundering_rings]. *)
Definition get_laundering_rings : M (list Ring) :=
  query (fun db => find_laundering_rings db 6).

End Routes.

(* ================================================================== *)
(** ** Vocabulary of the statements *)
(* ================================================================== *)

Module Vocab.
Import Store.

(** The error classes of the design, read off a result. *)
Definition signals_NotFound {A : Type} (r : (exn + A) * DB) : Prop :=
  fst r = inl (HTTPException 404 "User not found").

Definition signals_InvalidArgument {A : Type} (r : (exn + A) * DB) : Prop :=
  exists detail, fst r = inl (HTTPException 422 detail).

Definition returns {A : Type} (r : (exn + A) * DB) (a : A) : Prop :=
  fst r = inr a.

Definition no_writes {A : Type} (db : DB) (r : (exn + A) * DB) : Prop :=
  snd r = db.

(** Stored status of an account, if the account exists. *)
Definition status_of (db : DB) (uid : string) : option string :=
  option_map status (get_user_by_id db uid).

(** Stored balance of an account, if the account exists. *)
Definition balance_of (db : DB) (uid : string) : option Q :=
  option_map balance (get_user_by_id db uid).

(** A submission passes the existence, frozen-source and balance checks;
    [su] and [tu] are the stored rows of source and target. *)
Definition passes_checks (db : DB) (src tgt : string) (amt : Q) (su tu : User) : Prop :=
  get_user_by_id db src = Some su /\ get_user_by_id db tgt = Some tu /\
  status su <> "FROZEN" /\ (amt <= balance su)%Q.

(** The flagging condition of the decision contract, for a risk score
    [ai]. *)
Definition should_flag (structuring high_velocity : bool) (amt ai : Q) : Prop :=
  structuring = true \/ high_velocity = true \/
  (9000 <= amt /\ amt <= 9999)%Q \/ (50000 < amt)%Q \/ (0.7 < ai)%Q.

(** The row is in the trailing window of [hours] hours of account [uid]:
    the account is its source or its target. *)
Definition in_trailing_window (now : Z) (uid : string) (hours : Z) (t : Transaction) : Prop :=
  (source_user_id t = uid \/ target_user_id t = uid)
  /\ now - hours * 3600 <= timestamp t.

(** Number of ledger rows of [uid] in the trailing 48 hours whose amount
    lies in [9000, 9999]. *)
Definition structuring_history (db : DB) (now : Z) (uid : string) : nat :=
  List.length
    (filter (fun t => ((source_user_id t =? uid)%string || (target_user_id t =? uid)%string)
                      && (now - 48 * 3600 <=? timestamp t)
                      && (Qle_bool 9000 (amount t) && Qle_bool (amount t) 9999))
            (transactions db)).

(** The risk score the processor uses: the scorer's, or the stored base
    risk of the source row [su] when the scorer raises. *)
Definition score_used (fraud_service : DB -> string -> exn + Fraud.FraudResult)
    (db : DB) (src : string) (su : User) : Q :=
  match fraud_service db src with
  | inr fr => Fraud.risk_probability fr
  | inl _ => risk_score su
  end.

(** A scorer that always raises. *)
Definition failing_scorer (db : DB) (uid : string) : exn + Fraud.FraudResult :=
  inl InternalError.



End Vocab.

(* ================================================================== *)
(** ** The risk blend in the words of the design *)
(* ================================================================== *)

Module RiskSpec.
Import Store.
Local Open Scope Q_scope.

Definition total (l : list Q) : Q := fold_right Qplus 0 l.

Definition mean (l : list Q) : Q :=
  total l / inject_Z (Z.of_nat (List.length l)).

(** The other accounts of the 2-hop subgraph of [uid]. *)
Definition other_accounts (db : DB) (uid : string) : list User :=
  filter (fun n => negb (user_id n =? uid)%string)
         (nodes (get_user_subgraph db uid 2)).

Definition avg_neighbor_risk (db : DB) (uid : string) : Q :=
  match other_accounts db uid with
  | [] => 0.5
  | others => mean (map risk_score others)
  end.

(** The ledger rows in which [uid] is source or target. *)
Definition incident_transactions (db : DB) (uid : string) : list Transaction :=
  filter (fun t => (source_user_id t =? uid)%string || (target_user_id t =? uid)%string)
         (transactions db).

Definition volume_risk (db : DB) (uid : string) : Q :=
  Qmin (inject_Z (Z.of_nat (List.length (incident_transactions db uid))) / 20) 1.

Definition max_incident_amount (db : DB) (uid : string) : Q :=
  Fraud.max_or_zero (map amount (incident_transactions db uid)).

Definition high_value_risk (db : DB) (uid : string) : Q :=
  Qmin (max_incident_amount db uid / 100000) 1.

Definition structuring_risk (db : DB) (uid : string) : Q :=
  Qmin (inject_Z (Z.of_nat (List.length
          (filter (fun t => Qle_bool 9000 (amount t) && Qle_bool (amount t) 9999)
                  (incident_transactions db uid)))) / 3) 1.

Definition blend (db : DB) (uid : string) (base_risk : Q) : Q :=
  0.30 * base_risk + 0.25 * avg_neighbor_risk db uid + 0.15 * volume_risk db uid
  + 0.15 * high_value_risk db uid + 0.15 * structuring_risk db uid.

Definition clamp01 (x : Q) : Q := Qmax 0 (Qmin x 1).

End RiskSpec.

(* ================================================================== *)
(** ** Rings in the words of the design *)
(* ================================================================== *)

Module RingSpec.
Import Store.

(** The account ids along a reported ring. *)
Definition ring_ids (r : Ring) : list string := map rn_user_id (path r).

(** Some ledger row goes from [a] to [b]. *)
Definition linked (db : DB) (a b : string) : Prop :=
  exists t, In t (transactions db)
            /\ source_user_id t = a /\ target_user_id t = b.

(** Every edge stored under a key of the adjacency map comes from a
    ledger row leaving that key. *)
Definition adjacency_justified (db : DB) (kv : string * list Edge) : Prop :=
  forall e, In e (snd kv) -> linked db (fst kv) (edge_target e).

(** Consecutive accounts are linked in the direction of the list. *)
Fixpoint chain (db : DB) (p : list string) : Prop :=
  match p with
  | a :: (b :: _) as rest => linked db a b /\ chain db rest
  | _ => True
  end.

(** A closed directed path of at least three pairwise different
    accounts. *)
Definition is_ring (db : DB) (p : list string) : Prop :=
  (3 <= List.length p)%nat /\ NoDup p /\ chain db p
  /\ linked db (last p "") (hd "" p).

(** The order of [sorted] on account ids. *)
Definition string_le (a b : string) : Prop := String.leb a b = true.

(** Two rings have the same unordered set of accounts. *)
Definition same_accounts (r1 r2 : Ring) : Prop :=
  forall x, In x (ring_ids r1) <-> In x (ring_ids r2).

Definition same_accounts_b (r1 r2 : Ring) : bool :=
  forallb (fun x => mem x (ring_ids r2)) (ring_ids r1)
  && forallb (fun x => mem x (ring_ids r1)) (ring_ids r2).

(** Of a list in discovery order, keep a ring exactly when no ring
    discovered earlier ([earlier] and the part of the list before it) has
    the same set of accounts. *)
Fixpoint first_of_each_set (earlier l : list Ring) : list Ring :=
  match l with
  | [] => []
  | r :: l' =>
      if existsb (same_accounts_b r) earlier
      then first_of_each_set (earlier ++ [r]) l'
      else r :: first_of_each_set (earlier ++ [r]) l'
  end.

End RingSpec.

(* ================================================================== *)
(** ** Concrete ledgers used by the examples *)
(* ================================================================== *)

Module Fixtures.
Import Store.

Definition user (uid : string) (risk bal : Q) (st : string) : User :=
  mkUser uid uid risk 400 st bal.

Definition transfer (src tgt : string) (amt : Q) (at_time : Z) : Transaction :=
  mkTransaction "" src tgt amt "USD" "transfer" at_time "APPROVED" 0 0.

(** A chain A - B - C - D with every account present. *)
Definition chain_db : DB :=
  mkDB [user "A" 0.1 1000 "ACTIVE"; user "B" 0.2 1000 "ACTIVE";
        user "C" 0.3 1000 "ACTIVE"; user "D" 0.4 1000 "ACTIVE"]
       [transfer "A" "B" 10 0; transfer "C" "B" 20 0; transfer "C" "D" 30 0]
       [].

(** S has sent 9500 twice in the last 48 hours ([now] is 200000). *)
Definition two_priors_db : DB :=
  mkDB [user "S" 0.1 50000 "ACTIVE"; user "T" 0.1 0 "ACTIVE"]
       [transfer "S" "T" 9500 100000; transfer "S" "T" 9500 150000;
        transfer "S" "T" 9500 10]
       [].

(** R has only received: three times 9500 in the last 48 hours. *)
Definition three_incoming_db : DB :=
  mkDB [user "R" 0.1 50000 "ACTIVE"; user "T" 0.1 50000 "ACTIVE"]
       [transfer "T" "R" 9500 100000; transfer "T" "R" 9500 150000;
        transfer "T" "R" 9500 160000]
       [].

(** One quiet account with a balance of 100. *)
Definition single_db : DB :=
  mkDB [user "U1" 0.1 100 "ACTIVE"; user "U2" 0.1 100 "ACTIVE"] [] [].

(** Two rings through A, the triangle A-B-C found from three starts. *)
Definition rings_db : DB :=
  mkDB [mkUser "A" "Al" 0.5 1 "ACTIVE" 0]
       [transfer "A" "B" 1 0; transfer "B" "C" 2 0; transfer "C" "A" 3 0;
        transfer "B" "A" 3 0; transfer "C" "D" 1 0; transfer "D" "A" 1 0]
       [].

(** Account D is frozen and has one pending appeal. *)
Definition appeal_db : DB :=
  mkDB [user "D" 0.4 1000 "FROZEN"; user "E" 0.1 50 "ACTIVE"]
       []
       [mkAppeal "D" "please review" "PENDING" 10 None].

End Fixtures.

(* ================================================================== *)
(** ** Further vocabulary: ids, reachability, cycles *)
(* ================================================================== *)

Module ExtraSpec.
Import Store.

(** Reading a decimal numeral back. *)
Definition parse_nat (s : string) : option nat :=
  option_map Nat.of_uint (DecimalString.NilEmpty.uint_of_string s).

(** The number carried by a transaction id [TX<digits>]. *)
Definition tx_number (tid : string) : option nat :=
  match tid with
  | String "T" (String "X" digits) => parse_nat digits
  | _ => None
  end.

(** Every row carries the id its position gives it: the store was filled
    through [add_transaction] only. *)
Definition well_numbered (db : DB) : Prop :=
  forall i t, nth_error (transactions db) i = Some t ->
              transaction_id t = ("TX" ++ format_06d (S i))%string.

(** A rejection of the processor. *)
Definition rejection_of (db : DB) (src tgt : string) : exn -> Prop :=
  fun e =>
    match get_user_by_id db src with
    | None => e = ValueError ("Source user " ++ src ++ " not found")%string
    | Some su =>
      match get_user_by_id db tgt with
      | None => e = ValueError ("Target user " ++ tgt ++ " not found")%string
      | Some _ =>
        if (status su =? "FROZEN")%string
        then e = ValueError "Account is frozen. Cannot process transactions."
        else e = InsufficientBalance (balance su)
      end
    end.

(** Some ledger row joins the two accounts, in either direction. *)
Definition adjacent (db : DB) (a b : string) : Prop :=
  RingSpec.linked db a b \/ RingSpec.linked db b a.

(** [b] can be reached from [a] over at most [n] rows, followed in
    either direction. *)
Fixpoint within_hops (db : DB) (n : nat) (a b : string) : Prop :=
  a = b \/
  match n with
  | O => False
  | S n' => exists c, within_hops db n' a c /\ adjacent db c b
  end.

(** Some link of the list goes from [a] to [b]. *)
Definition link_step (ls : list Link) (a b : string) : Prop :=
  exists l, In l ls /\ source l = a /\ target l = b.

(** [a :: mids ++ [b]] follows links of the list. *)
Fixpoint link_path (ls : list Link) (a : string) (mids : list string) (b : string) : Prop :=
  match mids with
  | [] => link_step ls a b
  | m :: mids' => link_step ls a m /\ link_path ls m mids' b
  end.

End ExtraSpec.

(* ================================================================== *)
(** ** Further sample ledgers *)
(* ================================================================== *)

Module ExtraFixtures.
Import Store Fixtures.

(** A ring of seven accounts. *)
Definition seven_ring_db : DB :=
  mkDB []
       [transfer "A" "B" 1 0; transfer "B" "C" 1 0; transfer "C" "D" 1 0;
        transfer "D" "E" 1 0; transfer "E" "F" 1 0; transfer "F" "G" 1 0;
        transfer "G" "A" 1 0]
       [].

(** One flagged and one approved row. *)
Definition flagged_db : DB :=
  mkDB [user "U1" 0.1 100 "ACTIVE"; user "U2" 0.9 100 "ACTIVE"]
       [mkTransaction "TX000001" "U1" "U2" 9500 "USD" "transfer" 10 "FLAGGED" 1 0.2;
        mkTransaction "TX000002" "U2" "U1" 5 "USD" "transfer" 20 "APPROVED" 0 0.2]
       [].

End ExtraFixtures.

(* ================================================================== *)
(** ** Counting appeals *)
(* ================================================================== *)

Module AppealSpec.
Import Store.


End AppealSpec.

(* ================================================================== *)
(** ** Start accounts of the ring search *)
(* ================================================================== *)

Module StartSpec.
Import Store.

(** The elements of a list in order of first occurrence. *)
Definition first_occurrences (l : list string) : list string :=
  fold_left (fun acc x => if mem x acc then acc else acc ++ [x]) l [].

(** The accounts the ring search starts from: the first 50 different
    sources of the ledger, in table order. *)
Definition start_accounts (db : DB) : list string :=
  firstn 50 (first_occurrences (map source_user_id (transactions db))).

End StartSpec.

(* ================================================================== *)
(** ** Reading a report *)
(* ================================================================== *)

Module ReportSpec.
Import Store Fraud.

(** The list of factors holds one of the given type. *)
Definition has_factor (ty : string) (factors : list ContributingFactor) : bool :=
  existsb (fun f => (factor_type f =? ty)%string) factors.

End ReportSpec.

(* ================================================================== *)
(** ** Properties of subgraph extraction *)
(* ================================================================== *)

Module SubgraphFacts.
Import Store.

Lemma mem_In (x : string) (l : list string) : mem x l = true <-> In x l.
Proof.
  unfold mem. rewrite existsb_exists. split.
  - intros [y [Hy E]]. apply String.eqb_eq in E. now subst.
  - intros H. exists x. split; [assumption | apply String.eqb_refl].
Qed.

Lemma mem_false (x : string) (l : list string) : mem x l = false <-> ~ In x l.
Proof.
  rewrite <- mem_In. destruct (mem x l); split; congruence.
Qed.

Lemma visit_grows st n : incl (fst st) (fst (visit st n)).
Proof.
  unfold visit. destruct (mem n (fst st)); simpl.
  - apply incl_refl.
  - apply incl_appl, incl_refl.
Qed.

Lemma fold_visit_grows l : forall st, incl (fst st) (fst (fold_left visit l st)).
Proof.
  induction l as [| n l IH]; intros st; simpl.
  - apply incl_refl.
  - eapply incl_tran; [apply visit_grows | apply IH].
Qed.

Lemma expand_grows txs st : incl (fst st) (fst (expand txs st)).
Proof.
  unfold expand. apply (fold_visit_grows _ (fst st, [])).
Qed.

(** The loop can be unrolled at its last iteration. *)
Lemma rounds_succ txs d : forall st,
  rounds (S d) txs st = expand txs (rounds d txs st).
Proof.
  induction d as [| d IH]; intros st.
  - reflexivity.
  - change (rounds (S (S d)) txs st) with (rounds (S d) txs (expand txs st)).
    rewrite IH. reflexivity.
Qed.

Lemma visited_after_monotone db uid d :
  0 <= d -> incl (visited_after db uid d) (visited_after db uid (d + 1)).
Proof.
  intros Hd. unfold visited_after.
  replace (Z.to_nat (d + 1)) with (S (Z.to_nat d)) by lia.
  rewrite rounds_succ. apply expand_grows.
Qed.

Lemma nodes_of_visited db uid depth u :
  In u (nodes (get_user_subgraph db uid depth)) <->
  exists v, In v (visited_after db uid depth) /\ get_user_by_id db v = Some u.
Proof.
  unfold get_user_subgraph; simpl. rewrite in_flat_map.
  split; intros [v [Hv H]]; exists v; split; try assumption.
  - destruct (get_user_by_id db v) as [row|]; simpl in H; [|contradiction].
    destruct H as [H|[]]. now subst.
  - rewrite H. now left.
Qed.

(** C7: over an unchanged ledger, every node returned by the extraction
    at depth [d >= 1] is also returned at depth [d + 1]. *)
Theorem subgraph_nodes_monotone (db : DB) (uid : string) (d : Z) :
  1 <= d ->
  incl (nodes (get_user_subgraph db uid d))
       (nodes (get_user_subgraph db uid (d + 1))).
Proof.
  intros Hd u Hu.
  apply nodes_of_visited in Hu. destruct Hu as [v [Hv Hrow]].
  apply nodes_of_visited. exists v. split; [|assumption].
  apply visited_after_monotone; [lia | assumption].
Qed.

Lemma subgraph_nodes_monotone_witness :
  1 <= 1 /\
  incl (nodes (get_user_subgraph Fixtures.chain_db "A" 1))
       (nodes (get_user_subgraph Fixtures.chain_db "A" (1 + 1))).
Proof.
  split; [lia | apply (subgraph_nodes_monotone Fixtures.chain_db "A" 1); lia].
Defined.

(** The growth is real on the chain: depth 1 sees two accounts, depth 2
    three. *)
Example chain_depths :
  map user_id (nodes (get_user_subgraph Fixtures.chain_db "A" 1)) = ["A"; "B"]
  /\ map user_id (nodes (get_user_subgraph Fixtures.chain_db "A" 2)) = ["A"; "B"; "C"].
Proof. split; reflexivity. Qed.

End SubgraphFacts.

(* ================================================================== *)
(** ** Basic facts about the store *)
(* ================================================================== *)

Module StoreFacts.
Import Store.

Lemma find_map_update (uid uid' : string) (f : User -> User) (l : list User) :
  (forall u, user_id (f u) = user_id u) ->
  find (fun u => (user_id u =? uid')%string)
       (map (fun u => if (user_id u =? uid)%string then f u else u) l)
  = option_map (fun u => if (user_id u =? uid)%string then f u else u)
               (find (fun u => (user_id u =? uid')%string) l).
Proof.
  intros Hid. induction l as [| u l IH]; simpl; [reflexivity|].
  destruct (user_id u =? uid)%string eqn:E.
  - rewrite Hid. destruct (user_id u =? uid')%string; simpl; [now rewrite E | exact IH].
  - destruct (user_id u =? uid')%string; simpl; [now rewrite E | exact IH].
Qed.

Lemma filter_filter {A : Type} (f g : A -> bool) (l : list A) :
  filter f (filter g l) = filter (fun x => g x && f x) l.
Proof.
  induction l as [| a l IH]; simpl; [reflexivity|].
  destruct (g a); simpl; [destruct (f a); now rewrite IH | exact IH].
Qed.

Lemma get_user_found_id db uid u :
  get_user_by_id db uid = Some u -> user_id u = uid.
Proof.
  unfold get_user_by_id. intros H. apply find_some in H.
  now apply String.eqb_eq.
Qed.

Lemma get_after_status db uid st uid' :
  get_user_by_id (update_user_status db uid st) uid'
  = option_map (fun u => if (user_id u =? uid)%string then set_status st u else u)
               (get_user_by_id db uid').
Proof.
  unfold get_user_by_id, update_user_status; simpl.
  now apply find_map_update.
Qed.

Lemma get_after_balance db uid b uid' :
  get_user_by_id (update_user_balance db uid b) uid'
  = option_map (fun u => if (user_id u =? uid)%string then set_balance b u else u)
               (get_user_by_id db uid').
Proof.
  unfold get_user_by_id, update_user_balance; simpl.
  now apply find_map_update.
Qed.

Lemma status_after_update db uid st u :
  get_user_by_id db uid = Some u ->
  Vocab.status_of (update_user_status db uid st) uid = Some st.
Proof.
  intros H. unfold Vocab.status_of. rewrite get_after_status, H. simpl.
  apply get_user_found_id in H. rewrite H, String.eqb_refl. reflexivity.
Qed.

End StoreFacts.

(* ================================================================== *)
(** ** The network route *)
(* ================================================================== *)

Module NetworkFacts.
Import Store Routes Vocab.

Lemma subgraph_nonpositive_depth db uid depth :
  depth <= 0 -> get_user_subgraph db uid depth = get_user_subgraph db uid 0.
Proof.
  intros H. unfold get_user_subgraph, visited_after.
  replace (Z.to_nat depth) with (Z.to_nat 0) by lia. reflexivity.
Qed.

(** C8, as stated, fails: the extraction itself returns a (here empty)
    subgraph for an absent account and depth 0, and the route refuses
    depth 4 for an existing account. *)
Lemma subgraph_errors_counterexample :
  get_user_by_id Fixtures.chain_db "ghost" = None
  /\ get_user_subgraph Fixtures.chain_db "ghost" 0 = mkSubgraph [] []
  /\ get_user_by_id Fixtures.chain_db "A" <> None
  /\ fst (get_user_network "A" 4 Fixtures.chain_db)
     = inl (HTTPException 422 "depth out of range").
Proof.
  repeat split; try reflexivity. discriminate.
Qed.

(** C8 (amended): the route [get_user_network] never writes; it rejects
    a depth outside 1..3 as an invalid argument, otherwise signals
    NotFound for an absent focal account, otherwise returns the extracted
    subgraph.  The extraction function signals nothing by itself: for
    a depth <= 0 it returns what it returns for depth 0. *)
Theorem get_user_network_outcomes (db : DB) (uid : string) (depth : Z) :
  no_writes db (get_user_network uid depth db)
  /\ (depth < 1 \/ 3 < depth ->
      signals_InvalidArgument (get_user_network uid depth db))
  /\ (1 <= depth <= 3 -> get_user_by_id db uid = None ->
      signals_NotFound (get_user_network uid depth db))
  /\ (1 <= depth <= 3 -> get_user_by_id db uid <> None ->
      returns (get_user_network uid depth db) (get_user_subgraph db uid depth))
  /\ (depth <= 0 -> get_user_subgraph db uid depth = get_user_subgraph db uid 0).
Proof.
  unfold no_writes, signals_InvalidArgument, signals_NotFound, returns,
    get_user_network, require_user, bind, query, raise, ret.
  destruct (1 <=? depth) eqn:E1; destruct (depth <=? 3) eqn:E3; simpl;
    destruct (get_user_by_id db uid) as [u|] eqn:Eu; simpl;
    repeat split; intros;
    try (apply subgraph_nonpositive_depth; assumption);
    try lia; try congruence; try (eexists; reflexivity).
Qed.

Lemma get_user_network_outcomes_witness :
  (1 <= 2 <= 3) /\ get_user_by_id Fixtures.chain_db "A" <> None /\ (4 < 1 \/ 3 < 4)
  /\ get_user_by_id Fixtures.chain_db "ghost" = None /\ (0 <= 0)
  /\ returns (get_user_network "A" 2 Fixtures.chain_db)
             (get_user_subgraph Fixtures.chain_db "A" 2)
  /\ signals_InvalidArgument (get_user_network "A" 4 Fixtures.chain_db)
  /\ signals_NotFound (get_user_network "ghost" 2 Fixtures.chain_db)
  /\ get_user_subgraph Fixtures.chain_db "A" 0 = get_user_subgraph Fixtures.chain_db "A" 0.
Proof.
  assert (Hr : 1 <= 2 <= 3) by lia.
  assert (Ha : get_user_by_id Fixtures.chain_db "A" <> None) by discriminate.
  assert (Hd : 4 < 1 \/ 3 < 4) by (right; lia).
  assert (Hg : get_user_by_id Fixtures.chain_db "ghost" = None) by reflexivity.
  assert (Hz : 0 <= 0) by lia.
  refine (conj Hr (conj Ha (conj Hd (conj Hg (conj Hz (conj _ (conj _ (conj _ _)))))))).
  - exact (proj1 (proj2 (proj2 (proj2 (get_user_network_outcomes Fixtures.chain_db "A" 2)))) Hr Ha).
  - exact (proj1 (proj2 (get_user_network_outcomes Fixtures.chain_db "A" 4)) Hd).
  - exact (proj1 (proj2 (proj2 (get_user_network_outcomes Fixtures.chain_db "ghost" 2))) Hr Hg).
  - exact (proj2 (proj2 (proj2 (proj2 (get_user_network_outcomes Fixtures.chain_db "A" 0)))) Hz).
Defined.

End NetworkFacts.

(* ================================================================== *)
(** ** The appeal workflow *)
(* ================================================================== *)

Module AppealFacts.
Import Store Routes Vocab.










End AppealFacts.

(* ================================================================== *)
(** ** The transaction processor *)
(* ================================================================== *)

Module TxnFacts.
Import Store Txn Vocab.
Local Open Scope Q_scope.

Lemma Qlt_bool_iff a b : Qlt_bool a b = true <-> a < b.
Proof.
  unfold Qlt_bool. rewrite negb_true_iff.
  destruct (Qle_bool b a) eqn:E.
  - apply Qle_bool_iff in E. split; [discriminate|].
    intros H. exfalso. exact (Qlt_not_le _ _ H E).
  - split; [|reflexivity]. intros _. apply Qnot_le_lt.
    intros H. apply Qle_bool_iff in H. congruence.
Qed.

Lemma Qlt_bool_false a b : Qlt_bool a b = false <-> b <= a.
Proof.
  unfold Qlt_bool. rewrite negb_false_iff. apply Qle_bool_iff.
Qed.

Lemma in_range_iff a : in_range a = true <-> 9000 <= a /\ a <= 9999.
Proof.
  unfold in_range. rewrite andb_true_iff, !Qle_bool_iff. tauto.
Qed.

Lemma in_range_Qeq a b : a == b -> in_range a = in_range b.
Proof.
  intros H. destruct (in_range b) eqn:E.
  - apply in_range_iff. apply in_range_iff in E. now rewrite H.
  - destruct (in_range a) eqn:E'; [|reflexivity].
    apply in_range_iff in E'. rewrite H in E'. apply in_range_iff in E'. congruence.
Qed.

Lemma should_flag_iff sd hv amt ai :
  sd || hv || in_range amt || Qlt_bool 50000 amt || Qlt_bool 0.7 ai = true
  <-> should_flag sd hv amt ai.
Proof.
  unfold should_flag.
  rewrite !orb_true_iff, in_range_iff, !Qlt_bool_iff. tauto.
Qed.

Section Processor.
Variable fraud_service : DB -> string -> exn + Fraud.FraudResult.

(** The run of [create_transaction] once the checks are passed. *)
Lemma create_transaction_run now src tgt amt cur ty db su tu :
  passes_checks db src tgt amt su tu ->
  let ai := score_used fraud_service db src su in
  let sd := _detect_structuring db now src amt in
  let hv := _detect_high_velocity db now src in
  let sf := sd || hv || in_range amt || Qlt_bool 50000 amt || Qlt_bool 0.7 ai in
  let st := if sd then "BLOCKED"%string else if sf then "FLAGGED"%string else "APPROVED"%string in
  let db1 := if sd then update_user_status db src "FROZEN" else db in
  let ins := add_transaction db1 now src tgt amt cur ty st (if sf then 1%Z else 0%Z) ai in
  let db3 := if (st =? "APPROVED")%string
             then update_user_balance
                    (update_user_balance (snd ins) src (balance su - amt))
                    tgt (balance tu + amt)
             else snd ins in
  exists r,
    create_transaction fraud_service now src tgt amt cur ty db = (inr r, db3)
    /\ r_status r = st /\ r_ai_risk_score r = ai
    /\ r_transaction_id r = fst ins
    /\ r_structuring_detected r = sd /\ r_account_frozen r = sd.
Proof.
  intros (Hs & Ht & Hfz & Hbal). cbv zeta.
  apply String.eqb_neq in Hfz. apply Qlt_bool_false in Hbal.
  unfold create_transaction, bind, query, raise, ret, exec, try_except, attempt.
  rewrite Hs, Ht, Hfz, Hbal. unfold score_used.
  destruct (fraud_service db src) as [e|fr];
    destruct (_detect_structuring db now src amt);
    destruct (_detect_high_velocity db now src);
    destruct (in_range amt); destruct (Qlt_bool 50000 amt);
    try destruct (Qlt_bool 0.7 (Fraud.risk_probability fr));
    try destruct (Qlt_bool 0.7 (risk_score su));
    simpl; eexists; (split; [reflexivity|]); simpl; auto.
Qed.

Lemma transactions_after_run now src tgt amt cur ty st susp ai db1 (b : bool) bs bt :
  transactions
    (if b
     then update_user_balance
            (update_user_balance
               (snd (add_transaction db1 now src tgt amt cur ty st susp ai)) src bs)
            tgt bt
     else snd (add_transaction db1 now src tgt amt cur ty st susp ai))
  = transactions db1 ++
      [mkTransaction (fst (add_transaction db1 now src tgt amt cur ty st susp ai))
         src tgt amt cur ty now st susp ai].
Proof. destruct b; reflexivity. Qed.

Lemma transactions_after_freeze (b : bool) db src :
  transactions (if b then update_user_status db src "FROZEN" else db) = transactions db.
Proof. destruct b; reflexivity. Qed.

(** When structuring is detected the submission is BLOCKED and the
    source row is FROZEN afterwards. *)
Lemma blocked_and_frozen now src tgt amt cur ty db su tu :
  passes_checks db src tgt amt su tu ->
  _detect_structuring db now src amt = true ->
  exists r db',
    create_transaction fraud_service now src tgt amt cur ty db = (inr r, db')
    /\ r_status r = "BLOCKED"%string /\ status_of db' src = Some "FROZEN"%string.
Proof.
  intros Hp Hsd.
  destruct (create_transaction_run now src tgt amt cur ty db su tu Hp)
    as (r & Hrun & Hst & _).
  cbv zeta in Hrun, Hst. rewrite Hsd in Hrun, Hst.
  eexists r, _. split; [exact Hrun|]. split; [exact Hst|].
  destruct Hp as (Hs & _). simpl.
  exact (StoreFacts.status_after_update db src "FROZEN" su Hs).
Qed.

(** C1: a submission that passes the checks is processed; it is BLOCKED
    (and the source becomes FROZEN) when structuring is detected, else
    FLAGGED when the flagging condition holds, else APPROVED, and the
    persisted row carries that status and the suspicious flag 1 exactly
    when the flagging condition holds. *)
Theorem decision_contract now src tgt amt cur ty db su tu :
  passes_checks db src tgt amt su tu ->
  exists r db',
    create_transaction fraud_service now src tgt amt cur ty db = (inr r, db')
    /\ r_ai_risk_score r = score_used fraud_service db src su
    /\ let sd := _detect_structuring db now src amt in
       let hv := _detect_high_velocity db now src in
       let flag := should_flag sd hv amt (r_ai_risk_score r) in
       (sd = true -> r_status r = "BLOCKED"%string /\ status_of db' src = Some "FROZEN"%string)
       /\ (sd = false -> flag -> r_status r = "FLAGGED"%string)
       /\ (~ flag -> r_status r = "APPROVED"%string)
       /\ exists row,
            transactions db' = transactions db ++ [row]
            /\ tx_status row = r_status r
            /\ (is_suspicious row = 1%Z <-> flag)
            /\ (is_suspicious row = 0%Z <-> ~ flag)
            /\ ai_risk_score row = r_ai_risk_score r
            /\ source_user_id row = src /\ target_user_id row = tgt
            /\ amount row = amt.
Proof.
  intros Hp.
  destruct (create_transaction_run now src tgt amt cur ty db su tu Hp)
    as (r & Hrun & Hst & Hai & _).
  cbv zeta in Hrun, Hst, Hai.
  eexists r, _. split; [exact Hrun|]. split; [exact Hai|]. cbv zeta.
  rewrite Hai, Hst.
  set (ai := score_used fraud_service db src su).
  set (sd := _detect_structuring db now src amt).
  set (hv := _detect_high_velocity db now src).
  pose proof (should_flag_iff sd hv amt ai) as Hflag.
  set (sf := sd || hv || in_range amt || Qlt_bool 50000 amt || Qlt_bool 0.7 ai) in *.
  destruct Hp as (Hs & _).
  split; [|split; [|split]].
  - intros Hsd. rewrite Hsd. split; [reflexivity|]. simpl.
    exact (StoreFacts.status_after_update db src "FROZEN" su Hs).
  - intros Hsd Hf. apply Hflag in Hf. now rewrite Hsd, Hf.
  - intros Hf. assert (Hsf : sf = false).
    { destruct sf; [exfalso; apply Hf, Hflag; reflexivity | reflexivity]. }
    assert (Hsd : sd = false).
    { destruct sd; [discriminate Hsf | reflexivity]. }
    now rewrite Hsd, Hsf.
  - eexists. split.
    + rewrite transactions_after_run, transactions_after_freeze. reflexivity.
    + simpl. repeat split; try reflexivity; rewrite <- Hflag;
        destruct sf; intros; try congruence; try reflexivity; try discriminate.
Qed.

(** C4: when the scorer raises, a submission that passes the checks is
    still processed: the score used and persisted is the source's stored
    base risk, and the transaction ends BLOCKED, FLAGGED or APPROVED. *)
Theorem scorer_failure_falls_back now src tgt amt cur ty db su tu e :
  passes_checks db src tgt amt su tu ->
  fraud_service db src = inl e ->
  exists r db',
    create_transaction fraud_service now src tgt amt cur ty db = (inr r, db')
    /\ r_ai_risk_score r = risk_score su
    /\ (r_status r = "BLOCKED" \/ r_status r = "FLAGGED" \/ r_status r = "APPROVED")%string
    /\ exists row,
         transactions db' = transactions db ++ [row]
         /\ tx_status row = r_status r
         /\ ai_risk_score row = risk_score su.
Proof.
  intros Hp He.
  destruct (create_transaction_run now src tgt amt cur ty db su tu Hp)
    as (r & Hrun & Hst & Hai & _).
  cbv zeta in Hrun, Hst, Hai.
  assert (Hscore : score_used fraud_service db src su = risk_score su).
  { unfold score_used. now rewrite He. }
  rewrite Hscore in *.
  eexists r, _. split; [exact Hrun|]. split; [exact Hai|]. split.
  - rewrite Hst. destruct (_detect_structuring db now src amt); [now left|].
    match goal with |- context [if ?b then "FLAGGED"%string else _] => destruct b end;
      [right; now left | right; now right].
  - eexists. split.
    + rewrite transactions_after_run, transactions_after_freeze. reflexivity.
    + simpl. split; [now rewrite Hst | reflexivity].
Qed.

(** The history count of the detector is the count over the ledger. *)
Lemma structuring_history_window db now uid :
  List.length (filter (fun t => in_range (amount t))
                      (get_user_transactions_in_window db now uid 48))
  = structuring_history db now uid.
Proof.
  unfold structuring_history, get_user_transactions_in_window.
  rewrite StoreFacts.filter_filter. reflexivity.
Qed.

Lemma detect_structuring_count db now uid amt :
  _detect_structuring db now uid amt = true <->
  (2 < structuring_history db now uid + (if in_range amt then 1 else 0))%nat.
Proof.
  unfold _detect_structuring. rewrite structuring_history_window, Nat.ltb_lt.
  destruct (in_range amt); lia.
Qed.

Lemma filter_length_mono {A : Type} (f g : A -> bool) (l : list A) :
  (forall x, f x = true -> g x = true) ->
  (List.length (filter f l) <= List.length (filter g l))%nat.
Proof.
  intros Hfg. induction l as [| a l IH]; simpl; [lia|].
  destruct (f a) eqn:Ef.
  - rewrite (Hfg a Ef). simpl. lia.
  - destruct (g a); simpl; lia.
Qed.

(** Rows of exactly 9500 are among the rows counted by the detector. *)
Lemma priors_9500_in_history db now uid :
  (List.length (filter (fun t => Qeq_bool (amount t) 9500)
                       (get_user_transactions_in_window db now uid 48))
   <= structuring_history db now uid)%nat.
Proof.
  rewrite <- structuring_history_window. apply filter_length_mono.
  intros t Ht. apply Qeq_bool_iff in Ht. now rewrite (in_range_Qeq _ _ Ht).
Qed.

(** C2: the detector reports structuring exactly when the number of the
    account's ledger rows of the trailing 48 hours with an amount in
    [9000, 9999], plus one if the candidate amount is in that range,
    exceeds 2; and for an account with exactly two rows of 9500 in its
    trailing 48 hours, a submission of 9700 that passes the checks is
    BLOCKED and freezes the source. *)
Theorem structuring_detector_and_trigger now src tgt cur ty db su tu :
  (forall uid amt,
      (9000 <= amt /\ amt <= 9999 ->
       (_detect_structuring db now uid amt = true
        <-> (2 < structuring_history db now uid + 1)%nat))
      /\ (~ (9000 <= amt /\ amt <= 9999) ->
          (_detect_structuring db now uid amt = true
           <-> (2 < structuring_history db now uid)%nat)))
  /\ (forall amt,
        List.length (filter (fun t => Qeq_bool (amount t) 9500)
                            (get_user_transactions_in_window db now src 48)) = 2%nat ->
        amt == 9700 ->
        passes_checks db src tgt amt su tu ->
        exists r db',
          create_transaction fraud_service now src tgt amt cur ty db = (inr r, db')
          /\ r_status r = "BLOCKED"%string
          /\ status_of db' src = Some "FROZEN"%string).
Proof.
  split.
  - intros uid amt. rewrite detect_structuring_count. split; intros H.
    + apply in_range_iff in H. rewrite H. reflexivity.
    + destruct (in_range amt) eqn:E; [apply in_range_iff in E; tauto|].
      rewrite Nat.add_0_r. reflexivity.
  - intros amt Hw Ha Hp.
    apply blocked_and_frozen with (su := su) (tu := tu); [exact Hp|].
    apply detect_structuring_count. rewrite (in_range_Qeq _ _ Ha).
    change (in_range 9700) with true. cbv iota.
    pose proof (priors_9500_in_history db now src) as Hle.
    rewrite Hw in Hle. lia.
Qed.

(** C10: the trailing windows of both detectors hold exactly the ledger
    rows in which the account is source or target; so when the 48-hour
    window of an account consists of three incoming rows of 9500, any
    checked outgoing submission is BLOCKED and freezes the account. *)
Theorem window_counts_incoming now src tgt cur ty db su tu :
  (forall uid hours t,
      In t (get_user_transactions_in_window db now uid hours)
      <-> In t (transactions db) /\ in_trailing_window now uid hours t)
  /\ (forall uid amt,
        _detect_structuring db now uid amt = true <->
        (2 < List.length (filter (fun t => in_range (amount t))
                                 (get_user_transactions_in_window db now uid 48))
             + (if in_range amt then 1 else 0))%nat)
  /\ (forall uid,
        _detect_high_velocity db now uid = true <->
        (10 < List.length (get_user_transactions_in_window db now uid 24))%nat)
  /\ (forall amt t1 t2 t3,
        get_user_transactions_in_window db now src 48 = [t1; t2; t3] ->
        (forall t, In t [t1; t2; t3] ->
                   source_user_id t <> src /\ target_user_id t = src
                   /\ amount t == 9500) ->
        passes_checks db src tgt amt su tu ->
        exists r db',
          create_transaction fraud_service now src tgt amt cur ty db = (inr r, db')
          /\ r_status r = "BLOCKED"%string
          /\ status_of db' src = Some "FROZEN"%string).
Proof.
  split; [|split; [|split]].
  - intros uid hours t. unfold get_user_transactions_in_window, in_trailing_window.
    rewrite filter_In. unfold in_window.
    rewrite andb_true_iff, orb_true_iff, !String.eqb_eq, Z.leb_le. tauto.
  - intros uid amt. unfold _detect_structuring. rewrite Nat.ltb_lt.
    destruct (in_range amt); lia.
  - intros uid. unfold _detect_high_velocity. apply Nat.ltb_lt.
  - intros amt t1 t2 t3 Hw Hin Hp.
    apply blocked_and_frozen with (su := su) (tu := tu); [exact Hp|].
    unfold _detect_structuring. rewrite Hw. simpl.
    destruct (Hin t1) as (_ & _ & H1); [simpl; tauto|].
    destruct (Hin t2) as (_ & _ & H2); [simpl; tauto|].
    destruct (Hin t3) as (_ & _ & H3); [simpl; tauto|].
    rewrite (in_range_Qeq _ _ H1), (in_range_Qeq _ _ H2), (in_range_Qeq _ _ H3).
    simpl. destruct (in_range amt); reflexivity.
Qed.

Lemma balance_after_freeze (b : bool) db src uid :
  balance_of (if b then update_user_status db src "FROZEN" else db) uid = balance_of db uid.
Proof.
  destruct b; [|reflexivity]. unfold balance_of. rewrite StoreFacts.get_after_status.
  destruct (get_user_by_id db uid) as [u|]; simpl; [|reflexivity].
  destruct (user_id u =? src)%string; reflexivity.
Qed.

Lemma balance_after_insert db now src tgt amt cur ty st susp ai uid :
  balance_of (snd (add_transaction db now src tgt amt cur ty st susp ai)) uid
  = balance_of db uid.
Proof. reflexivity. Qed.

Lemma balance_after_update db uid b uid' :
  balance_of (update_user_balance db uid b) uid'
  = if (uid' =? uid)%string then option_map (fun _ => b) (balance_of db uid')
    else balance_of db uid'.
Proof.
  unfold balance_of. rewrite StoreFacts.get_after_balance.
  destruct (get_user_by_id db uid') as [u|] eqn:Hu; simpl.
  - apply StoreFacts.get_user_found_id in Hu. rewrite Hu.
    destruct (uid' =? uid)%string; reflexivity.
  - destruct (uid' =? uid)%string; reflexivity.
Qed.

(** Balance effects of a processed submission between two different
    accounts: an APPROVED one debits the source and credits the target by
    the amount and touches no other balance; any other status touches no
    balance. *)
Theorem balance_effects_distinct now src tgt amt cur ty db su tu :
  passes_checks db src tgt amt su tu ->
  exists r db',
    create_transaction fraud_service now src tgt amt cur ty db = (inr r, db')
    /\ (r_status r = "APPROVED"%string -> src <> tgt ->
        balance_of db' src = Some (balance su - amt)
        /\ balance_of db' tgt = Some (balance tu + amt))
    /\ (r_status r = "APPROVED"%string ->
        forall uid, uid <> src -> uid <> tgt -> balance_of db' uid = balance_of db uid)
    /\ (r_status r <> "APPROVED"%string ->
        forall uid, balance_of db' uid = balance_of db uid).
Proof.
  intros Hp.
  destruct (create_transaction_run now src tgt amt cur ty db su tu Hp)
    as (r & Hrun & Hst & _).
  cbv zeta in Hrun, Hst. destruct Hp as (Hs & Ht & _).
  eexists r, _. split; [exact Hrun|]. rewrite Hst.
  match goal with |- context [(?s =? "APPROVED")%string] => set (st := s) end.
  assert (Hbs : balance_of db src = Some (balance su)) by (unfold balance_of; now rewrite Hs).
  assert (Hbt : balance_of db tgt = Some (balance tu)) by (unfold balance_of; now rewrite Ht).
  split; [|split].
  - intros Ha Hne. rewrite Ha, String.eqb_refl.
    rewrite !balance_after_update, !balance_after_insert, !balance_after_freeze.
    apply String.eqb_neq in Hne.
    assert (Hne' : (tgt =? src)%string = false) by (now rewrite String.eqb_sym).
    rewrite !String.eqb_refl, Hne, Hne'. rewrite Hbs, Hbt. simpl. now split.
  - intros Ha uid H1 H2. rewrite Ha, String.eqb_refl.
    rewrite !balance_after_update, !balance_after_insert, !balance_after_freeze.
    apply String.eqb_neq in H1, H2. now rewrite H1, H2.
  - intros Ha uid. apply String.eqb_neq in Ha. rewrite Ha.
    now rewrite balance_after_insert, balance_after_freeze.
Qed.

End Processor.

Lemma single_db_checks :
  passes_checks Fixtures.single_db "U1" "U2" 10
    (Fixtures.user "U1" 0.1 100 "ACTIVE") (Fixtures.user "U2" 0.1 100 "ACTIVE").
Proof.
  repeat split; [discriminate | vm_compute; discriminate].
Defined.

Lemma decision_contract_witness :
  passes_checks Fixtures.single_db "U1" "U2" 10
    (Fixtures.user "U1" 0.1 100 "ACTIVE") (Fixtures.user "U2" 0.1 100 "ACTIVE")
  /\ exists r db',
      create_transaction Fraud.detect_fraud 0 "U1" "U2" 10 "USD" "transfer"
                         Fixtures.single_db = (inr r, db')
      /\ r_status r = "APPROVED"%string.
Proof.
  split; [exact single_db_checks|].
  destruct (decision_contract Fraud.detect_fraud 0 "U1" "U2" 10 "USD" "transfer"
              Fixtures.single_db _ _ single_db_checks)
    as (r & db' & Hrun & Hai & _ & _ & Happ & _).
  exists r, db'. split; [exact Hrun|]. apply Happ. rewrite Hai.
  intros [H|[H|[[H _]|[H|H]]]]; vm_compute in H; try discriminate H;
    apply H; reflexivity.
Defined.

Lemma scorer_failure_falls_back_witness :
  passes_checks Fixtures.single_db "U1" "U2" 10
    (Fixtures.user "U1" 0.1 100 "ACTIVE") (Fixtures.user "U2" 0.1 100 "ACTIVE")
  /\ failing_scorer Fixtures.single_db "U1" = inl InternalError
  /\ exists r db',
      create_transaction failing_scorer 0 "U1" "U2" 10 "USD" "transfer"
                         Fixtures.single_db = (inr r, db')
      /\ r_ai_risk_score r = 0.1.
Proof.
  split; [exact single_db_checks|]. split; [reflexivity|].
  destruct (scorer_failure_falls_back failing_scorer 0 "U1" "U2" 10 "USD" "transfer"
              Fixtures.single_db _ _ InternalError single_db_checks eq_refl)
    as (r & db' & Hrun & Hai & _).
  exists r, db'. split; [exact Hrun | exact Hai].
Defined.

Lemma two_priors_checks :
  passes_checks Fixtures.two_priors_db "S" "T" 9700
    (Fixtures.user "S" 0.1 50000 "ACTIVE") (Fixtures.user "T" 0.1 0 "ACTIVE").
Proof.
  repeat split; [discriminate | vm_compute; discriminate].
Defined.

Lemma structuring_detector_and_trigger_witness :
  List.length (filter (fun t => Qeq_bool (amount t) 9500)
                 (get_user_transactions_in_window Fixtures.two_priors_db 200000 "S" 48))
  = 2%nat
  /\ 9700 == 9700
  /\ passes_checks Fixtures.two_priors_db "S" "T" 9700
       (Fixtures.user "S" 0.1 50000 "ACTIVE") (Fixtures.user "T" 0.1 0 "ACTIVE")
  /\ exists r db',
      create_transaction Fraud.detect_fraud 200000 "S" "T" 9700 "USD" "transfer"
                         Fixtures.two_priors_db = (inr r, db')
      /\ r_status r = "BLOCKED"%string
      /\ status_of db' "S" = Some "FROZEN"%string.
Proof.
  split; [reflexivity|]. split; [reflexivity|].
  split; [exact two_priors_checks|].
  exact (proj2 (structuring_detector_and_trigger Fraud.detect_fraud 200000 "S" "T"
                  "USD" "transfer" Fixtures.two_priors_db _ _)
               9700 eq_refl (Qeq_refl 9700) two_priors_checks).
Defined.

Lemma three_incoming_checks :
  passes_checks Fixtures.three_incoming_db "R" "T" 5
    (Fixtures.user "R" 0.1 50000 "ACTIVE") (Fixtures.user "T" 0.1 50000 "ACTIVE").
Proof.
  repeat split; [discriminate | vm_compute; discriminate].
Defined.

Lemma three_incoming_rows :
  forall t,
    In t [Fixtures.transfer "T" "R" 9500 100000; Fixtures.transfer "T" "R" 9500 150000;
          Fixtures.transfer "T" "R" 9500 160000] ->
    source_user_id t <> "R"%string /\ target_user_id t = "R"%string /\ amount t == 9500.
Proof.
  intros t [<-|[<-|[<-|[]]]]; repeat split; discriminate.
Defined.

Lemma window_counts_incoming_witness :
  get_user_transactions_in_window Fixtures.three_incoming_db 200000 "R" 48
  = [Fixtures.transfer "T" "R" 9500 100000; Fixtures.transfer "T" "R" 9500 150000;
     Fixtures.transfer "T" "R" 9500 160000]
  /\ passes_checks Fixtures.three_incoming_db "R" "T" 5
       (Fixtures.user "R" 0.1 50000 "ACTIVE") (Fixtures.user "T" 0.1 50000 "ACTIVE")
  /\ exists r db',
      create_transaction Fraud.detect_fraud 200000 "R" "T" 5 "USD" "transfer"
                         Fixtures.three_incoming_db = (inr r, db')
      /\ r_status r = "BLOCKED"%string
      /\ status_of db' "R" = Some "FROZEN"%string.
Proof.
  split; [reflexivity|]. split; [exact three_incoming_checks|].
  exact (proj2 (proj2 (proj2
           (window_counts_incoming Fraud.detect_fraud 200000 "R" "T"
              "USD" "transfer" Fixtures.three_incoming_db _ _)))
           5 _ _ _ eq_refl three_incoming_rows three_incoming_checks).
Defined.

(** C3 fails on a self-transfer: U1 (balance 100) sends 10 to itself,
    the transaction is APPROVED, and the credit computed from the balance
    read before the debit overwrites the debit: the balance ends at 110
    and no debit remains. *)
Lemma self_transfer_creates_funds :
  let run := create_transaction Fraud.detect_fraud 0 "U1" "U1" 10 "USD" "transfer"
                                Fixtures.single_db in
  balance_of Fixtures.single_db "U1" = Some 100
  /\ option_map r_status (match fst run with inr r => Some r | inl _ => None end)
     = Some "APPROVED"%string
  /\ option_map (Qeq_bool 110) (balance_of (snd run) "U1") = Some true
  /\ option_map (Qeq_bool (100 - 10)) (balance_of (snd run) "U1") = Some false.
Proof.
  vm_compute. repeat split.
Qed.

End TxnFacts.

(* ================================================================== *)
(** ** The risk scorer *)
(* ================================================================== *)

Module RiskFacts.
Import Store Fraud RiskSpec.
Local Open Scope Q_scope.

Lemma fold_visit_covers l : forall st n,
  In n l -> In n (fst (fold_left visit l st)).
Proof.
  induction l as [| m l IH]; intros st n Hn; simpl in *; [contradiction|].
  destruct Hn as [<- | Hn].
  - apply SubgraphFacts.fold_visit_grows. unfold visit.
    destruct (mem m (fst st)) eqn:E; simpl.
    + now apply SubgraphFacts.mem_In.
    + apply in_or_app. right. now left.
  - now apply IH.
Qed.

(** After the first round every account that shares a row with the focal
    account is visited. *)
Lemma first_round_neighbors txs uid t :
  In t txs -> source_user_id t = uid \/ target_user_id t = uid ->
  let v := fst (expand txs ([uid], [uid])) in
  In (source_user_id t) v /\ In (target_user_id t) v.
Proof.
  intros Ht Hinc v.
  assert (Huid : In uid v).
  { apply (SubgraphFacts.expand_grows txs ([uid], [uid])). now left. }
  assert (Hother : forall n, In n (neighbors txs [uid]) -> In n v).
  { intros n Hn. unfold v, expand. now apply fold_visit_covers. }
  destruct Hinc as [Hs | Hg].
  - split; [now rewrite Hs|]. apply Hother. unfold neighbors.
    apply nodup_In, in_or_app. left. apply in_map, filter_In. split; [exact Ht|].
    apply SubgraphFacts.mem_In. rewrite Hs. now left.
  - split; [|now rewrite Hg]. apply Hother. unfold neighbors.
    apply nodup_In, in_or_app. right. apply in_map, filter_In. split; [exact Ht|].
    apply SubgraphFacts.mem_In. rewrite Hg. now left.
Qed.

Lemma incident_endpoints_visited db uid t :
  In t (transactions db) -> source_user_id t = uid \/ target_user_id t = uid ->
  In (source_user_id t) (visited_after db uid 2)
  /\ In (target_user_id t) (visited_after db uid 2).
Proof.
  intros Ht Hinc.
  destruct (first_round_neighbors (transactions db) uid t Ht Hinc) as [H1 H2].
  assert (Hm : incl (visited_after db uid 1) (visited_after db uid 2)).
  { apply (SubgraphFacts.visited_after_monotone db uid 1). lia. }
  split; apply Hm; assumption.
Qed.

(** The links of the 2-hop subgraph that touch the focal account are all
    the ledger rows that touch it, in table order. *)
Lemma incident_links db uid :
  filter (incident uid) (links (get_user_subgraph db uid 2))
  = map link_of (incident_transactions db uid).
Proof.
  unfold get_user_subgraph, incident_transactions; simpl.
  set (v := visited_after db uid 2).
  assert (H : forall l, incl l (transactions db) ->
    filter (incident uid)
      (map link_of (filter (fun t => mem (source_user_id t) v && mem (target_user_id t) v) l))
    = map link_of
        (filter (fun t => (source_user_id t =? uid)%string || (target_user_id t =? uid)%string) l)).
  { induction l as [| t l IH]; intros Hl; simpl; [reflexivity|].
    assert (Hl' : incl l (transactions db)) by (intros x Hx; apply Hl; now right).
    specialize (IH Hl').
    destruct ((source_user_id t =? uid)%string || (target_user_id t =? uid)%string) eqn:E.
    - assert (Hinc : source_user_id t = uid \/ target_user_id t = uid).
      { apply orb_true_iff in E. rewrite !String.eqb_eq in E. exact E. }
      destruct (incident_endpoints_visited db uid t (Hl t (or_introl eq_refl)) Hinc)
        as [H1 H2].
      apply SubgraphFacts.mem_In in H1, H2. fold v in H1, H2. rewrite H1, H2. simpl.
      unfold incident at 1. simpl. rewrite E. now rewrite IH.
    - destruct (mem (source_user_id t) v && mem (target_user_id t) v); simpl;
        [|exact IH].
      unfold incident at 1. simpl. rewrite E. exact IH. }
  apply H, incl_refl.
Qed.

Lemma sumQ_total_from l : forall a, fold_left Qplus l a == a + total l.
Proof.
  induction l as [| x l IH]; intros a; simpl.
  - ring.
  - rewrite IH. ring.
Qed.

Lemma sumQ_total l : sumQ l == total l.
Proof. unfold sumQ. rewrite sumQ_total_from. ring. Qed.

Lemma clamp_forms c : Qmin (Qmax c 0) 1 == clamp01 c.
Proof.
  unfold clamp01.
  destruct (Qlt_le_dec c 0) as [Hneg | Hpos].
  - rewrite (Q.max_r c 0) by lra. rewrite (Q.min_l c 1) by lra.
    rewrite (Q.min_l 0 1) by lra. rewrite (Q.max_l 0 c) by lra. reflexivity.
  - rewrite (Q.max_l c 0) by lra.
    destruct (Qlt_le_dec 1 c) as [Hbig | Hin].
    + rewrite (Q.min_r c 1) by lra. rewrite (Q.max_r 0 1) by lra. reflexivity.
    + rewrite (Q.min_l c 1) by lra. rewrite (Q.max_r 0 c) by lra. reflexivity.
Qed.

#[local] Instance clamp01_compat : Proper (Qeq ==> Qeq) clamp01.
Proof. intros x y H. unfold clamp01. now rewrite H. Qed.

Lemma clamp01_bounds x : 0 <= clamp01 x /\ clamp01 x <= 1.
Proof.
  unfold clamp01. split.
  - apply Q.le_max_l.
  - apply Q.max_lub; [lra | apply Q.le_min_r].
Qed.

Lemma clamp01_inside x : 0 <= x -> x <= 1 -> clamp01 x == x.
Proof.
  intros H0 H1. unfold clamp01.
  rewrite (Q.min_l x 1) by exact H1. now apply Q.max_r.
Qed.

Lemma round_half_even_compat x y : x == y -> round_half_even x = round_half_even y.
Proof.
  intros H. unfold round_half_even.
  rewrite (Qfloor_comp x y H).
  assert (Hc : Qcompare (x - inject_Z (Qfloor y)) (1 # 2)
               = Qcompare (y - inject_Z (Qfloor y)) (1 # 2)).
  { apply Qcompare_comp; [now rewrite H | reflexivity]. }
  now rewrite Hc.
Qed.

Lemma round4_compat x y : x == y -> round4 x = round4 y.
Proof.
  intros H. unfold round4. f_equal. f_equal.
  apply round_half_even_compat. now rewrite H.
Qed.

(** [round_half_even] picks an integer at distance at most 1/2. *)
Lemma round_half_even_near y :
  y - (1 # 2) <= inject_Z (round_half_even y)
  /\ inject_Z (round_half_even y) <= y + (1 # 2).
Proof.
  unfold round_half_even.
  pose proof (Qfloor_le y) as Hlo. pose proof (Qlt_floor y) as Hhi.
  rewrite inject_Z_plus in Hhi. change (inject_Z 1) with 1 in Hhi.
  destruct (Qcompare (y - inject_Z (Qfloor y)) (1 # 2)) eqn:E.
  - apply Qeq_alt in E. destruct (Z.even (Qfloor y)).
    + split; lra.
    + rewrite inject_Z_plus. change (inject_Z 1) with 1. split; lra.
  - apply Qlt_alt in E. split; lra.
  - apply Qgt_alt in E. rewrite inject_Z_plus. change (inject_Z 1) with 1. split; lra.
Qed.


Lemma length_filter_map {A B : Type} (f : B -> bool) (g : A -> B) (l : list A) :
  List.length (filter f (map g l)) = List.length (filter (fun a => f (g a)) l).
Proof.
  induction l as [| a l IH]; simpl; [reflexivity|].
  destruct (f (g a)); simpl; now rewrite IH.
Qed.

Lemma calculate_risk_score_blend db uid user :
  _calculate_risk_score uid user (get_user_subgraph db uid 2)
  == clamp01 (blend db uid (risk_score user)).
Proof.
  unfold _calculate_risk_score. cbv zeta.
  rewrite incident_links, !map_map, length_filter_map, !length_map.
  change (map (fun x => link_amount (link_of x)) (incident_transactions db uid))
    with (map amount (incident_transactions db uid)).
  rewrite clamp_forms. apply clamp01_compat.
  unfold blend, volume_risk, high_value_risk, max_incident_amount, structuring_risk.
  fold (other_accounts db uid).
  assert (Havg :
    match map risk_score (other_accounts db uid) with
    | [] => 0.5
    | _ :: _ =>
        sumQ (map risk_score (other_accounts db uid))
        / inject_Z (Z.of_nat (List.length (other_accounts db uid)))
    end == avg_neighbor_risk db uid).
  { unfold avg_neighbor_risk, mean.
    destruct (other_accounts db uid) as [| o l]; [reflexivity|].
    cbn [map]. rewrite sumQ_total. cbn [List.length]. rewrite length_map. reflexivity. }
  rewrite Havg.
  change (fun a : Transaction => in_structuring_range (link_amount (link_of a)))
    with (fun t : Transaction => Qle_bool 9000 (amount t) && Qle_bool (amount t) 9999).
  ring.
Qed.




End RiskFacts.

(* ================================================================== *)
(** ** Ring detection *)
(* ================================================================== *)

Module RingFacts.
Import Store RingSpec.

(** *** The adjacency map only holds ledger rows *)

Section Adjacency.
Variable db : DB.

Lemma adj_append_justified adj t :
  In t (transactions db) -> Forall (adjacency_justified db) adj ->
  Forall (adjacency_justified db)
    (adj_append adj (source_user_id t) (mkEdge (target_user_id t) (amount t))).
Proof.
  intros Ht Hadj. unfold adj_append.
  destruct (mem (source_user_id t) (map fst adj)).
  - apply Forall_forall. intros kv Hkv. apply in_map_iff in Hkv.
    destruct Hkv as [kv0 [<- Hkv0]].
    pose proof (proj1 (Forall_forall _ _) Hadj kv0 Hkv0) as Hj.
    destruct (fst kv0 =? source_user_id t)%string eqn:E; [|exact Hj].
    apply String.eqb_eq in E. intros e He. simpl in *.
    apply in_app_or in He. destruct He as [He | [<- | []]].
    + now apply Hj.
    + exists t. simpl. auto.
  - apply Forall_app. split; [exact Hadj|]. constructor; [|constructor].
    intros e [<- | []]. exists t. simpl. auto.
Qed.

Lemma build_adj_justified_from l : forall adj,
  incl l (transactions db) -> Forall (adjacency_justified db) adj ->
  Forall (adjacency_justified db)
    (fold_left (fun adj t => adj_append adj (source_user_id t)
                               (mkEdge (target_user_id t) (amount t))) l adj).
Proof.
  induction l as [| t l IH]; intros adj Hl Hadj; simpl; [exact Hadj|].
  apply IH.
  - intros x Hx. apply Hl. now right.
  - apply adj_append_justified; [apply Hl; now left | exact Hadj].
Qed.

Lemma adj_get_linked k e :
  In e (adj_get (build_adj (transactions db)) k) -> linked db k (edge_target e).
Proof.
  unfold adj_get. intros He.
  destruct (find (fun kv => (fst kv =? k)%string) (build_adj (transactions db)))
    as [kv|] eqn:F; [|contradiction].
  apply find_some in F. destruct F as [Hin Hk]. apply String.eqb_eq in Hk.
  assert (Hall : Forall (adjacency_justified db) (build_adj (transactions db))).
  { apply build_adj_justified_from; [apply incl_refl | constructor]. }
  rewrite <- Hk. exact (proj1 (Forall_forall _ _) Hall kv Hin e He).
Qed.

End Adjacency.

(** *** Soundness of the search *)

Lemma ring_ids_ring_of db p : ring_ids (ring_of db p) = p.
Proof.
  unfold ring_ids, ring_of; simpl. rewrite map_map. simpl. apply map_id.
Qed.

Lemma chain_snoc db p n :
  p <> [] -> chain db p -> linked db (last p "") n -> chain db (p ++ [n]).
Proof.
  induction p as [| a p IH]; intros Hne Hc Hl; [congruence|].
  destruct p as [| b p].
  - simpl in *. split; [exact Hl | exact I].
  - destruct Hc as [Hab Hc]. split; [exact Hab|].
    apply IH; [discriminate | exact Hc | exact Hl].
Qed.

Lemma hd_snoc (p : list string) n : p <> [] -> hd "" (p ++ [n]) = hd "" p.
Proof. destruct p; [congruence | reflexivity]. Qed.

(** Every ring the search appends is the current path, which is a closed
    path of at least three different accounts. *)
Lemma dfs_sound db max_depth fuel : forall start current p visited depth r,
  p <> [] -> hd "" p = start -> last p "" = current ->
  NoDup p -> chain db p -> (forall x, In x visited <-> In x p) ->
  In r (dfs fuel db (build_adj (transactions db)) max_depth
            start current p visited depth) ->
  exists p', r = ring_of db p' /\ is_ring db p'.
Proof.
  induction fuel as [| fuel IH]; intros start current p visited depth r
    Hne Hhd Hlast Hnd Hch Hvis Hr; cbn [dfs] in Hr; [contradiction|].
  destruct (max_depth <? depth); [contradiction|].
  apply in_flat_map in Hr. destruct Hr as [edge [Hedge Hr]].
  pose proof (adj_get_linked db current edge Hedge) as Hlink.
  cbv beta zeta in Hr.
  destruct ((edge_target edge =? start)%string && (3 <=? List.length p)%nat) eqn:E.
  - destruct Hr as [<- | []]. exists p. split; [reflexivity|].
    apply andb_true_iff in E. destruct E as [E1 E2].
    apply String.eqb_eq in E1. apply Nat.leb_le in E2.
    repeat split; try assumption.
    rewrite Hlast, Hhd, <- E1. exact Hlink.
  - destruct (mem (edge_target edge) visited) eqn:M; simpl in Hr; [contradiction|].
    apply SubgraphFacts.mem_false in M.
    apply (IH start (edge_target edge) (p ++ [edge_target edge])
              (visited ++ [edge_target edge]) (depth + 1) r); try assumption.
    + destruct p; discriminate.
    + now rewrite hd_snoc.
    + apply last_last.
    + apply NoDup_app; [exact Hnd | repeat constructor; auto |].
      intros x Hx [<- | []]. apply M, Hvis, Hx.
    + apply chain_snoc; [exact Hne | exact Hch | now rewrite Hlast].
    + intros x. rewrite !in_app_iff, Hvis. tauto.
Qed.

(** The fuel handed over by the caller is never exhausted: more fuel
    gives the same rings. *)
Lemma dfs_fuel db adj max_depth fuel : forall start current p visited depth,
  (Z.to_nat (max_depth + 1 - depth) < fuel)%nat ->
  dfs fuel db adj max_depth start current p visited depth
  = dfs (S (Z.to_nat (max_depth + 1 - depth))) db adj max_depth
        start current p visited depth.
Proof.
  induction fuel as [| fuel IH]; intros start current p visited depth Hf; [lia|].
  cbn [dfs]. destruct (max_depth <? depth) eqn:E; [reflexivity|].
  apply Z.ltb_ge in E.
  assert (Hn : Z.to_nat (max_depth + 1 - depth)
               = S (Z.to_nat (max_depth + 1 - (depth + 1)))) by lia.
  apply flat_map_ext. intros edge.
  destruct ((edge_target edge =? start)%string && (3 <=? List.length p)%nat);
    [reflexivity|].
  destruct (negb (mem (edge_target edge) visited)); [|reflexivity].
  rewrite IH by lia. rewrite Hn. reflexivity.
Qed.

Lemma discovered_rings_sound db max_depth r :
  In r (discovered_rings db max_depth) ->
  exists p, r = ring_of db p /\ is_ring db p.
Proof.
  unfold discovered_rings. intros Hr.
  apply in_flat_map in Hr. destruct Hr as [s [_ Hr]].
  apply (dfs_sound db max_depth (Z.to_nat (max_depth + 1) + 1) s s [s] [s] 0 r);
    try assumption; try reflexivity; try discriminate.
  repeat constructor. simpl. tauto.
Qed.

(** *** The canonical form of a ring *)

Lemma leb_cases a b :
  String.leb a b = true <-> a = b \/ String_as_OT.lt a b.
Proof.
  unfold String.leb. split.
  - destruct (String.compare a b) eqn:E; intros H; try discriminate.
    + left. now apply String.compare_eq_iff.
    + right. now apply String_as_OT.cmp_lt.
  - intros [-> | H].
    + assert (E : String.compare b b = Eq) by (now apply String_as_OT.cmp_eq).
      now rewrite E.
    + apply String_as_OT.cmp_lt in H. unfold String_as_OT.cmp in H. now rewrite H.
Qed.

Lemma leb_trans a b c :
  String.leb a b = true -> String.leb b c = true -> String.leb a c = true.
Proof.
  rewrite !leb_cases. intros [-> | H1] [-> | H2]; auto.
  right. eapply String_as_OT.lt_trans; eassumption.
Qed.

Lemma insert_sorted_perm x l : Permutation (insert_sorted x l) (x :: l).
Proof.
  induction l as [| y l IH]; simpl; [reflexivity|].
  destruct (String.leb x y); [reflexivity|].
  rewrite IH. apply perm_swap.
Qed.

Lemma sorted_perm l : Permutation (sorted l) l.
Proof.
  induction l as [| x l IH]; simpl; [reflexivity|].
  rewrite insert_sorted_perm. now constructor.
Qed.

Lemma insert_sorted_ordered x l :
  StronglySorted string_le l -> StronglySorted string_le (insert_sorted x l).
Proof.
  induction l as [| y l IH]; intros Hs; simpl.
  - repeat constructor.
  - inversion Hs as [| ? ? Hs' Hall]; subst.
    destruct (String.leb x y) eqn:E.
    + constructor; [exact Hs|]. constructor; [exact E|].
      eapply Forall_impl; [|exact Hall]. intros z Hz. eapply leb_trans; eassumption.
    + constructor; [now apply IH|].
      assert (Hyx : string_le y x).
      { destruct (String.leb_total x y) as [H | H]; [congruence | exact H]. }
      apply Forall_forall. intros z Hz.
      apply (Permutation_in _ (insert_sorted_perm x l)) in Hz.
      destruct Hz as [<- | Hz]; [exact Hyx|].
      exact (proj1 (Forall_forall _ _) Hall z Hz).
Qed.

Lemma sorted_ordered l : StronglySorted string_le (sorted l).
Proof.
  induction l as [| x l IH]; simpl; [constructor | now apply insert_sorted_ordered].
Qed.

(** An ascending list is determined by its elements. *)
Lemma ordered_perm_unique l1 : forall l2,
  StronglySorted string_le l1 -> StronglySorted string_le l2 ->
  Permutation l1 l2 -> l1 = l2.
Proof.
  induction l1 as [| a l1 IH]; intros l2 H1 H2 HP.
  - apply Permutation_nil in HP. now subst.
  - destruct l2 as [| b l2]; [apply Permutation_sym, Permutation_nil in HP; discriminate|].
    inversion H1 as [| ? ? H1' A1]; subst. inversion H2 as [| ? ? H2' A2]; subst.
    assert (Hab : a = b).
    { assert (Ha : In a (b :: l2)) by (eapply Permutation_in; [exact HP | now left]).
      assert (Hb : In b (a :: l1))
        by (eapply Permutation_in; [apply Permutation_sym; exact HP | now left]).
      destruct Ha as [-> | Ha]; [reflexivity|].
      destruct Hb as [-> | Hb]; [reflexivity|].
      apply String.leb_antisym.
      - exact (proj1 (Forall_forall _ _) A1 b Hb).
      - exact (proj1 (Forall_forall _ _) A2 a Ha). }
    subst b. f_equal. apply IH; try assumption.
    eapply Permutation_cons_inv; exact HP.
Qed.

Lemma sorted_of_perm l1 l2 : Permutation l1 l2 -> sorted l1 = sorted l2.
Proof.
  intros HP. apply ordered_perm_unique; try apply sorted_ordered.
  rewrite !sorted_perm. exact HP.
Qed.

(** For duplicate-free id lists the sorted tuple identifies the unordered
    set. *)
Lemma sorted_eq_iff_same_set l1 l2 :
  NoDup l1 -> NoDup l2 ->
  (sorted l1 = sorted l2 <-> forall x, In x l1 <-> In x l2).
Proof.
  intros N1 N2. split.
  - intros E x.
    split; intros H.
    + apply (Permutation_in _ (sorted_perm l2)). rewrite <- E.
      apply (Permutation_in _ (Permutation_sym (sorted_perm l1))). exact H.
    + apply (Permutation_in _ (sorted_perm l1)). rewrite E.
      apply (Permutation_in _ (Permutation_sym (sorted_perm l2))). exact H.
  - intros H. apply sorted_of_perm. now apply NoDup_Permutation.
Qed.

Lemma same_accounts_b_iff r1 r2 :
  same_accounts_b r1 r2 = true <-> same_accounts r1 r2.
Proof.
  unfold same_accounts_b, same_accounts.
  rewrite andb_true_iff, !forallb_forall. split.
  - intros [H1 H2] x. split; intros H.
    + apply SubgraphFacts.mem_In. now apply H1.
    + apply SubgraphFacts.mem_In. now apply H2.
  - intros H. split; intros x Hx; apply SubgraphFacts.mem_In; now apply H.
Qed.

Lemma ids_eqb_iff a b : ids_eqb a b = true <-> a = b.
Proof.
  unfold ids_eqb. destruct (list_eq_dec string_dec a b); split; congruence.
Qed.

(** On duplicate-free rings the key comparison of the source decides
    equality of the account sets. *)
Lemma key_decides_same_accounts r1 r2 :
  NoDup (ring_ids r1) -> NoDup (ring_ids r2) ->
  ids_eqb (path_ids r1) (path_ids r2) = same_accounts_b r1 r2.
Proof.
  intros N1 N2. apply eq_true_iff_eq.
  rewrite ids_eqb_iff, same_accounts_b_iff. unfold path_ids.
  fold (ring_ids r1) (ring_ids r2). now apply sorted_eq_iff_same_set.
Qed.

(** *** Duplicate removal keeps the first ring of each account set *)

Lemma same_accounts_sym r1 r2 : same_accounts r1 r2 -> same_accounts r2 r1.
Proof. intros H x. symmetry. apply H. Qed.

Lemma same_accounts_trans r1 r2 r3 :
  same_accounts r1 r2 -> same_accounts r2 r3 -> same_accounts r1 r3.
Proof. intros H1 H2 x. rewrite (H1 x). apply H2. Qed.

Lemma keep_first_refines l : forall seen acc earlier,
  Forall (fun r => NoDup (ring_ids r)) l ->
  (forall r, NoDup (ring_ids r) ->
     existsb (ids_eqb (path_ids r)) seen = existsb (same_accounts_b r) earlier) ->
  snd (fold_left keep_first l (seen, acc)) = acc ++ first_of_each_set earlier l.
Proof.
  induction l as [| r l IH]; intros seen acc earlier Hnd Hinv; simpl.
  - now rewrite app_nil_r.
  - inversion Hnd as [| ? ? Hr Hl]; subst.
    unfold keep_first at 2. cbn [fst snd]. rewrite (Hinv r Hr).
    destruct (existsb (same_accounts_b r) earlier) eqn:E.
    + apply IH; [exact Hl|]. intros r2 H2.
      rewrite (Hinv r2 H2), existsb_app. cbn [existsb]. rewrite orb_false_r.
      destruct (same_accounts_b r2 r) eqn:S2; [|now rewrite orb_false_r].
      rewrite orb_true_r. apply existsb_exists in E. destruct E as [e [He Se]].
      apply existsb_exists. exists e. split; [exact He|].
      apply same_accounts_b_iff. apply same_accounts_b_iff in S2, Se.
      eapply same_accounts_trans; eassumption.
    + rewrite (IH (seen ++ [path_ids r]) (acc ++ [r]) (earlier ++ [r]) Hl).
      * now rewrite <- app_assoc.
      * intros r2 H2. rewrite !existsb_app. cbn [existsb].
        rewrite (Hinv r2 H2), (key_decides_same_accounts r2 r H2 Hr). reflexivity.
Qed.

Lemma first_of_each_set_subset l : forall earlier r,
  In r (first_of_each_set earlier l) -> In r l.
Proof.
  induction l as [| a l IH]; intros earlier r Hr; simpl in *; [contradiction|].
  destruct (existsb (same_accounts_b a) earlier).
  - right. eapply IH; eassumption.
  - destruct Hr as [-> | Hr]; [now left | right; eapply IH; eassumption].
Qed.

(** A kept ring shares its account set with no ring discovered before it. *)
Lemma first_of_each_set_new l : forall earlier,
  Forall (fun r => forall e, In e earlier -> ~ same_accounts e r)
         (first_of_each_set earlier l).
Proof.
  induction l as [| a l IH]; intros earlier; simpl; [constructor|].
  assert (Hrest : Forall (fun r => forall e, In e earlier -> ~ same_accounts e r)
                         (first_of_each_set (earlier ++ [a]) l)).
  { eapply Forall_impl; [|apply IH]. intros r Hr e He. apply Hr.
    apply in_or_app. now left. }
  destruct (existsb (same_accounts_b a) earlier) eqn:E; [exact Hrest|].
  constructor; [|exact Hrest].
  intros e He Hs.
  assert (Ht : existsb (same_accounts_b a) earlier = true).
  { apply existsb_exists. exists e. split; [exact He|].
    apply same_accounts_b_iff, same_accounts_sym, Hs. }
  congruence.
Qed.

Lemma first_of_each_set_distinct l : forall earlier,
  ForallOrdPairs (fun r1 r2 => ~ same_accounts r1 r2) (first_of_each_set earlier l).
Proof.
  induction l as [| a l IH]; intros earlier; simpl; [constructor|].
  destruct (existsb (same_accounts_b a) earlier); [apply IH|].
  constructor; [|apply IH].
  eapply Forall_impl; [|apply first_of_each_set_new].
  intros r Hr. apply Hr. apply in_or_app. right. now left.
Qed.

Lemma firstn_subset {A : Type} n : forall (l : list A) x, In x (firstn n l) -> In x l.
Proof.
  induction n as [| n IH]; intros [| a l] x Hx; simpl in *; try contradiction.
  destruct Hx as [-> | Hx]; [now left | right; now apply IH].
Qed.

Lemma firstn_distinct {A : Type} (R : A -> A -> Prop) n : forall l,
  ForallOrdPairs R l -> ForallOrdPairs R (firstn n l).
Proof.
  induction n as [| n IH]; intros l Hl; [constructor|].
  destruct Hl as [| a l Ha Hl]; simpl; [constructor|].
  constructor; [|now apply IH].
  apply Forall_forall. intros x Hx. apply firstn_subset in Hx.
  exact (proj1 (Forall_forall _ _) Ha x Hx).
Qed.

Lemma unique_rings_first_of_each_set db max_depth :
  snd (fold_left keep_first (discovered_rings db max_depth) ([], []))
  = first_of_each_set [] (discovered_rings db max_depth).
Proof.
  rewrite (keep_first_refines _ [] [] []); [reflexivity | | reflexivity].
  apply Forall_forall. intros r Hr.
  destruct (discovered_rings_sound db max_depth r Hr) as [p [-> Hp]].
  rewrite ring_ids_ring_of. apply Hp.
Qed.

(** C6: every returned ring is a closed path of at least three pairwise
    different accounts; the returned list is the first 20 of the
    discovered rings, in discovery order, after dropping each ring whose
    account set was already discovered; no two returned rings have the
    same account set. *)
Theorem ring_detection_contract (db : DB) (max_depth : Z) :
  let result := find_laundering_rings db max_depth in
  (forall r, In r result ->
     In r (discovered_rings db max_depth)
     /\ (3 <= List.length (path r))%nat
     /\ NoDup (ring_ids r)
     /\ is_ring db (ring_ids r)
     /\ ring_length r = List.length (path r))
  /\ result = firstn 20 (first_of_each_set [] (discovered_rings db max_depth))
  /\ ForallOrdPairs (fun r1 r2 => ~ same_accounts r1 r2) result
  /\ (List.length result <= 20)%nat.
Proof.
  cbv zeta. unfold find_laundering_rings. cbv zeta.
  rewrite unique_rings_first_of_each_set.
  split; [|split; [|split]].
  - intros r Hr. apply firstn_subset, first_of_each_set_subset in Hr.
    split; [exact Hr|].
    destruct (discovered_rings_sound db max_depth r Hr) as [p [-> Hp]].
    rewrite ring_ids_ring_of. unfold ring_of; simpl. rewrite length_map.
    destruct Hp as (H3 & Hnd & Hch & Hcl). repeat split; assumption.
  - reflexivity.
  - apply firstn_distinct, first_of_each_set_distinct.
  - apply firstn_le_length.
Qed.

(** On the sample ledger seven closed paths are discovered and two
    account sets remain. *)
Example rings_db_result :
  List.length (discovered_rings Fixtures.rings_db 6) = 7%nat
  /\ map ring_ids (find_laundering_rings Fixtures.rings_db 6)
     = [["A"; "B"; "C"]; ["A"; "B"; "C"; "D"]]%string.
Proof. split; reflexivity. Qed.

End RingFacts.

(* ================================================================== *)
(** ** Further properties of the transaction processor *)
(* ================================================================== *)

Module ProcessorFacts.
Import Store Txn Vocab ExtraSpec.
Local Open Scope Q_scope.

Section Processor.
Variable fraud_service : DB -> string -> exn + Fraud.FraudResult.

Lemma Forall2_map_self {A : Type} (R : A -> A -> Prop) (f : A -> A) (l : list A) :
  (forall x, R x (f x)) -> Forall2 R l (map f l).
Proof. intros H. induction l; simpl; constructor; auto. Qed.

(** A submission either passes the checks or is rejected without a
    write. *)
Lemma create_transaction_cases now src tgt amt cur ty db :
  (exists su tu, passes_checks db src tgt amt su tu)
  \/ (exists e, create_transaction fraud_service now src tgt amt cur ty db = (inl e, db)
                /\ rejection_of db src tgt e
                /\ forall su tu, ~ passes_checks db src tgt amt su tu).
Proof.
  unfold rejection_of, passes_checks.
  unfold create_transaction, bind, query, raise.
  destruct (get_user_by_id db src) as [su|] eqn:Hs.
  2:{ right. eexists. split; [reflexivity|]. split; [reflexivity|].
      intros su tu (H & _). discriminate. }
  destruct (get_user_by_id db tgt) as [tu|] eqn:Ht.
  2:{ right. eexists. split; [reflexivity|]. split; [reflexivity|].
      intros su' tu (_ & H & _). discriminate. }
  destruct (status su =? "FROZEN")%string eqn:Hf.
  { right. eexists. split; [reflexivity|]. split; [reflexivity|].
    intros su' tu' (H & _ & Hn & _). injection H as <-.
    apply Hn. now apply String.eqb_eq. }
  destruct (Qlt_bool (balance su) amt) eqn:Hb.
  { right. eexists. split; [reflexivity|]. split; [reflexivity|].
    intros su' tu' (H & _ & _ & Hle). injection H as <-.
    apply TxnFacts.Qlt_bool_iff in Hb. exact (Qlt_not_le _ _ Hb Hle). }
  left. exists su, tu. repeat split; try reflexivity.
  - now apply String.eqb_neq.
  - now apply TxnFacts.Qlt_bool_false.
Qed.

(** X1: a submission that fails a check is rejected with the error of
    the first failing check (source, target, frozen, balance) and nothing
    is written. *)
Theorem rejected_submission_writes_nothing now src tgt amt cur ty db :
  (forall su tu, ~ passes_checks db src tgt amt su tu) ->
  exists e,
    create_transaction fraud_service now src tgt amt cur ty db = (inl e, db)
    /\ rejection_of db src tgt e.
Proof.
  intros Hno.
  destruct (create_transaction_cases now src tgt amt cur ty db)
    as [(su & tu & Hp) | (e & Hrun & Hrej & _)].
  - exfalso. exact (Hno su tu Hp).
  - exists e. now split.
Qed.

(** A frozen source is always turned away, whatever else holds. *)
Lemma frozen_source_rejected now src tgt amt cur ty db :
  status_of db src = Some "FROZEN"%string ->
  exists e,
    create_transaction fraud_service now src tgt amt cur ty db = (inl e, db)
    /\ (e = ValueError "Account is frozen. Cannot process transactions."
        \/ e = ValueError ("Target user " ++ tgt ++ " not found")%string).
Proof.
  intros Hfz. unfold status_of in Hfz.
  destruct (get_user_by_id db src) as [su|] eqn:Hs; [|discriminate].
  simpl in Hfz. injection Hfz as Hfz.
  destruct (create_transaction_cases now src tgt amt cur ty db)
    as [(su' & tu & Hp) | (e & Hrun & Hrej & _)].
  - destruct Hp as (H & _ & Hn & _). rewrite Hs in H. injection H as <-.
    contradiction.
  - exists e. split; [exact Hrun|]. unfold rejection_of in Hrej.
    rewrite Hs in Hrej. destruct (get_user_by_id db tgt); [|now right].
    rewrite Hfz in Hrej. now left.
Qed.

(** X2: once a submission has been BLOCKED for structuring, every later
    submission from the same source is rejected and writes nothing. *)
Theorem blocked_source_stays_out now src tgt amt cur ty db su tu
    now' tgt' amt' cur' ty' :
  passes_checks db src tgt amt su tu ->
  _detect_structuring db now src amt = true ->
  exists r db',
    create_transaction fraud_service now src tgt amt cur ty db = (inr r, db')
    /\ r_status r = "BLOCKED"%string
    /\ exists e,
         create_transaction fraud_service now' src tgt' amt' cur' ty' db' = (inl e, db')
         /\ (e = ValueError "Account is frozen. Cannot process transactions."
             \/ e = ValueError ("Target user " ++ tgt' ++ " not found")%string).
Proof.
  intros Hp Hsd.
  destruct (TxnFacts.blocked_and_frozen fraud_service now src tgt amt cur ty db su tu Hp Hsd)
    as (r & db' & Hrun & Hst & Hfz).
  exists r, db'. split; [exact Hrun|]. split; [exact Hst|].
  now apply frozen_source_rejected.
Qed.

(** The store a processed submission leaves behind. *)
Lemma processed_store now src tgt amt cur ty db su tu :
  passes_checks db src tgt amt su tu ->
  exists r db' (sd approved : bool) row,
    create_transaction fraud_service now src tgt amt cur ty db = (inr r, db')
    /\ sd = _detect_structuring db now src amt
    /\ approved = (r_status r =? "APPROVED")%string
    /\ (sd = true -> approved = false)
    /\ appeals db' = appeals db
    /\ transactions db' = transactions db ++ [row]
    /\ (transaction_id row
          = ("TX" ++ format_06d (List.length (transactions db) + 1))%string
        /\ source_user_id row = src /\ target_user_id row = tgt
        /\ amount row = amt /\ timestamp row = now
        /\ tx_status row = r_status r)
    /\ users db'
       = (if approved
          then map (fun u => if (user_id u =? tgt)%string
                             then set_balance (balance tu + amt) u else u)
                   (map (fun u => if (user_id u =? src)%string
                                  then set_balance (balance su - amt) u else u)
                        (users db))
          else if sd
               then map (fun u => if (user_id u =? src)%string
                                  then set_status "FROZEN" u else u) (users db)
               else users db).
Proof.
  intros Hp.
  destruct (TxnFacts.create_transaction_run fraud_service now src tgt amt cur ty db su tu Hp)
    as (r & Hrun & Hst & Hai & _).
  cbv zeta in Hrun, Hst, Hai. clear Hai.
  destruct (_detect_structuring db now src amt) eqn:Hsd;
    [| match type of Hst with
       | context [if ?b then "FLAGGED"%string else _] => destruct b
       end ];
    simpl in Hrun, Hst;
    (exists r; eexists; eexists; exists (r_status r =? "APPROVED")%string; eexists;
     split; [exact Hrun|]; rewrite Hst;
     simpl; repeat split; try reflexivity; try discriminate).
Qed.

(** X3: whatever the outcome, a submission leaves the appeals alone, keeps
    every earlier transaction row and adds at most one, and changes no
    account beyond the status of the source and the balances of source
    and target. *)
Theorem create_transaction_frame now src tgt amt cur ty db :
  let out := create_transaction fraud_service now src tgt amt cur ty db in
  appeals (snd out) = appeals db
  /\ (exists added, transactions (snd out) = transactions db ++ added
                    /\ (List.length added <= 1)%nat
                    /\ (added = [] <-> exists e, fst out = inl e))
  /\ Forall2 (fun u u' =>
                user_id u' = user_id u /\ name u' = name u
                /\ risk_score u' = risk_score u
                /\ account_age_days u' = account_age_days u
                /\ (user_id u <> src -> status u' = status u)
                /\ (user_id u <> src -> user_id u <> tgt -> balance u' = balance u))
             (users db) (users (snd out)).
Proof.
  cbv zeta.
  assert (Hsame : forall l : list User,
    Forall2 (fun u u' =>
                user_id u' = user_id u /\ name u' = name u
                /\ risk_score u' = risk_score u
                /\ account_age_days u' = account_age_days u
                /\ (user_id u <> src -> status u' = status u)
                /\ (user_id u <> src -> user_id u <> tgt -> balance u' = balance u))
            l l).
  { induction l; constructor; auto. repeat split; auto. }
  destruct (create_transaction_cases now src tgt amt cur ty db)
    as [(su & tu & Hp) | (e & Hrun & _)].
  - destruct (processed_store now src tgt amt cur ty db su tu Hp)
      as (r & db' & sd & approved & row & Hrun & _ & _ & _ & Hap & Htx & _ & Hus).
    rewrite Hrun. cbn [fst snd]. split; [exact Hap|]. split.
    + exists [row]. split; [exact Htx|]. split; [simpl; lia|].
      split; [discriminate | intros [e He]; discriminate].
    + rewrite Hus. destruct approved; [|destruct sd]; try apply Hsame.
      * rewrite map_map. apply Forall2_map_self. intros u.
        destruct (user_id u =? src)%string eqn:E1; simpl;
          destruct (user_id u =? tgt)%string eqn:E2; simpl;
          apply String.eqb_eq in E1 || apply String.eqb_neq in E1;
          apply String.eqb_eq in E2 || apply String.eqb_neq in E2;
          repeat split; intros; try reflexivity; try contradiction.
      * apply Forall2_map_self. intros u.
        destruct (user_id u =? src)%string eqn:E1; simpl;
          apply String.eqb_eq in E1 || apply String.eqb_neq in E1;
          repeat split; intros; try reflexivity; try contradiction.
  - rewrite Hrun. cbn [fst snd]. split; [reflexivity|]. split; [|apply Hsame].
    exists []. split; [now rewrite app_nil_r|]. split; [simpl; lia|].
    split; [intros _; now exists e | reflexivity].
Qed.


(** X5: with a non-negative amount, a submission never makes a balance
    negative: if no stored balance is negative before, none is after. *)
Theorem balances_stay_nonnegative now src tgt amt cur ty db :
  0 <= amt ->
  Forall (fun u => 0 <= balance u) (users db) ->
  Forall (fun u => 0 <= balance u)
         (users (snd (create_transaction fraud_service now src tgt amt cur ty db))).
Proof.
  intros Hamt Hall.
  destruct (create_transaction_cases now src tgt amt cur ty db)
    as [(su & tu & Hp) | (e & Hrun & _)]; [|now rewrite Hrun].
  destruct (processed_store now src tgt amt cur ty db su tu Hp)
    as (r & db' & sd & approved & row & Hrun & _ & _ & _ & _ & _ & _ & Hus).
  rewrite Hrun. cbn [snd]. rewrite Hus.
  destruct Hp as (Hs & Ht & _ & Hle).
  assert (Htu : 0 <= balance tu).
  { unfold get_user_by_id in Ht. apply find_some in Ht.
    exact (proj1 (Forall_forall _ _) Hall tu (proj1 Ht)). }
  destruct approved; [|destruct sd]; try exact Hall.
  - rewrite map_map. apply Forall_forall. intros u' Hu'.
    apply in_map_iff in Hu'. destruct Hu' as [u [<- Hu]].
    pose proof (proj1 (Forall_forall _ _) Hall u Hu) as Hb.
    destruct (user_id u =? src)%string; simpl;
      destruct (user_id u =? tgt)%string; simpl; try exact Hb; lra.
  - apply Forall_forall. intros u' Hu'.
    apply in_map_iff in Hu'. destruct Hu' as [u [<- Hu]].
    pose proof (proj1 (Forall_forall _ _) Hall u Hu) as Hb.
    destruct (user_id u =? src)%string; simpl; exact Hb.
Qed.

End Processor.

Lemma rejected_submission_writes_nothing_witness :
  (forall su tu, ~ passes_checks Fixtures.single_db "U1" "U2" 1000 su tu)
  /\ exists e,
      create_transaction Fraud.detect_fraud 0 "U1" "U2" 1000 "USD" "transfer"
                         Fixtures.single_db = (inl e, Fixtures.single_db)
      /\ rejection_of Fixtures.single_db "U1" "U2" e.
Proof.
  assert (H : forall su tu, ~ passes_checks Fixtures.single_db "U1" "U2" 1000 su tu).
  { intros su tu (Hs & _ & _ & Hle). injection Hs as <-.
    vm_compute in Hle. apply Hle. reflexivity. }
  exact (conj H (rejected_submission_writes_nothing Fraud.detect_fraud 0 "U1" "U2"
                   1000 "USD" "transfer" Fixtures.single_db H)).
Defined.

Lemma blocked_source_stays_out_witness :
  passes_checks Fixtures.two_priors_db "S" "T" 9700
    (Fixtures.user "S" 0.1 50000 "ACTIVE") (Fixtures.user "T" 0.1 0 "ACTIVE")
  /\ _detect_structuring Fixtures.two_priors_db 200000 "S" 9700 = true
  /\ exists r db',
      create_transaction Fraud.detect_fraud 200000 "S" "T" 9700 "USD" "transfer"
                         Fixtures.two_priors_db = (inr r, db')
      /\ r_status r = "BLOCKED"%string
      /\ exists e,
           create_transaction Fraud.detect_fraud 200001 "S" "T" 1 "USD" "transfer" db'
           = (inl e, db')
           /\ (e = ValueError "Account is frozen. Cannot process transactions."
               \/ e = ValueError ("Target user " ++ "T" ++ " not found")%string).
Proof.
  split; [exact TxnFacts.two_priors_checks|]. split; [reflexivity|].
  exact (blocked_source_stays_out Fraud.detect_fraud 200000 "S" "T" 9700 "USD" "transfer"
           Fixtures.two_priors_db _ _ 200001 "T" 1 "USD" "transfer"
           TxnFacts.two_priors_checks eq_refl).
Defined.


Lemma single_db_nonnegative :
  Forall (fun u => 0 <= balance u) (users Fixtures.single_db).
Proof. repeat constructor; vm_compute; discriminate. Defined.

Lemma balances_stay_nonnegative_witness :
  0 <= 10
  /\ Forall (fun u => 0 <= balance u) (users Fixtures.single_db)
  /\ Forall (fun u => 0 <= balance u)
       (users (snd (create_transaction Fraud.detect_fraud 0 "U1" "U2" 10 "USD"
                      "transfer" Fixtures.single_db))).
Proof.
  assert (H : 0 <= 10) by (vm_compute; discriminate).
  exact (conj H (conj single_db_nonnegative
           (balances_stay_nonnegative Fraud.detect_fraud 0 "U1" "U2" 10 "USD"
              "transfer" Fixtures.single_db H single_db_nonnegative))).
Defined.

(** *** Transaction ids *)

Lemma parse_nat_leading_zero s : parse_nat (String "0" s) = parse_nat s.
Proof.
  unfold parse_nat. simpl.
  destruct (DecimalString.NilEmpty.uint_of_string s); reflexivity.
Qed.

Lemma parse_nat_pad k : forall s, parse_nat (pad_zeros k s) = parse_nat s.
Proof.
  induction k as [| k IH]; intros s; simpl; [reflexivity|].
  rewrite IH. apply parse_nat_leading_zero.
Qed.

Lemma parse_nat_format n : parse_nat (format_06d n) = Some n.
Proof.
  unfold format_06d. cbv zeta. rewrite parse_nat_pad. unfold parse_nat.
  rewrite DecimalString.NilEmpty.usu. simpl.
  now rewrite DecimalNat.Unsigned.of_to.
Qed.

Lemma tx_number_format n : tx_number ("TX" ++ format_06d n)%string = Some n.
Proof. simpl. apply parse_nat_format. Qed.

Lemma well_numbered_distinct db :
  well_numbered db -> NoDup (map transaction_id (transactions db)).
Proof.
  intros Hw. apply NoDup_nth_error. intros i j Hi Hij.
  rewrite length_map in Hi. rewrite !nth_error_map in Hij.
  destruct (nth_error (transactions db) i) as [t|] eqn:Ei.
  2:{ apply nth_error_None in Ei. lia. }
  destruct (nth_error (transactions db) j) as [t'|] eqn:Ej; [|discriminate].
  simpl in Hij. injection Hij as Hij.
  pose proof (tx_number_format (S i)) as Ni.
  rewrite <- (Hw i t Ei), Hij, (Hw j t' Ej), tx_number_format in Ni.
  now injection Ni.
Qed.

Lemma well_numbered_snoc db db' row :
  well_numbered db ->
  transactions db' = transactions db ++ [row] ->
  transaction_id row = ("TX" ++ format_06d (List.length (transactions db) + 1))%string ->
  well_numbered db'.
Proof.
  intros Hw Htx Hid i t Hi. rewrite Htx in Hi.
  destruct (Nat.lt_ge_cases i (List.length (transactions db))) as [Hlt | Hge].
  - rewrite nth_error_app1 in Hi by exact Hlt. now apply Hw.
  - rewrite nth_error_app2 in Hi by exact Hge.
    destruct (i - List.length (transactions db))%nat as [| k] eqn:Ek; simpl in Hi.
    + injection Hi as <-. rewrite Hid. do 2 f_equal. lia.
    + destruct k; discriminate.
Qed.

(** X6: the digits of a generated id read back as the row number, so in
    a store filled through the processor the ids stay pairwise different
    and every row carries its own position. *)
Theorem transaction_ids_stay_distinct fraud_service now src tgt amt cur ty db :
  well_numbered db ->
  let db' := snd (create_transaction fraud_service now src tgt amt cur ty db) in
  well_numbered db'
  /\ NoDup (map transaction_id (transactions db'))
  /\ forall i t, nth_error (transactions db') i = Some t ->
                 tx_number (transaction_id t) = Some (S i).
Proof.
  intros Hw db'.
  assert (Hw' : well_numbered db').
  { unfold db'.
    destruct (create_transaction_cases fraud_service now src tgt amt cur ty db)
      as [(su & tu & Hp) | (e & Hrun & _)]; [|now rewrite Hrun].
    destruct (processed_store fraud_service now src tgt amt cur ty db su tu Hp)
      as (r & db1 & sd & approved & row & Hrun & _ & _ & _ & _ & Htx & Hrow & _).
    rewrite Hrun. cbn [snd]. eapply well_numbered_snoc; [exact Hw | exact Htx |].
    apply Hrow. }
  split; [exact Hw'|]. split; [now apply well_numbered_distinct|].
  intros i t Hi. rewrite (Hw' i t Hi). apply tx_number_format.
Qed.

Lemma empty_store_well_numbered : well_numbered (mkDB (users Fixtures.single_db) [] []).
Proof. intros i t Hi. destruct i; discriminate. Defined.

Lemma transaction_ids_stay_distinct_witness :
  well_numbered (mkDB (users Fixtures.single_db) [] [])
  /\ NoDup (map transaction_id
             (transactions
                (snd (create_transaction Fraud.detect_fraud 0 "U1" "U2" 10 "USD"
                        "transfer" (mkDB (users Fixtures.single_db) [] []))))).
Proof.
  exact (conj empty_store_well_numbered
           (proj1 (proj2 (transaction_ids_stay_distinct Fraud.detect_fraud 0 "U1" "U2"
                            10 "USD" "transfer" _ empty_store_well_numbered)))).
Defined.

End ProcessorFacts.

(* ================================================================== *)
(** ** Further properties of the tables *)
(* ================================================================== *)

Module TableFacts.
Import Store Vocab.
Local Open Scope Q_scope.

Section Ordering.
Context {A : Type} (before : A -> A -> bool).
Hypothesis before_total : forall a b, before a b = true \/ before b a = true.
Hypothesis before_trans :
  forall a b c, before a b = true -> before b c = true -> before a c = true.

Lemma insert_by_perm x l : Permutation (insert_by before x l) (x :: l).
Proof.
  induction l as [| y l IH]; simpl; [reflexivity|].
  destruct (before y x); [|reflexivity].
  rewrite IH. apply perm_swap.
Qed.

Lemma order_by_perm_from l : forall acc,
  Permutation (fold_left (fun acc x => insert_by before x acc) l acc) (acc ++ l).
Proof.
  induction l as [| x l IH]; intros acc; simpl.
  - now rewrite app_nil_r.
  - rewrite IH, insert_by_perm. apply Permutation_middle.
Qed.

Lemma order_by_perm l : Permutation (order_by before l) l.
Proof. unfold order_by. apply (order_by_perm_from l []). Qed.

Lemma insert_by_sorted x l :
  StronglySorted (fun a b => before a b = true) l ->
  StronglySorted (fun a b => before a b = true) (insert_by before x l).
Proof.
  induction l as [| y l IH]; intros Hs; simpl.
  - repeat constructor.
  - inversion Hs as [| ? ? Hs' Hall]; subst.
    destruct (before y x) eqn:E.
    + constructor; [now apply IH|].
      apply Forall_forall. intros z Hz.
      apply (Permutation_in _ (insert_by_perm x l)) in Hz.
      destruct Hz as [<- | Hz]; [exact E|].
      exact (proj1 (Forall_forall _ _) Hall z Hz).
    + assert (Hxy : before x y = true).
      { destruct (before_total x y) as [H | H]; [exact H | congruence]. }
      constructor; [exact Hs|]. constructor; [exact Hxy|].
      eapply Forall_impl; [|exact Hall]. intros z Hz. eapply before_trans; eassumption.
Qed.

Lemma order_by_sorted_from l : forall acc,
  StronglySorted (fun a b => before a b = true) acc ->
  StronglySorted (fun a b => before a b = true)
                 (fold_left (fun acc x => insert_by before x acc) l acc).
Proof.
  induction l as [| x l IH]; intros acc Hacc; simpl; [exact Hacc|].
  apply IH. now apply insert_by_sorted.
Qed.

Lemma order_by_sorted l :
  StronglySorted (fun a b => before a b = true) (order_by before l).
Proof. unfold order_by. apply order_by_sorted_from. constructor. Qed.

End Ordering.

Lemma risk_desc_total a b : risk_desc a b = true \/ risk_desc b a = true.
Proof.
  unfold risk_desc. rewrite !Qle_bool_iff.
  destruct (Qlt_le_dec (risk_score a) (risk_score b)); [right | left]; lra.
Qed.

Lemma risk_desc_trans a b c :
  risk_desc a b = true -> risk_desc b c = true -> risk_desc a c = true.
Proof. unfold risk_desc. rewrite !Qle_bool_iff. lra. Qed.

Lemma timestamp_desc_total a b :
  timestamp_desc a b = true \/ timestamp_desc b a = true.
Proof. unfold timestamp_desc. rewrite !Z.leb_le. lia. Qed.

Lemma timestamp_desc_trans a b c :
  timestamp_desc a b = true -> timestamp_desc b c = true -> timestamp_desc a c = true.
Proof. unfold timestamp_desc. rewrite !Z.leb_le. lia. Qed.

(** X7: the user listing holds every row of the table exactly once,
    highest risk first; the high-risk listing is the part of it at or
    above the threshold, in the same order. *)
Theorem user_listings (db : DB) (threshold : Q) :
  Permutation (get_all_users db) (users db)
  /\ StronglySorted (fun a b => risk_score b <= risk_score a) (get_all_users db)
  /\ (forall u, In u (get_high_risk_users db threshold)
                <-> In u (users db) /\ threshold <= risk_score u)
  /\ StronglySorted (fun a b => risk_score b <= risk_score a)
                    (get_high_risk_users db threshold).
Proof.
  assert (Hs : StronglySorted (fun a b => risk_score b <= risk_score a) (get_all_users db)).
  { pose proof (order_by_sorted risk_desc risk_desc_total risk_desc_trans (users db)) as H.
    unfold get_all_users. induction H; constructor; auto.
    eapply Forall_impl; [|eassumption]. intros x Hx. now apply Qle_bool_iff. }
  split; [apply order_by_perm|]. split; [exact Hs|]. split.
  - intros u. unfold get_high_risk_users. rewrite filter_In, Qle_bool_iff.
    split; intros [H1 H2]; (split; [|exact H2]).
    + exact (Permutation_in _ (order_by_perm risk_desc (users db)) H1).
    + exact (Permutation_in _ (Permutation_sym (order_by_perm risk_desc (users db))) H1).
  - unfold get_high_risk_users. induction Hs; simpl; [constructor|].
    destruct (Qle_bool threshold (risk_score a)); [|assumption].
    constructor; [assumption|]. apply Forall_forall. intros x Hx.
    apply filter_In in Hx. exact (proj1 (Forall_forall _ _) H x (proj1 Hx)).
Qed.

(** *** [add_user] *)

Lemma find_app_last (uid : string) (l : list User) (row : User) :
  user_id row = uid ->
  (forall u, In u l -> user_id u <> uid) ->
  find (fun u => (user_id u =? uid)%string) (l ++ [row]) = Some row.
Proof.
  intros Hrow Hl. induction l as [| u l IH]; simpl.
  - rewrite Hrow, String.eqb_refl. reflexivity.
  - assert (E : (user_id u =? uid)%string = false).
    { apply String.eqb_neq. apply Hl. now left. }
    rewrite E. apply IH. intros v Hv. apply Hl. now right.
Qed.

Lemma find_filter_other (uid other : string) (l : list User) :
  other <> uid ->
  find (fun u => (user_id u =? other)%string)
       (filter (fun u => negb (user_id u =? uid)%string) l)
  = find (fun u => (user_id u =? other)%string) l.
Proof.
  intros Hne. induction l as [| u l IH]; simpl; [reflexivity|].
  destruct (user_id u =? uid)%string eqn:E; simpl.
  - apply String.eqb_eq in E.
    assert (E' : (user_id u =? other)%string = false).
    { apply String.eqb_neq. congruence. }
    now rewrite E'.
  - destruct (user_id u =? other)%string; [reflexivity | exact IH].
Qed.

Lemma find_app_other (other : string) (l : list User) (row : User) :
  user_id row <> other ->
  find (fun u => (user_id u =? other)%string) (l ++ [row])
  = find (fun u => (user_id u =? other)%string) l.
Proof.
  intros Hne. induction l as [| u l IH]; simpl.
  - apply String.eqb_neq in Hne. now rewrite Hne.
  - destruct (user_id u =? other)%string; [reflexivity | exact IH].
Qed.


(** X8: [add_user] is insert-or-replace: a lookup of the id returns
    exactly the new row, every other id is looked up as before, no
    transaction or appeal changes, and ids that were pairwise different
    stay so. *)
Theorem add_user_replaces (db : DB) (uid nm : string) (risk : Q) (age : Z)
    (bal : Q) (st : string) :
  let db' := add_user db uid nm risk age bal st in
  get_user_by_id db' uid = Some (mkUser uid nm risk age st bal)
  /\ (forall other, other <> uid -> get_user_by_id db' other = get_user_by_id db other)
  /\ transactions db' = transactions db /\ appeals db' = appeals db
  /\ (NoDup (map user_id (users db)) -> NoDup (map user_id (users db')))
  /\ (List.length (users db') <= S (List.length (users db)))%nat.
Proof.
  cbv zeta. unfold add_user, get_user_by_id; simpl.
  split; [|split; [|split; [|split; [|split]]]]; try reflexivity.
  - apply find_app_last; [reflexivity|].
    intros u Hu. apply filter_In in Hu. destruct Hu as [_ Hu].
    apply negb_true_iff, String.eqb_neq in Hu. exact Hu.
  - intros other Hne. rewrite find_app_other by (simpl; congruence).
    now apply find_filter_other.
  - intros Hnd. rewrite map_app. simpl.
    apply NoDup_app.
    + clear - Hnd. induction (users db) as [| u l IH]; simpl; [constructor|].
      inversion Hnd as [| ? ? Hnotin Hnd']; subst.
      destruct (user_id u =? uid)%string; simpl; [now apply IH|].
      constructor; [|now apply IH].
      intros Hin. apply Hnotin. apply in_map_iff in Hin.
      destruct Hin as [v [Hv Hin]]. apply filter_In in Hin.
      apply in_map_iff. exists v. tauto.
    + repeat constructor. simpl. tauto.
    + intros x Hx [<- | []]. apply in_map_iff in Hx.
      destruct Hx as [v [Hv Hin]]. apply filter_In in Hin. destruct Hin as [_ Hin].
      apply negb_true_iff, String.eqb_neq in Hin. congruence.
  - rewrite length_app. simpl.
    pose proof (filter_length_le (fun u => negb (user_id u =? uid)%string) (users db)).
    lia.
Qed.

Lemma single_db_ids_distinct : NoDup (map user_id (users Fixtures.single_db)).
Proof.
  repeat constructor; simpl; intuition discriminate.
Defined.

Lemma add_user_replaces_witness :
  NoDup (map user_id (users Fixtures.single_db))
  /\ get_user_by_id (add_user Fixtures.single_db "U1" "new" 0.5 0 0 "ACTIVE") "U1"
     = Some (mkUser "U1" "new" 0.5 0 "ACTIVE" 0)
  /\ NoDup (map user_id (users (add_user Fixtures.single_db "U1" "new" 0.5 0 0 "ACTIVE"))).
Proof.
  split; [exact single_db_ids_distinct|]. split.
  - exact (proj1 (add_user_replaces Fixtures.single_db "U1" "new" 0.5 0 0 "ACTIVE")).
  - exact (proj1 (proj2 (proj2 (proj2 (proj2
             (add_user_replaces Fixtures.single_db "U1" "new" 0.5 0 0 "ACTIVE")))))
           single_db_ids_distinct).
Defined.

End TableFacts.

(* ================================================================== *)
(** ** Further properties of the routes *)
(* ================================================================== *)

Module RouteFacts.
Import Store Routes Vocab ExtraSpec AppealSpec.
Local Open Scope Q_scope.

Lemma status_route_run (st : string) (uid : string) (db : DB) (u : User) (reply : Reply) :
  get_user_by_id db uid = Some u ->
  (require_user uid ;;;
   exec (fun db => update_user_status db uid st) ;;;
   ret reply)%store db
  = (inr reply, update_user_status db uid st).
Proof.
  intros H. unfold require_user, bind, query, exec, ret, raise. now rewrite H.
Qed.

Lemma require_user_missing {A : Type} (uid : string) (db : DB) (k : M A) :
  get_user_by_id db uid = None ->
  (require_user uid ;;; k)%store db = (inl (HTTPException 404 "User not found"), db).
Proof.
  intros H. unfold require_user, bind, query, raise. now rewrite H.
Qed.

(** With pairwise different ids, the row found for an id is the only row
    with that id. *)
Lemma only_row_with_id (l : list User) (uid : string) (u0 u : User) :
  NoDup (map user_id l) ->
  find (fun u => (user_id u =? uid)%string) l = Some u0 ->
  In u l -> user_id u = uid -> u = u0.
Proof.
  induction l as [| v l IH]; intros Hnd Hf Hin Hid; [contradiction|].
  simpl in Hf, Hnd. inversion Hnd as [| ? ? Hnotin Hnd']; subst.
  destruct (user_id v =? user_id u)%string eqn:E.
  - injection Hf as <-. apply String.eqb_eq in E.
    destruct Hin as [-> | Hin]; [reflexivity|].
    exfalso. apply Hnotin. rewrite E. now apply in_map.
  - destruct Hin as [-> | Hin]; [rewrite String.eqb_refl in E; discriminate|].
    now apply IH.
Qed.

Section WithScorer.
Variable fraud_service : DB -> string -> exn + Fraud.FraudResult.

(** X9: freezing an existing account makes every submission from it
    fail without a write; unfreezing makes it ACTIVE again, and when the
    account was ACTIVE before (ids being pairwise different) the two
    steps give back the very same store. *)
Theorem freeze_and_unfreeze (db : DB) (uid : string) :
  get_user_by_id db uid <> None ->
  exists reply db1,
    freeze_user uid db = (inr reply, db1)
    /\ status_of db1 uid = Some "FROZEN"%string
    /\ (forall now tgt amt cur ty,
          exists e, Txn.create_transaction fraud_service now uid tgt amt cur ty db1
                    = (inl e, db1))
    /\ exists reply' db2,
         unfreeze_user uid db1 = (inr reply', db2)
         /\ status_of db2 uid = Some "ACTIVE"%string
         /\ (status_of db uid = Some "ACTIVE"%string ->
             NoDup (map user_id (users db)) -> db2 = db).
Proof.
  intros Hex. destruct (get_user_by_id db uid) as [u|] eqn:Hu; [clear Hex | congruence].
  unfold freeze_user. rewrite (status_route_run "FROZEN" uid db u _ Hu).
  set (db1 := update_user_status db uid "FROZEN").
  assert (Hfz : status_of db1 uid = Some "FROZEN"%string)
    by (eapply StoreFacts.status_after_update; eassumption).
  assert (Hu1 : get_user_by_id db1 uid = Some (set_status "FROZEN" u)).
  { unfold db1. rewrite StoreFacts.get_after_status, Hu. simpl.
    now rewrite (StoreFacts.get_user_found_id db uid u Hu), String.eqb_refl. }
  do 2 eexists. split; [reflexivity|]. split; [exact Hfz|]. split.
  - intros now tgt amt cur ty.
    destruct (ProcessorFacts.frozen_source_rejected fraud_service now uid tgt amt cur ty db1 Hfz)
      as (e & Hrun & _).
    now exists e.
  - unfold unfreeze_user. rewrite (status_route_run "ACTIVE" uid db1 _ _ Hu1).
    do 2 eexists. split; [reflexivity|]. split.
    + eapply StoreFacts.status_after_update; eassumption.
    + intros Hact Hnd. unfold status_of in Hact. rewrite Hu in Hact.
      simpl in Hact. injection Hact as Hact.
      unfold db1, update_user_status; simpl. rewrite map_map.
      destruct db as [us txs aps]; simpl in *. f_equal.
      rewrite <- (map_id us) at 2. apply map_ext_in. intros v Hv.
      destruct (user_id v =? uid)%string eqn:E; simpl; [|now rewrite E].
      rewrite E. apply String.eqb_eq in E.
      assert (Hv0 : v = u) by (eapply only_row_with_id; eassumption).
      subst v. destruct u; simpl in *. now subst.
Qed.

(** X10: only FROZEN stops the processor: after an account has been set
    to BLOCKED by the admin route, a submission from it that names an
    existing target and is covered by the balance is still processed. *)
Theorem blocked_account_still_transacts (db : DB) now src tgt amt cur ty su tu :
  get_user_by_id db src = Some su ->
  get_user_by_id db tgt = Some tu ->
  amt <= balance su ->
  exists reply db1,
    block_user src db = (inr reply, db1)
    /\ status_of db1 src = Some "BLOCKED"%string
    /\ exists r db2,
         Txn.create_transaction fraud_service now src tgt amt cur ty db1 = (inr r, db2)
         /\ (Txn.r_status r = "BLOCKED" \/ Txn.r_status r = "FLAGGED"
             \/ Txn.r_status r = "APPROVED")%string.
Proof.
  intros Hs Ht Hle.
  unfold block_user. rewrite (status_route_run "BLOCKED" src db su _ Hs).
  set (db1 := update_user_status db src "BLOCKED").
  do 2 eexists. split; [reflexivity|]. split.
  { eapply StoreFacts.status_after_update; eassumption. }
  assert (Hp : passes_checks db1 src tgt amt (set_status "BLOCKED" su)
                 (if (user_id tu =? src)%string then set_status "BLOCKED" tu else tu)).
  { unfold passes_checks, db1. rewrite !StoreFacts.get_after_status, Hs, Ht. simpl.
    rewrite (StoreFacts.get_user_found_id db src su Hs), String.eqb_refl.
    repeat split; [discriminate | exact Hle]. }
  destruct (TxnFacts.create_transaction_run fraud_service now src tgt amt cur ty db1 _ _ Hp)
    as (r & Hrun & Hst & _).
  cbv zeta in Hrun, Hst. eexists r, _. split; [exact Hrun|].
  rewrite Hst. destruct (Txn._detect_structuring db1 now src amt); [now left|].
  match goal with |- context [if ?b then "FLAGGED"%string else _] => destruct b end;
    [right; now left | right; now right].
Qed.

End WithScorer.

(** X11: a deposit adds the amount to the balance of an existing account,
    whatever its status and whatever the sign of the amount, and touches
    nothing else; for an unknown account it answers 404 and writes
    nothing. *)
Theorem deposit_effects (db : DB) (uid : string) (amt : Q) :
  (forall u, get_user_by_id db uid = Some u ->
     exists db1,
       deposit_funds uid amt db
       = (inr (mkDepositReply "Deposit successful" (balance u + amt)), db1)
       /\ balance_of db1 uid = Some (balance u + amt)
       /\ status_of db1 uid = Some (status u)
       /\ (forall other, other <> uid -> get_user_by_id db1 other = get_user_by_id db other)
       /\ transactions db1 = transactions db /\ appeals db1 = appeals db)
  /\ (get_user_by_id db uid = None ->
      deposit_funds uid amt db = (inl (HTTPException 404 "User not found"), db)).
Proof.
  split.
  - intros u Hu. unfold deposit_funds, require_user, bind, query, exec, ret, raise.
    rewrite Hu. eexists. split; [reflexivity|].
    pose proof (StoreFacts.get_user_found_id db uid u Hu) as Hid.
    split; [|split; [|split; [|split]]]; try reflexivity.
    + unfold balance_of. rewrite StoreFacts.get_after_balance, Hu. simpl.
      now rewrite Hid, String.eqb_refl.
    + unfold status_of. rewrite StoreFacts.get_after_balance, Hu. simpl.
      now rewrite Hid, String.eqb_refl.
    + intros other Hne. rewrite StoreFacts.get_after_balance.
      destruct (get_user_by_id db other) as [v|] eqn:Hv; [|reflexivity]. simpl.
      rewrite (StoreFacts.get_user_found_id db other v Hv).
      apply String.eqb_neq in Hne. now rewrite Hne.
  - intros Hu. unfold deposit_funds, require_user, bind, query, raise. now rewrite Hu.
Qed.

Lemma flagged_membership db t :
  In t (Store.get_flagged_transactions db)
  <-> In t (transactions db) /\ tx_status t = "FLAGGED"%string.
Proof.
  unfold Store.get_flagged_transactions. split.
  - intros H. apply (Permutation_in _ (TableFacts.order_by_perm timestamp_desc _)) in H.
    apply filter_In in H. now rewrite String.eqb_eq in H.
  - intros H.
    apply (Permutation_in _ (Permutation_sym (TableFacts.order_by_perm timestamp_desc _))).
    apply filter_In. now rewrite String.eqb_eq.
Qed.

(** X12: the admin approval of a transaction always reports success; it
    sets the status of the rows with that id to APPROVED and changes
    nothing else: no balance moves, so a transaction that was FLAGGED at
    submission stays unsettled; the row leaves the flagged listing. *)
Theorem approve_transaction_effects (db : DB) (tid : string) :
  let out := approve_transaction tid db in
  fst out = inr (mkTxReply "approved" tid)
  /\ users (snd out) = users db /\ appeals (snd out) = appeals db
  /\ Forall2 (fun t t' =>
                (transaction_id t = tid -> t' = set_tx_status "APPROVED" t)
                /\ (transaction_id t <> tid -> t' = t))
             (transactions db) (transactions (snd out))
  /\ (forall t, In t (Store.get_flagged_transactions (snd out))
                <-> In t (Store.get_flagged_transactions db) /\ transaction_id t <> tid).
Proof.
  cbv zeta. unfold approve_transaction, bind, exec, ret. simpl.
  split; [reflexivity|]. split; [reflexivity|]. split; [reflexivity|]. split.
  - induction (transactions db) as [| t l IH]; simpl; constructor; auto.
    destruct (transaction_id t =? tid)%string eqn:E.
    + apply String.eqb_eq in E. split; [reflexivity | congruence].
    + apply String.eqb_neq in E. split; [congruence | reflexivity].
  - intros t. rewrite !flagged_membership. simpl. rewrite in_map_iff. split.
    + intros [[t0 [Ht0 Hin]] Hfl].
      destruct (transaction_id t0 =? tid)%string eqn:E.
      * subst t. simpl in Hfl. discriminate.
      * subst t0. apply String.eqb_neq in E. tauto.
    + intros [[Hin Hfl] Hne]. split; [|exact Hfl].
      exists t. split; [|exact Hin]. apply String.eqb_neq in Hne. now rewrite Hne.
Qed.



Lemma single_db_has_U1 : get_user_by_id Fixtures.single_db "U1" <> None.
Proof. discriminate. Defined.

Lemma freeze_and_unfreeze_witness :
  get_user_by_id Fixtures.single_db "U1" <> None
  /\ exists reply db1,
      freeze_user "U1" Fixtures.single_db = (inr reply, db1)
      /\ status_of db1 "U1" = Some "FROZEN"%string
      /\ (forall now tgt amt cur ty,
            exists e, Txn.create_transaction Fraud.detect_fraud now "U1" tgt amt cur ty db1
                      = (inl e, db1))
      /\ exists reply' db2,
           unfreeze_user "U1" db1 = (inr reply', db2)
           /\ status_of db2 "U1" = Some "ACTIVE"%string
           /\ (status_of Fixtures.single_db "U1" = Some "ACTIVE"%string ->
               NoDup (map user_id (users Fixtures.single_db)) ->
               db2 = Fixtures.single_db).
Proof.
  exact (conj single_db_has_U1
           (freeze_and_unfreeze Fraud.detect_fraud Fixtures.single_db "U1"
              single_db_has_U1)).
Defined.

Lemma ten_within_balance : 10 <= balance (Fixtures.user "U1" 0.1 100 "ACTIVE").
Proof. vm_compute. discriminate. Defined.

Lemma blocked_account_still_transacts_witness :
  get_user_by_id Fixtures.single_db "U1" = Some (Fixtures.user "U1" 0.1 100 "ACTIVE")
  /\ get_user_by_id Fixtures.single_db "U2" = Some (Fixtures.user "U2" 0.1 100 "ACTIVE")
  /\ 10 <= balance (Fixtures.user "U1" 0.1 100 "ACTIVE")
  /\ exists reply db1,
      block_user "U1" Fixtures.single_db = (inr reply, db1)
      /\ status_of db1 "U1" = Some "BLOCKED"%string
      /\ exists r db2,
           Txn.create_transaction Fraud.detect_fraud 0 "U1" "U2" 10 "USD" "transfer" db1
           = (inr r, db2)
           /\ (Txn.r_status r = "BLOCKED" \/ Txn.r_status r = "FLAGGED"
               \/ Txn.r_status r = "APPROVED")%string.
Proof.
  split; [reflexivity|]. split; [reflexivity|]. split; [exact ten_within_balance|].
  exact (blocked_account_still_transacts Fraud.detect_fraud Fixtures.single_db 0
           "U1" "U2" 10 "USD" "transfer" _ _ eq_refl eq_refl ten_within_balance).
Defined.

Lemma deposit_effects_witness :
  get_user_by_id Fixtures.appeal_db "D" = Some (Fixtures.user "D" 0.4 1000 "FROZEN")
  /\ get_user_by_id Fixtures.appeal_db "ghost" = None
  /\ (exists db1,
        deposit_funds "D" (-5) Fixtures.appeal_db
        = (inr (mkDepositReply "Deposit successful" (1000 + -5)), db1)
        /\ balance_of db1 "D" = Some (1000 + -5)
        /\ status_of db1 "D" = Some "FROZEN"%string
        /\ (forall other, other <> "D"%string ->
              get_user_by_id db1 other = get_user_by_id Fixtures.appeal_db other)
        /\ transactions db1 = transactions Fixtures.appeal_db
        /\ appeals db1 = appeals Fixtures.appeal_db)
  /\ deposit_funds "ghost" (-5) Fixtures.appeal_db
     = (inl (HTTPException 404 "User not found"), Fixtures.appeal_db).
Proof.
  split; [reflexivity|]. split; [reflexivity|]. split.
  - exact (proj1 (deposit_effects Fixtures.appeal_db "D" (-5)) _ eq_refl).
  - exact (proj2 (deposit_effects Fixtures.appeal_db "ghost" (-5)) eq_refl).
Defined.



End RouteFacts.

(* ================================================================== *)
(** ** Further properties of the risk scorer *)
(* ================================================================== *)

Module ReportFacts.
Import Store Fraud RiskSpec ExtraSpec.
Local Open Scope Q_scope.

(** X15: the risk shown on a node of the annotated subgraph never
    exceeds 1 nor the node's stored risk plus 0.3, and for a stored risk
    of at most 1 it is never below the stored risk; a node without
    incident links in the subgraph keeps its stored risk. *)
Theorem node_risk_bounds (node : User) (subgraph : Subgraph) :
  _calculate_node_risk node subgraph <= 1
  /\ _calculate_node_risk node subgraph <= risk_score node + 0.3
  /\ (risk_score node <= 1 -> risk_score node <= _calculate_node_risk node subgraph)
  /\ (risk_score node <= 1 ->
      filter (incident (user_id node)) (links subgraph) = [] ->
      _calculate_node_risk node subgraph == risk_score node).
Proof.
  unfold _calculate_node_risk. cbv zeta.
  set (n := List.length (filter (incident (user_id node)) (links subgraph))).
  set (f := Qmin (inject_Z (Z.of_nat n) / 10) 0.3).
  assert (Hn : 0 <= inject_Z (Z.of_nat n) / 10).
  { apply Qle_shift_div_l; [reflexivity|]. rewrite Qmult_0_l.
    change 0 with (inject_Z 0). rewrite <- Zle_Qle. lia. }
  assert (Hf0 : 0 <= f) by (unfold f; apply Q.min_glb; [exact Hn | discriminate]).
  assert (Hf3 : f <= 0.3) by (unfold f; apply Q.le_min_r).
  split; [apply Q.le_min_r|]. split.
  - eapply Qle_trans; [apply Q.le_min_l|]. lra.
  - split.
    + intros Hb. apply Q.min_glb; lra.
    + intros Hb Hnil. unfold f, n. rewrite Hnil. simpl List.length.
      change (inject_Z (Z.of_nat 0) / 10) with (0 / 10).
      assert (E : Qmin (0 / 10) 0.3 == 0)
        by (rewrite Q.min_l; [reflexivity | discriminate]).
      rewrite E. rewrite Q.min_l by lra. ring.
Qed.

Lemma round4_unit_interval x : 0 <= x -> x <= 1 -> 0 <= round4 x /\ round4 x <= 1.
Proof.
  intros H0 H1. unfold round4.
  destruct (RiskFacts.round_half_even_near (x * 10000)) as [Hlo Hhi].
  set (n := round_half_even (x * 10000)) in *.
  assert (Hn0 : (0 <= n)%Z).
  { destruct (Z.lt_ge_cases n 0) as [Hneg | Hpos]; [|exact Hpos]. exfalso.
    assert (Hq : inject_Z n <= inject_Z (-1)) by (rewrite <- Zle_Qle; lia).
    change (inject_Z (-1)) with (-1 # 1) in Hq. lra. }
  assert (Hn1 : (n <= 10000)%Z).
  { destruct (Z.lt_ge_cases 10000 n) as [Hbig | Hok]; [|exact Hok]. exfalso.
    assert (Hq : inject_Z 10001 <= inject_Z n) by (rewrite <- Zle_Qle; lia).
    change (inject_Z 10001) with (10001 # 1) in Hq. lra. }
  rewrite Zle_Qle in Hn0, Hn1.
  change (inject_Z 0) with 0 in Hn0. change (inject_Z 10000) with 10000 in Hn1.
  assert (E : inject_Z n / 10000 == inject_Z n * (1 # 10000)) by reflexivity.
  rewrite E. split; lra.
Qed.

(** X16: for an existing account the scorer returns a report; its risk
    value lies in [0,1], and its score, level and subgraph are those of
    the plain result; for an unknown account it raises. *)
Theorem report_of_existing_account (db : DB) (uid : string) :
  (get_user_by_id db uid <> None ->
   exists rep,
     detect_fraud_report db uid = inr rep
     /\ detect_fraud db uid = inr (rep_result rep)
     /\ 0 <= risk_probability (rep_result rep)
     /\ risk_probability (rep_result rep) <= 1
     /\ rep_links rep = links (get_user_subgraph db uid 2)
     /\ map fst (rep_nodes rep) = nodes (get_user_subgraph db uid 2))
  /\ (get_user_by_id db uid = None ->
      detect_fraud_report db uid = inl (ValueError ("User " ++ uid ++ " not found")%string)
      /\ detect_fraud db uid = inl (ValueError ("User " ++ uid ++ " not found")%string)).
Proof.
  unfold detect_fraud_report, detect_fraud. split.
  - intros Hex. destruct (get_user_by_id db uid) as [u|] eqn:Hu; [|congruence].
    eexists. split; [reflexivity|]. cbn [rep_result rep_links rep_nodes risk_probability].
    split; [reflexivity|].
    pose proof (RiskFacts.calculate_risk_score_blend db uid u) as Hs.
    destruct (RiskFacts.clamp01_bounds (blend db uid (risk_score u))) as [H0 H1].
    rewrite (RiskFacts.round4_compat _ _ Hs).
    destruct (round4_unit_interval _ H0 H1) as [R0 R1].
    split; [exact R0|]. split; [exact R1|]. split; [reflexivity|].
    rewrite map_map. simpl. apply map_id.
  - intros Hu. rewrite Hu. now split.
Qed.

Lemma report_of_existing_account_witness :
  get_user_by_id Fixtures.chain_db "A" <> None
  /\ get_user_by_id Fixtures.chain_db "ghost" = None
  /\ (exists rep,
        detect_fraud_report Fixtures.chain_db "A" = inr rep
        /\ detect_fraud Fixtures.chain_db "A" = inr (rep_result rep)
        /\ 0 <= risk_probability (rep_result rep)
        /\ risk_probability (rep_result rep) <= 1
        /\ rep_links rep = links (get_user_subgraph Fixtures.chain_db "A" 2)
        /\ map fst (rep_nodes rep) = nodes (get_user_subgraph Fixtures.chain_db "A" 2))
  /\ detect_fraud_report Fixtures.chain_db "ghost"
     = inl (ValueError ("User " ++ "ghost" ++ " not found")%string).
Proof.
  assert (Ha : get_user_by_id Fixtures.chain_db "A" <> None) by discriminate.
  split; [exact Ha|]. split; [reflexivity|]. split.
  - exact (proj1 (report_of_existing_account Fixtures.chain_db "A") Ha).
  - exact (proj1 (proj2 (report_of_existing_account Fixtures.chain_db "ghost") eq_refl)).
Defined.

(** X17: at most ten suspicious transactions are listed; each one is a
    link of the subgraph that touches the account and carries at least
    one reason. *)
Theorem suspicious_transactions_listed (uid : string) (subgraph : Subgraph) :
  (List.length (_identify_suspicious_transactions uid subgraph) <= 10)%nat
  /\ Forall (fun s =>
               st_reasons s <> []
               /\ (st_source s = uid \/ st_target s = uid)
               /\ exists l, In l (links subgraph)
                            /\ st_transaction_id s = link_transaction_id l
                            /\ st_amount s = link_amount l
                            /\ st_source s = source l /\ st_target s = target l
                            /\ st_reasons s = suspicion_reasons l)
            (_identify_suspicious_transactions uid subgraph).
Proof.
  unfold _identify_suspicious_transactions. split; [apply firstn_le_length|].
  apply Forall_forall. intros s Hs. apply RingFacts.firstn_subset in Hs.
  apply in_flat_map in Hs. destruct Hs as [l [Hl Hs]].
  destruct (incident uid l) eqn:Hi; [|contradiction].
  destruct (suspicion_reasons l) as [| reason rest] eqn:Hr; [contradiction|].
  destruct Hs as [<- | []]. simpl. split; [discriminate|]. split.
  - unfold incident in Hi. apply orb_true_iff in Hi.
    rewrite !String.eqb_eq in Hi. exact Hi.
  - exists l. repeat split; [exact Hl | now rewrite Hr].
Qed.

End ReportFacts.

(* ================================================================== *)
(** ** The pattern checks *)
(* ================================================================== *)

Module PatternFacts.
Import Store Fraud RiskSpec ExtraSpec.
Local Open Scope Q_scope.

Lemma filter_implied {A : Type} (p q : A -> bool) (l : list A) :
  (forall x, p x = true -> q x = true) ->
  filter p (filter q l) = filter p l.
Proof.
  intros H. induction l as [| a l IH]; simpl; [reflexivity|].
  destruct (q a) eqn:Eq; simpl.
  - destruct (p a); now rewrite IH.
  - destruct (p a) eqn:Ep; [rewrite (H a Ep) in Eq; discriminate | exact IH].
Qed.

Lemma filter_map_comm {A B : Type} (p : B -> bool) (g : A -> B) (l : list A) :
  filter p (map g l) = map g (filter (fun a => p (g a)) l).
Proof.
  induction l as [| a l IH]; simpl; [reflexivity|].
  destruct (p (g a)); simpl; now rewrite IH.
Qed.

(** A selection of links that all touch the focal account is the same
    selection of ledger rows: the 2-hop subgraph holds every such row. *)
Lemma focal_links db uid (p : Link -> bool) :
  (forall l, p l = true -> incident uid l = true) ->
  filter p (links (get_user_subgraph db uid 2))
  = map link_of (filter (fun t => p (link_of t)) (transactions db)).
Proof.
  intros Hp.
  rewrite <- (filter_implied p (incident uid)) by exact Hp.
  rewrite RiskFacts.incident_links, filter_map_comm. f_equal.
  unfold incident_transactions. apply filter_implied.
  intros t Ht. apply Hp in Ht. exact Ht.
Qed.

(** X18: the pattern flags are thresholds on the whole ledger history of
    the account, without a time window: smurfing from five incoming rows
    below 3000, structuring from two rows in [9000,9999] and high
    velocity from ten rows, a row from the account to itself counting as
    incoming and as outgoing; rapid movement is never reported. *)
Theorem pattern_thresholds (db : DB) (uid : string) :
  let p := _detect_patterns uid (get_user_subgraph db uid 2) in
  let incoming := filter (fun t => (target_user_id t =? uid)%string) (transactions db) in
  let outgoing := filter (fun t => (source_user_id t =? uid)%string) (transactions db) in
  let near t := Qle_bool 9000 (amount t) && Qle_bool (amount t) 9999 in
  (smurfing_detected p = true
   <-> (5 <= List.length (filter (fun t => negb (Qle_bool 3000 (amount t))) incoming))%nat)
  /\ (structuring_detected p = true
      <-> (2 <= List.length (filter near incoming) + List.length (filter near outgoing))%nat)
  /\ (high_velocity_detected p = true
      <-> (10 <= List.length incoming + List.length outgoing)%nat)
  /\ rapid_movement_detected p = false.
Proof.
  cbv zeta. unfold _detect_patterns. cbv zeta.
  cbn [smurfing_detected structuring_detected high_velocity_detected rapid_movement_detected].
  assert (Hin : filter (fun l => (target l =? uid)%string) (links (get_user_subgraph db uid 2))
                = map link_of (filter (fun t => (target_user_id t =? uid)%string) (transactions db))).
  { apply (focal_links db uid (fun l => (target l =? uid)%string)).
    intros l Hl. unfold incident. now rewrite Hl, orb_true_r. }
  assert (Hout : filter (fun l => (source l =? uid)%string) (links (get_user_subgraph db uid 2))
                 = map link_of (filter (fun t => (source_user_id t =? uid)%string) (transactions db))).
  { apply (focal_links db uid (fun l => (source l =? uid)%string)).
    intros l Hl. unfold incident. now rewrite Hl. }
  rewrite Hin, Hout.
  rewrite filter_app, !length_app, !filter_map_comm, !length_map.
  rewrite !Nat.leb_le. repeat split; auto.
Qed.

(** *** Circular flow *)

Lemma find_key_map {V : Type} (f : string * V -> string * V) k (adj : list (string * V)) :
  (forall kv, fst (f kv) = fst kv) ->
  find (fun kv => (fst kv =? k)%string) (map f adj)
  = option_map f (find (fun kv => (fst kv =? k)%string) adj).
Proof.
  intros Hf. induction adj as [| kv adj IH]; simpl; [reflexivity|].
  rewrite Hf. destruct (fst kv =? k)%string; [reflexivity | exact IH].
Qed.

Lemma targets_get_map_add adj s t k n :
  In n (targets_get
          (map (fun kv =>
                  if (fst kv =? s)%string
                  then (fst kv, if mem t (snd kv) then snd kv else snd kv ++ [t])
                  else kv) adj) k)
  <-> In n (targets_get adj k) \/ (k = s /\ n = t /\ In s (map fst adj)).
Proof.
  unfold targets_get. rewrite find_key_map.
  2:{ intros kv. destruct (fst kv =? s)%string; reflexivity. }
  destruct (find (fun kv => (fst kv =? k)%string) adj) as [kv|] eqn:F; simpl.
  - apply find_some in F. destruct F as [Hin Hk]. apply String.eqb_eq in Hk.
    assert (Hkey : In k (map fst adj)) by (rewrite <- Hk; now apply in_map).
    destruct (fst kv =? s)%string eqn:Es; cbn [snd].
    + apply String.eqb_eq in Es.
      destruct (mem t (snd kv)) eqn:Mt.
      * apply SubgraphFacts.mem_In in Mt. split; [tauto|].
        intros [H | (_ & -> & _)]; assumption.
      * rewrite in_app_iff. simpl. split.
        -- intros [H | [<- | []]]; [now left | right].
           repeat split; congruence.
        -- intros [H | (_ & -> & _)]; tauto.
    + apply String.eqb_neq in Es. split; [tauto|].
      intros [H | (H1 & _)]; [exact H | congruence].
  - split; [tauto|]. intros [[] | (-> & _ & Hs)].
    apply in_map_iff in Hs. destruct Hs as [kv [Hk Hin]].
    pose proof (find_none _ _ F kv Hin) as Hno. simpl in Hno.
    rewrite Hk, String.eqb_refl in Hno. discriminate.
Qed.

Lemma targets_get_app_new adj s t k n :
  ~ In s (map fst adj) ->
  In n (targets_get (adj ++ [(s, [t])]) k)
  <-> In n (targets_get adj k) \/ (k = s /\ n = t).
Proof.
  unfold targets_get. intros Hs. induction adj as [| kv adj IH]; simpl.
  - destruct (s =? k)%string eqn:E; simpl.
    + apply String.eqb_eq in E. split; [intros [<- | []]; auto | intros [[] | [_ ->]]; now left].
    + apply String.eqb_neq in E. split; [tauto | intros [[] | [H _]]; congruence].
  - simpl in Hs. destruct (fst kv =? k)%string eqn:Ek.
    + apply String.eqb_eq in Ek. split; [tauto|].
      intros [H | [H _]]; [exact H|]. exfalso. apply Hs. left. congruence.
    + apply IH. tauto.
Qed.

Lemma targets_get_add adj s t k n :
  In n (targets_get (targets_add adj s t) k)
  <-> In n (targets_get adj k) \/ (k = s /\ n = t).
Proof.
  unfold targets_add. destruct (mem s (map fst adj)) eqn:M.
  - apply SubgraphFacts.mem_In in M. rewrite targets_get_map_add. tauto.
  - apply SubgraphFacts.mem_false in M. now apply targets_get_app_new.
Qed.

Lemma build_target_sets_from ls : forall adj k n,
  In n (targets_get (fold_left (fun adj l => targets_add adj (source l) (target l)) ls adj) k)
  <-> In n (targets_get adj k) \/ link_step ls k n.
Proof.
  unfold link_step. induction ls as [| l ls IH]; intros adj k n; simpl.
  - split; [tauto | intros [H | [l [[] _]]]; exact H].
  - rewrite IH, targets_get_add. split.
    + intros [[H | [-> ->]] | [l' [H1 H2]]]; [tauto | right | right].
      * exists l. tauto.
      * exists l'. tauto.
    + intros [H | [l' [[<- | H1] [H2 H3]]]]; [tauto | left; right; auto | right].
      exists l'. tauto.
Qed.

(** The adjacency sets hold exactly the links. *)
Lemma target_sets_links ls k n :
  In n (targets_get (build_target_sets ls) k) <-> link_step ls k n.
Proof.
  unfold build_target_sets. rewrite build_target_sets_from. simpl. tauto.
Qed.

Section Search.
Variable ls : list Link.
Variable end_ : string.

Lemma has_path_sound fuel : forall start visited depth,
  has_path fuel (build_target_sets ls) start end_ visited depth = true ->
  (start = end_ /\ (0 < depth <= 5)%Z)
  \/ exists mids,
       link_path ls start mids end_ /\ NoDup mids
       /\ (forall m, In m mids -> ~ In m visited /\ m <> end_)
       /\ (depth + Z.of_nat (List.length mids) + 1 <= 5)%Z.
Proof.
  induction fuel as [| fuel IH]; intros start visited depth H; [discriminate|].
  cbn [has_path] in H.
  destruct (5 <? depth)%Z eqn:E5; [discriminate|]. apply Z.ltb_ge in E5.
  destruct ((start =? end_)%string && (0 <? depth)%Z) eqn:Ese.
  { left. apply andb_true_iff in Ese. destruct Ese as [E1 E2].
    apply String.eqb_eq in E1. apply Z.ltb_lt in E2. repeat split; auto. }
  right. apply existsb_exists in H. destruct H as [n [Hn H]].
  apply target_sets_links in Hn.
  apply andb_true_iff in H. destruct H as [Hcond Hrec].
  apply IH in Hrec. destruct Hrec as [[-> Hd] | (mids & Hpath & Hnd & Hfresh & Hlen)].
  - exists []. simpl. repeat split; [exact Hn | constructor | contradiction | contradiction | lia].
  - destruct (String.eqb_spec n end_) as [-> | Hne].
    + (* the neighbour is the end: the recursive call has already succeeded *)
      exists []. simpl. repeat split;
        [exact Hn | constructor | contradiction | contradiction | lia].
    + assert (Hnv : mem n visited = false).
      { apply orb_true_iff in Hcond. destruct Hcond as [Hc | Hc].
        - now apply negb_true_iff in Hc.
        - discriminate Hc. }
      rewrite Hnv in Hfresh. apply SubgraphFacts.mem_false in Hnv.
      exists (n :: mids). simpl. repeat split.
      * exact Hn.
      * exact Hpath.
      * constructor; [|exact Hnd]. intros Hin.
        destruct (Hfresh n Hin) as [Hf _]. apply Hf, in_or_app. right. now left.
      * destruct H as [<- | H]; [exact Hnv|].
        destruct (Hfresh m H) as [Hf _]. intros Hv. apply Hf, in_or_app. now left.
      * destruct H as [<- | H]; [exact Hne|]. now destruct (Hfresh m H).
      * lia.
Qed.

Lemma has_path_complete mids : forall fuel start visited depth,
  link_path ls start mids end_ -> NoDup mids ->
  (forall m, In m mids -> ~ In m visited /\ m <> end_) ->
  (0 <= depth)%Z -> (depth + Z.of_nat (List.length mids) + 1 <= 5)%Z ->
  (List.length mids + 2 <= fuel)%nat ->
  has_path fuel (build_target_sets ls) start end_ visited depth = true.
Proof.
  induction mids as [| m mids IH]; intros fuel start visited depth
    Hpath Hnd Hfresh Hd Hlen Hfuel.
  - simpl in *. destruct fuel as [| [| fuel]]; try lia.
    cbn [has_path].
    assert (E5 : (5 <? depth)%Z = false) by (apply Z.ltb_ge; lia). rewrite E5.
    destruct ((start =? end_)%string && (0 <? depth)%Z); [reflexivity|].
    apply existsb_exists. exists end_. split; [now apply target_sets_links|].
    assert (E5' : (5 <? depth + 1)%Z = false) by (apply Z.ltb_ge; lia).
    assert (E0 : (0 <? depth + 1)%Z = true) by (apply Z.ltb_lt; lia).
    cbn [has_path]. rewrite E5', E0, !String.eqb_refl, orb_true_r. reflexivity.
  - simpl in Hpath, Hlen, Hfuel. destruct Hpath as [Hstep Hpath].
    destruct fuel as [| fuel]; [lia|]. cbn [has_path].
    assert (E5 : (5 <? depth)%Z = false) by (apply Z.ltb_ge; lia). rewrite E5.
    destruct ((start =? end_)%string && (0 <? depth)%Z); [reflexivity|].
    apply existsb_exists. exists m. split; [now apply target_sets_links|].
    destruct (Hfresh m (or_introl eq_refl)) as [Hmv Hme].
    apply SubgraphFacts.mem_false in Hmv. rewrite Hmv. simpl.
    inversion Hnd as [| ? ? Hnotin Hnd']; subst.
    apply IH; try assumption; try lia.
    intros x Hx. destruct (Hfresh x (or_intror Hx)) as [Hxv Hxe]. split; [|exact Hxe].
    rewrite in_app_iff. intros [H | [<- | []]]; [now apply Hxv | contradiction].
Qed.

End Search.

(** X19: circular flow is reported exactly when the links of the subgraph
    contain a cycle through the account of one to five links whose other
    accounts are pairwise different; a link from the account to itself is
    such a cycle. *)
Theorem circular_flow_cycles (uid : string) (subgraph : Subgraph) :
  circular_flow_detected (_detect_patterns uid subgraph) = true
  <-> exists mids,
        link_path (links subgraph) uid mids uid
        /\ NoDup mids /\ ~ In uid mids /\ (List.length mids <= 4)%nat.
Proof.
  unfold _detect_patterns. cbv zeta. cbn [circular_flow_detected]. split.
  - intros H. apply has_path_sound in H.
    destruct H as [[_ Hd] | (mids & Hpath & Hnd & Hfresh & Hlen)]; [lia|].
    exists mids. repeat split; try assumption; [|lia].
    intros Hin. now destruct (Hfresh uid Hin).
  - intros (mids & Hpath & Hnd & Hnot & Hlen).
    apply (has_path_complete (links subgraph) uid mids); try assumption; try lia.
    intros m Hm. split; [tauto|]. intros ->. contradiction.
Qed.

End PatternFacts.

(* ================================================================== *)
(** ** Reachability computed by the subgraph extraction *)
(* ================================================================== *)

Module ReachFacts.
Import Store RingSpec ExtraSpec.

Lemma neighbors_adjacent db layer x :
  In x (neighbors (transactions db) layer)
  <-> exists y, In y layer /\ adjacent db y x.
Proof.
  unfold neighbors, adjacent, linked.
  rewrite nodup_In, in_app_iff, !in_map_iff. split.
  - intros [[t [Hx Ht]] | [t [Hx Ht]]]; apply filter_In in Ht; destruct Ht as [Ht Hm];
      apply SubgraphFacts.mem_In in Hm.
    + exists (source_user_id t). split; [exact Hm|]. left. exists t. auto.
    + exists (target_user_id t). split; [exact Hm|]. right. exists t. auto.
  - intros [y [Hy [[t (Ht & Hs & Hg)] | [t (Ht & Hs & Hg)]]]].
    + left. exists t. split; [exact Hg|]. apply filter_In. split; [exact Ht|].
      apply SubgraphFacts.mem_In. now rewrite Hs.
    + right. exists t. split; [exact Hs|]. apply filter_In. split; [exact Ht|].
      apply SubgraphFacts.mem_In. now rewrite Hg.
Qed.

(** One round appends its new layer to the visited accounts. *)
Lemma fold_visit_shape l : forall v nl,
  exists added,
    fold_left visit l (v, nl) = (v ++ added, nl ++ added)
    /\ incl added l
    /\ (forall x, In x added -> ~ In x v)
    /\ (NoDup v -> NoDup (v ++ added)).
Proof.
  induction l as [| n l IH]; intros v nl; simpl.
  - exists []. rewrite !app_nil_r.
    split; [reflexivity|]. split; [apply incl_refl|]. split; [intros x [] | auto].
  - unfold visit at 2. cbn [fst snd].
    destruct (mem n v) eqn:M.
    + destruct (IH v nl) as (added & Hf & Hincl & Hfresh & Hnd).
      exists added. split; [exact Hf|]. split; [|split; assumption].
      intros x Hx. right. now apply Hincl.
    + apply SubgraphFacts.mem_false in M.
      destruct (IH (v ++ [n]) (nl ++ [n])) as (added & Hf & Hincl & Hfresh & Hnd).
      exists (n :: added). rewrite Hf, <- !app_assoc. simpl.
      split; [reflexivity|]. split; [|split].
      * intros x [<- | Hx]; [now left | right; now apply Hincl].
      * intros x [<- | Hx]; [exact M|].
        intros Hv. apply (Hfresh x Hx), in_or_app. now left.
      * intros Hv. replace (v ++ n :: added) with ((v ++ [n]) ++ added)
          by (rewrite <- app_assoc; reflexivity).
        apply Hnd. apply NoDup_app; [exact Hv | repeat constructor; auto |].
        intros x Hx [<- | []]. contradiction.
Qed.

Lemma expand_shape txs st :
  exists added,
    expand txs st = (fst st ++ added, added)
    /\ incl added (neighbors txs (snd st))
    /\ (NoDup (fst st) -> NoDup (fst st ++ added)).
Proof.
  unfold expand.
  destruct (fold_visit_shape (neighbors txs (snd st)) (fst st) [])
    as (added & Hf & Hincl & _ & Hnd).
  exists added. rewrite Hf. simpl. auto.
Qed.

Lemma expand_empty_layer txs v : expand txs (v, []) = (v, []).
Proof.
  unfold expand, neighbors. cbn [fst snd].
  assert (H : forall f : Transaction -> string,
                filter (fun t => mem (f t) []) txs = []).
  { intros f. induction txs as [| t l IH]; simpl; auto. }
  rewrite !H. reflexivity.
Qed.

Section Focal.
Variable db : DB.
Variable uid : string.

Let state (d : nat) := rounds d (transactions db) ([uid], [uid]).

Lemma state_succ d : state (S d) = expand (transactions db) (state d).
Proof. unfold state. apply SubgraphFacts.rounds_succ. Qed.

Lemma within_hops_more n a b : within_hops db n a b -> within_hops db (S n) a b.
Proof.
  revert b. induction n as [| n IH]; intros b [-> | H]; try (now left); try contradiction.
  destruct H as [c [Hc Hadj]]. right. exists c. split; [now apply IH | exact Hadj].
Qed.

Lemma state_sound d :
  (forall x, In x (fst (state d)) -> within_hops db d uid x)
  /\ incl (snd (state d)) (fst (state d)).
Proof.
  induction d as [| d [IHv IHl]].
  - simpl. split; [intros x [<- | []]; now left | apply incl_refl].
  - rewrite state_succ.
    destruct (expand_shape (transactions db) (state d)) as (added & He & Hincl & _).
    rewrite He. cbn [fst snd]. split.
    + intros x Hx. apply in_app_or in Hx. destruct Hx as [Hx | Hx].
      * now apply within_hops_more, IHv.
      * apply Hincl, neighbors_adjacent in Hx. destruct Hx as [y [Hy Hadj]].
        right. exists y. split; [apply IHv, IHl, Hy | exact Hadj].
    + apply incl_appr, incl_refl.
Qed.

(** Whatever is visited after [d] rounds has all its neighbours visited
    after one more round. *)
Lemma neighbours_next_round d : forall v w,
  In v (fst (state d)) -> adjacent db v w -> In w (fst (state (S d))).
Proof.
  induction d as [| d IH]; intros v w Hv Hadj.
  - rewrite state_succ. unfold expand. apply RiskFacts.fold_visit_covers.
    apply neighbors_adjacent. exists v. split; [exact Hv | exact Hadj].
  - rewrite state_succ in Hv.
    destruct (expand_shape (transactions db) (state d)) as (added & He & _).
    rewrite He in Hv. cbn [fst] in Hv. apply in_app_or in Hv.
    destruct Hv as [Hv | Hv].
    + rewrite state_succ. apply SubgraphFacts.expand_grows. eapply IH; eassumption.
    + rewrite (state_succ (S d)). unfold expand. apply RiskFacts.fold_visit_covers.
      apply neighbors_adjacent. exists v. split; [|exact Hadj].
      rewrite state_succ, He. exact Hv.
Qed.

Lemma state_complete d : forall x, within_hops db d uid x -> In x (fst (state d)).
Proof.
  induction d as [| d IH]; intros x [<- | H]; try contradiction.
  - now left.
  - rewrite state_succ. apply SubgraphFacts.expand_grows.
    destruct d; [now left | apply IH; now left].
  - destruct H as [c [Hc Hadj]]. eapply neighbours_next_round; [apply IH, Hc | exact Hadj].
Qed.

Lemma state_nodup d : NoDup (fst (state d)).
Proof.
  induction d as [| d IH].
  - simpl. repeat constructor. simpl. tauto.
  - rewrite state_succ.
    destruct (expand_shape (transactions db) (state d)) as (added & He & _ & Hnd).
    rewrite He. now apply Hnd.
Qed.

Lemma state_fixed d :
  fst (state (S d)) = fst (state d) -> forall k, state (S d + k) = state (S d).
Proof.
  intros Heq.
  assert (Hs : state (S d) = (fst (state d), [])).
  { rewrite state_succ in Heq |- *.
    destruct (expand_shape (transactions db) (state d)) as (added & He & _).
    rewrite He in Heq |- *. cbn [fst] in Heq.
    assert (Ha : added = []).
    { apply (app_inv_head (fst (state d))). now rewrite app_nil_r. }
    now rewrite Ha, app_nil_r. }
  induction k as [| k IH].
  - now rewrite Nat.add_0_r.
  - replace (S d + S k)%nat with (S (S d + k)) by lia.
    rewrite state_succ, IH, Hs. apply expand_empty_layer.
Qed.

End Focal.

(** X20: the accounts visited by the extraction at a depth are exactly
    the accounts that can be reached from the focal account over at most
    that many ledger rows, followed in either direction; the nodes are
    the stored rows of these accounts and the links are the ledger rows
    with both ends among them. *)
Theorem subgraph_is_neighbourhood (db : DB) (uid : string) (depth : Z) :
  (forall x, In x (visited_after db uid depth)
             <-> within_hops db (Z.to_nat depth) uid x)
  /\ (forall u, In u (nodes (get_user_subgraph db uid depth))
                <-> exists x, within_hops db (Z.to_nat depth) uid x
                              /\ get_user_by_id db x = Some u)
  /\ (forall l, In l (links (get_user_subgraph db uid depth))
                <-> exists t, In t (transactions db) /\ l = link_of t
                              /\ within_hops db (Z.to_nat depth) uid (source_user_id t)
                              /\ within_hops db (Z.to_nat depth) uid (target_user_id t)).
Proof.
  assert (Hv : forall x, In x (visited_after db uid depth)
                         <-> within_hops db (Z.to_nat depth) uid x).
  { intros x. unfold visited_after. split.
    - apply (proj1 (state_sound db uid (Z.to_nat depth))).
    - apply state_complete. }
  split; [exact Hv|]. split.
  - intros u. rewrite SubgraphFacts.nodes_of_visited. split; intros [x [Hx Hu]];
      exists x; (split; [now apply Hv | exact Hu]).
  - intros l. unfold get_user_subgraph. cbn [links]. rewrite in_map_iff. split.
    + intros [t [Hl Ht]]. apply filter_In in Ht. destruct Ht as [Ht Hm].
      apply andb_true_iff in Hm. rewrite !SubgraphFacts.mem_In in Hm.
      exists t. repeat split; [exact Ht | now symmetry | now apply Hv | now apply Hv].
    + intros [t (Ht & -> & Hs & Hg)]. exists t. split; [reflexivity|].
      apply filter_In. split; [exact Ht|].
      apply andb_true_iff. rewrite !SubgraphFacts.mem_In. split; now apply Hv.
Qed.

(** X21: no account is visited twice, and once a further round adds no
    account the extraction has reached its fixed point: every larger
    depth returns the same subgraph. *)
Theorem subgraph_fixed_point (db : DB) (uid : string) (d k : Z) :
  0 <= d -> 0 <= k ->
  NoDup (visited_after db uid d)
  /\ (visited_after db uid (d + 1) = visited_after db uid d ->
      get_user_subgraph db uid (d + 1 + k) = get_user_subgraph db uid (d + 1)
      /\ get_user_subgraph db uid (d + 1) = get_user_subgraph db uid d).
Proof.
  intros Hd Hk. split; [apply state_nodup|].
  intros Heq. unfold get_user_subgraph.
  assert (H1 : visited_after db uid (d + 1 + k) = visited_after db uid (d + 1)).
  { unfold visited_after in *.
    replace (Z.to_nat (d + 1 + k)) with (S (Z.to_nat d) + Z.to_nat k)%nat by lia.
    replace (Z.to_nat (d + 1)) with (S (Z.to_nat d)) in * by lia.
    f_equal. now apply state_fixed. }
  split; [now rewrite H1 | now rewrite Heq].
Qed.

Lemma subgraph_fixed_point_witness :
  0 <= 3 /\ 0 <= 5
  /\ visited_after Fixtures.chain_db "A" (3 + 1) = visited_after Fixtures.chain_db "A" 3
  /\ get_user_subgraph Fixtures.chain_db "A" (3 + 1 + 5)
     = get_user_subgraph Fixtures.chain_db "A" (3 + 1).
Proof.
  assert (H3 : 0 <= 3) by lia. assert (H5 : 0 <= 5) by lia.
  assert (He : visited_after Fixtures.chain_db "A" (3 + 1)
               = visited_after Fixtures.chain_db "A" 3) by reflexivity.
  exact (conj H3 (conj H5 (conj He
           (proj1 (proj2 (subgraph_fixed_point Fixtures.chain_db "A" 3 5 H3 H5) He))))).
Defined.

End ReachFacts.

(* ================================================================== *)
(** ** Further properties of ring detection *)
(* ================================================================== *)

Module RingMore.
Import Store RingSpec StartSpec.

(** *** Size of a ring *)

Lemma dfs_length db adj max_depth fuel : forall start current p visited depth r,
  Z.of_nat (List.length p) = depth + 1 ->
  In r (dfs fuel db adj max_depth start current p visited depth) ->
  Z.of_nat (List.length (path r)) <= max_depth + 1.
Proof.
  induction fuel as [| fuel IH]; intros start current p visited depth r Hlen Hr;
    cbn [dfs] in Hr; [contradiction|].
  destruct (max_depth <? depth) eqn:E; [contradiction|]. apply Z.ltb_ge in E.
  apply in_flat_map in Hr. destruct Hr as [edge [_ Hr]]. cbv beta zeta in Hr.
  destruct ((edge_target edge =? start)%string && (3 <=? List.length p)%nat).
  - destruct Hr as [<- | []]. unfold ring_of. cbn [path]. rewrite length_map. lia.
  - destruct (negb (mem (edge_target edge) visited)); [|contradiction].
    eapply IH; [|exact Hr]. rewrite length_app. simpl List.length. lia.
Qed.

(** X22: a returned ring has at most [max_depth + 1] accounts (seven for
    the default depth 6), so no ring is returned when [max_depth] is
    below 2; a ledger without rows has no ring. *)
Theorem ring_size_bound (db : DB) (max_depth : Z) :
  (forall r, In r (find_laundering_rings db max_depth) ->
             3 <= Z.of_nat (List.length (path r)) <= max_depth + 1)
  /\ (max_depth < 2 -> find_laundering_rings db max_depth = [])
  /\ (transactions db = [] -> find_laundering_rings db max_depth = []).
Proof.
  assert (Hb : forall r, In r (find_laundering_rings db max_depth) ->
                         3 <= Z.of_nat (List.length (path r)) <= max_depth + 1).
  { intros r Hr. unfold find_laundering_rings in Hr. cbv zeta in Hr.
    rewrite RingFacts.unique_rings_first_of_each_set in Hr.
    apply RingFacts.firstn_subset, RingFacts.first_of_each_set_subset in Hr.
    split.
    - destruct (RingFacts.discovered_rings_sound db max_depth r Hr) as [p [-> Hp]].
      unfold ring_of. simpl. rewrite length_map. destruct Hp as [H3 _]. lia.
    - unfold discovered_rings in Hr. apply in_flat_map in Hr.
      destruct Hr as [s [_ Hr]]. eapply dfs_length; [|exact Hr]. reflexivity. }
  split; [exact Hb|]. split.
  - intros Hsmall. destruct (find_laundering_rings db max_depth) as [| r l] eqn:E;
      [reflexivity|].
    specialize (Hb r (or_introl eq_refl)). lia.
  - intros Hnil. unfold find_laundering_rings, discovered_rings. now rewrite Hnil.
Qed.

(** The bound is reached: a ring of seven accounts is returned at the
    default depth. *)
Example seven_account_ring :
  map ring_ids (find_laundering_rings ExtraFixtures.seven_ring_db 6)
  = [["A"; "B"; "C"; "D"; "E"; "F"; "G"]]%string.
Proof. reflexivity. Qed.

(** *** Completeness of the search *)

Lemma adj_get_map_append adj s e k x :
  In x (adj_get (map (fun kv => if (fst kv =? s)%string
                                then (fst kv, snd kv ++ [e]) else kv) adj) k)
  <-> In x (adj_get adj k) \/ (k = s /\ x = e /\ In s (map fst adj)).
Proof.
  unfold adj_get. rewrite PatternFacts.find_key_map.
  2:{ intros kv. destruct (fst kv =? s)%string; reflexivity. }
  destruct (find (fun kv => (fst kv =? k)%string) adj) as [kv|] eqn:F; simpl.
  - apply find_some in F. destruct F as [Hin Hk]. apply String.eqb_eq in Hk.
    destruct (fst kv =? s)%string eqn:Es; cbn [snd].
    + apply String.eqb_eq in Es. rewrite in_app_iff. simpl. split.
      * intros [H | [<- | []]]; [now left | right].
        repeat split; try congruence. rewrite <- Es. now apply in_map.
      * intros [H | (_ & -> & _)]; tauto.
    + apply String.eqb_neq in Es. split; [tauto|].
      intros [H | (H1 & _)]; [exact H | congruence].
  - split; [tauto|]. intros [[] | (-> & _ & Hs)].
    apply in_map_iff in Hs. destruct Hs as [kv [Hk Hin]].
    pose proof (find_none _ _ F kv Hin) as Hno. simpl in Hno.
    rewrite Hk, String.eqb_refl in Hno. discriminate.
Qed.

Lemma adj_get_append_new adj s e k x :
  ~ In s (map fst adj) ->
  In x (adj_get (adj ++ [(s, [e])]) k) <-> In x (adj_get adj k) \/ (k = s /\ x = e).
Proof.
  unfold adj_get. intros Hs. induction adj as [| kv adj IH]; simpl.
  - destruct (s =? k)%string eqn:E; simpl.
    + apply String.eqb_eq in E. split; [intros [<- | []]; auto | intros [[] | [_ ->]]; now left].
    + apply String.eqb_neq in E. split; [tauto | intros [[] | [H _]]; congruence].
  - simpl in Hs. destruct (fst kv =? k)%string eqn:Ek.
    + apply String.eqb_eq in Ek. split; [tauto|].
      intros [H | [H _]]; [exact H|]. exfalso. apply Hs. left. congruence.
    + apply IH. tauto.
Qed.

Lemma adj_get_adj_append adj s e k x :
  In x (adj_get (adj_append adj s e) k) <-> In x (adj_get adj k) \/ (k = s /\ x = e).
Proof.
  unfold adj_append. destruct (mem s (map fst adj)) eqn:M.
  - apply SubgraphFacts.mem_In in M. rewrite adj_get_map_append. tauto.
  - apply SubgraphFacts.mem_false in M. now apply adj_get_append_new.
Qed.

Lemma build_adj_edges_from txs : forall adj k x,
  In x (adj_get
          (fold_left (fun adj t => adj_append adj (source_user_id t)
                                     (mkEdge (target_user_id t) (amount t))) txs adj) k)
  <-> In x (adj_get adj k)
      \/ exists t, In t txs /\ source_user_id t = k
                   /\ x = mkEdge (target_user_id t) (amount t).
Proof.
  induction txs as [| t txs IH]; intros adj k x; simpl.
  - split; [tauto | intros [H | [t [[] _]]]; exact H].
  - rewrite IH, adj_get_adj_append. split.
    + intros [[H | [-> ->]] | [t' [H1 H2]]]; [tauto | right | right].
      * exists t. tauto.
      * exists t'. tauto.
    + intros [H | [t' [[<- | H1] [H2 H3]]]]; [tauto | left; right; auto | right].
      exists t'. tauto.
Qed.

(** Every ledger row is an edge of the adjacency map. *)
Lemma linked_edge db a b :
  linked db a b ->
  exists e, In e (adj_get (build_adj (transactions db)) a) /\ edge_target e = b.
Proof.
  intros [t (Ht & Hs & Hg)]. exists (mkEdge (target_user_id t) (amount t)).
  split; [|exact Hg]. unfold build_adj. apply build_adj_edges_from. right.
  exists t. auto.
Qed.

Lemma keys_adj_append adj s e :
  map fst (adj_append adj s e)
  = if mem s (map fst adj) then map fst adj else map fst adj ++ [s].
Proof.
  unfold adj_append. destruct (mem s (map fst adj)).
  - rewrite map_map. apply map_ext. intros kv.
    destruct (fst kv =? s)%string; reflexivity.
  - rewrite map_app. reflexivity.
Qed.

(** The keys of the adjacency map are the sources in order of first
    occurrence. *)
Lemma build_adj_keys txs :
  map fst (build_adj txs) = first_occurrences (map source_user_id txs).
Proof.
  unfold build_adj, first_occurrences.
  assert (H : forall adj acc, map fst adj = acc ->
    map fst (fold_left (fun adj t => adj_append adj (source_user_id t)
                                       (mkEdge (target_user_id t) (amount t))) txs adj)
    = fold_left (fun acc x => if mem x acc then acc else acc ++ [x])
                (map source_user_id txs) acc).
  { induction txs as [| t l IH]; intros adj acc Hacc; simpl; [exact Hacc|].
    apply IH. rewrite keys_adj_append, Hacc. reflexivity. }
  now apply H.
Qed.

Lemma chain_middle db pre n rest :
  pre <> [] -> chain db (pre ++ n :: rest) -> linked db (last pre "") n.
Proof.
  induction pre as [| a pre IH]; intros Hne Hc; [congruence|].
  destruct pre as [| b pre].
  - simpl in *. tauto.
  - change ((a :: b :: pre) ++ n :: rest) with (a :: (b :: pre) ++ n :: rest) in Hc.
    simpl in Hc. destruct Hc as [_ Hc].
    change (last (a :: b :: pre) "") with (last (b :: pre) "").
    apply IH; [discriminate | exact Hc].
Qed.

Lemma dfs_complete db max_depth rest : forall pre fuel depth,
  pre <> [] ->
  is_ring db (pre ++ rest) ->
  Z.of_nat (List.length pre) = depth + 1 ->
  Z.of_nat (List.length (pre ++ rest)) <= max_depth + 1 ->
  (List.length rest < fuel)%nat ->
  In (ring_of db (pre ++ rest))
     (dfs fuel db (build_adj (transactions db)) max_depth
          (hd "" pre) (last pre "") pre pre depth).
Proof.
  induction rest as [| n rest IH]; intros pre fuel depth Hne Hring Hlen Hmax Hfuel.
  - rewrite app_nil_r in *. destruct fuel as [| fuel]; [simpl in Hfuel; lia|].
    cbn [dfs].
    assert (E : (max_depth <? depth) = false) by (apply Z.ltb_ge; lia). rewrite E.
    destruct Hring as (H3 & _ & _ & Hclose).
    destruct (linked_edge db _ _ Hclose) as [e [He Ht]].
    apply in_flat_map. exists e. split; [exact He|]. cbv beta zeta.
    rewrite Ht, String.eqb_refl.
    assert (E3 : (3 <=? List.length pre)%nat = true) by (now apply Nat.leb_le).
    rewrite E3. now left.
  - destruct fuel as [| fuel]; [simpl in Hfuel; lia|]. cbn [dfs].
    assert (E : (max_depth <? depth) = false).
    { apply Z.ltb_ge. rewrite length_app in Hmax. simpl in Hmax. lia. }
    rewrite E.
    destruct Hring as (H3 & Hnd & Hch & Hclose).
    pose proof (chain_middle db pre n rest Hne Hch) as Hlink.
    destruct (linked_edge db _ _ Hlink) as [e [He Ht]].
    apply in_flat_map. exists e. split; [exact He|]. cbv beta zeta. rewrite Ht.
    assert (Hn : ~ In n pre).
    { intros Hin. apply NoDup_remove_2 in Hnd. apply Hnd, in_or_app. now left. }
    assert (Hs : (n =? hd "" pre)%string = false).
    { apply String.eqb_neq. intros ->. apply Hn.
      destruct pre; [congruence | now left]. }
    rewrite Hs. simpl andb. cbv iota.
    apply SubgraphFacts.mem_false in Hn. rewrite Hn. simpl negb. cbv iota.
    assert (Happ : (pre ++ [n]) ++ rest = pre ++ n :: rest)
      by (rewrite <- app_assoc; reflexivity).
    pose proof (IH (pre ++ [n]) fuel (depth + 1)) as IH'.
    rewrite last_last, (RingFacts.hd_snoc pre n Hne), Happ in IH'.
    apply IH'.
    + destruct pre; discriminate.
    + repeat split; assumption.
    + rewrite length_app. simpl. lia.
    + exact Hmax.
    + simpl in Hfuel. lia.
Qed.

Lemma first_of_each_set_represents l : forall earlier r,
  In r l ->
  exists r', (In r' earlier \/ In r' (first_of_each_set earlier l))
             /\ same_accounts r r'.
Proof.
  induction l as [| a l IH]; intros earlier r Hr; [contradiction|]. simpl.
  assert (Hrefl : forall x, same_accounts x x) by (intros x y; tauto).
  destruct Hr as [-> | Hr].
  - destruct (existsb (same_accounts_b r) earlier) eqn:E.
    + apply existsb_exists in E. destruct E as [e [He Hs]].
      exists e. split; [now left | now apply RingFacts.same_accounts_b_iff].
    + exists r. split; [right; now left | apply Hrefl].
  - destruct (IH (earlier ++ [a]) r Hr) as [r' [Hin Hs]].
    destruct Hin as [Hin | Hin].
    + apply in_app_or in Hin. destruct Hin as [Hin | [<- | []]].
      * exists r'. split; [now left | exact Hs].
      * destruct (existsb (same_accounts_b a) earlier) eqn:E.
        -- apply existsb_exists in E. destruct E as [e [He Hse]].
           exists e. split; [now left|].
           eapply RingFacts.same_accounts_trans; [exact Hs|].
           now apply RingFacts.same_accounts_b_iff.
        -- exists a. split; [right; now left | exact Hs].
    + exists r'. split; [|exact Hs]. right.
      destruct (existsb (same_accounts_b a) earlier); [exact Hin | now right].
Qed.

(** X23: the search misses no ring within its bounds: a closed path of
    at least three different accounts and at most [max_depth + 1] that
    begins at one of the start accounts is discovered, and some ring with
    the same accounts is among the rings kept before the cut at 20. *)
Theorem ring_search_complete (db : DB) (max_depth : Z) (p : list string) :
  is_ring db p ->
  Z.of_nat (List.length p) <= max_depth + 1 ->
  In (hd "" p) (start_accounts db) ->
  In (ring_of db p) (discovered_rings db max_depth)
  /\ exists r, In r (first_of_each_set [] (discovered_rings db max_depth))
               /\ same_accounts (ring_of db p) r.
Proof.
  intros Hring Hmax Hstart.
  assert (Hd : In (ring_of db p) (discovered_rings db max_depth)).
  { unfold discovered_rings. cbv zeta. apply in_flat_map.
    exists (hd "" p). split.
    { rewrite build_adj_keys. exact Hstart. }
    destruct p as [| s rest]; [destruct Hring as [H3 _]; simpl in H3; lia|].
    change (s :: rest) with ([s] ++ rest) in *.
    apply (dfs_complete db max_depth rest [s]); try assumption.
    - discriminate.
    - reflexivity.
    - rewrite length_app in Hmax. simpl in Hmax. lia. }
  split; [exact Hd|].
  destruct (first_of_each_set_represents _ [] _ Hd) as [r [[[] | Hin] Hs]].
  exists r. split; assumption.
Qed.

Lemma triangle_is_ring : is_ring Fixtures.rings_db ["B"; "C"; "A"]%string.
Proof.
  repeat split.
  - simpl. lia.
  - repeat constructor; simpl; intuition discriminate.
  - exists (Fixtures.transfer "B" "C" 2 0). simpl. tauto.
  - exists (Fixtures.transfer "C" "A" 3 0). simpl. tauto.
  - exists (Fixtures.transfer "A" "B" 1 0). simpl. tauto.
Defined.

Lemma ring_search_complete_witness :
  is_ring Fixtures.rings_db ["B"; "C"; "A"]%string
  /\ Z.of_nat (List.length ["B"; "C"; "A"]%string) <= 6 + 1
  /\ In (hd "" ["B"; "C"; "A"]%string) (start_accounts Fixtures.rings_db)
  /\ In (ring_of Fixtures.rings_db ["B"; "C"; "A"]%string)
        (discovered_rings Fixtures.rings_db 6).
Proof.
  assert (Hm : Z.of_nat (List.length ["B"; "C"; "A"]%string) <= 6 + 1) by (simpl; lia).
  assert (Hs : In (hd "" ["B"; "C"; "A"]%string) (start_accounts Fixtures.rings_db))
    by (simpl; tauto).
  exact (conj triangle_is_ring (conj Hm (conj Hs
           (proj1 (ring_search_complete Fixtures.rings_db 6 _ triangle_is_ring Hm Hs))))).
Defined.

End RingMore.

(* ================================================================== *)
(** ** Listings and replies *)
(* ================================================================== *)

Module ListingFacts.
Import Store Txn Vocab ExtraSpec.
Local Open Scope Q_scope.

Lemma newest_first (l : list Transaction) :
  StronglySorted (fun a b => (timestamp b <= timestamp a)%Z) (order_by timestamp_desc l).
Proof.
  pose proof (TableFacts.order_by_sorted timestamp_desc
                TableFacts.timestamp_desc_total TableFacts.timestamp_desc_trans l) as H.
  induction H; constructor; auto.
  eapply Forall_impl; [|eassumption]. intros x Hx. now apply Z.leb_le.
Qed.

(** X24: each transaction listing is newest first and holds every row
    it selects exactly once: all rows, the FLAGGED rows, or the rows in
    which the account is source or target. *)
Theorem transaction_listings (db : DB) (uid : string) :
  Permutation (get_all_transactions db) (transactions db)
  /\ Permutation (get_flagged_transactions db)
       (filter (fun t => (tx_status t =? "FLAGGED")%string) (transactions db))
  /\ Permutation (get_user_transactions db uid)
       (filter (fun t => (source_user_id t =? uid)%string
                         || (target_user_id t =? uid)%string) (transactions db))
  /\ StronglySorted (fun a b => (timestamp b <= timestamp a)%Z) (get_all_transactions db)
  /\ StronglySorted (fun a b => (timestamp b <= timestamp a)%Z) (get_flagged_transactions db)
  /\ StronglySorted (fun a b => (timestamp b <= timestamp a)%Z) (get_user_transactions db uid).
Proof.
  unfold get_all_transactions, get_flagged_transactions, get_user_transactions.
  repeat split; try apply TableFacts.order_by_perm; apply newest_first.
Qed.

Section Processor.
Variable fraud_service : DB -> string -> exn + Fraud.FraudResult.

(** X25: after a processed submission the flagged listing holds what it
    held before, and the new row exactly when the submission was
    FLAGGED; BLOCKED and APPROVED submissions raise no alert. *)
Theorem flagged_listing_after_submission now src tgt amt cur ty db su tu :
  passes_checks db src tgt amt su tu ->
  exists r db' row,
    create_transaction fraud_service now src tgt amt cur ty db = (inr r, db')
    /\ transactions db' = transactions db ++ [row]
    /\ transaction_id row = r_transaction_id r
    /\ forall t, In t (get_flagged_transactions db')
                 <-> In t (get_flagged_transactions db)
                     \/ (r_status r = "FLAGGED"%string /\ t = row).
Proof.
  intros Hp.
  destruct (TxnFacts.create_transaction_run fraud_service now src tgt amt cur ty db su tu Hp)
    as (r0 & Hrun0 & _ & _ & Hid0 & _).
  destruct (ProcessorFacts.processed_store fraud_service now src tgt amt cur ty db su tu Hp)
    as (r & db' & sd & approved & row & Hrun & _ & _ & _ & _ & Htx & Hrow & _).
  cbv zeta in Hrun0, Hid0. rewrite Hrun in Hrun0.
  assert (Hr : r0 = r) by congruence. subst r0. clear Hrun0.
  exists r, db', row. split; [exact Hrun|]. split; [exact Htx|].
  destruct Hrow as (Hid & _ & _ & _ & _ & Hst). split.
  { rewrite Hid, Hid0. simpl. destruct (_detect_structuring db now src amt); reflexivity. }
  intros t. rewrite !RouteFacts.flagged_membership, Htx, in_app_iff. simpl. split.
  - intros [[H | [<- | []]] Hf]; [tauto | right]. split; [congruence | reflexivity].
  - intros [[H Hf] | [Hf ->]]; [tauto|]. split; [tauto | congruence].
Qed.

(** The reply of a processed submission, field by field. *)
Lemma create_transaction_reply now src tgt amt cur ty db su tu :
  passes_checks db src tgt amt su tu ->
  exists r db',
    create_transaction fraud_service now src tgt amt cur ty db = (inr r, db')
    /\ r_source_user_id r = src /\ r_target_user_id r = tgt /\ r_amount r = amt
    /\ r_structuring_detected r = _detect_structuring db now src amt
    /\ r_account_frozen r = _detect_structuring db now src amt
    /\ (r_structuring_detected r = true <-> r_status r = "BLOCKED"%string)
    /\ r_new_balance r
       = (if (r_status r =? "APPROVED")%string then balance su - amt else balance su)
    /\ (r_status r = "BLOCKED"%string ->
        r_message r = "Account frozen due to structuring detection"%string)
    /\ (r_status r = "FLAGGED"%string ->
        r_message r = "Transaction flagged for compliance review"%string)
    /\ (r_status r = "APPROVED"%string -> r_message r = "Transaction approved"%string).
Proof.
  intros (Hs & Ht & Hfz & Hbal).
  apply String.eqb_neq in Hfz. apply TxnFacts.Qlt_bool_false in Hbal.
  unfold create_transaction, bind, query, raise, ret, exec, try_except, attempt.
  rewrite Hs, Ht, Hfz, Hbal.
  destruct (fraud_service db src) as [e|fr];
    destruct (_detect_structuring db now src amt);
    destruct (_detect_high_velocity db now src);
    destruct (in_range amt); destruct (Qlt_bool 50000 amt);
    try destruct (Qlt_bool 0.7 (Fraud.risk_probability fr));
    try destruct (Qlt_bool 0.7 (risk_score su));
    simpl; do 2 eexists; (split; [reflexivity|]); simpl;
    repeat split; intros; try reflexivity; try discriminate.
Qed.

(** X26: the reply of a processed submission agrees with the store: it
    reports the account as frozen exactly when the status is BLOCKED,
    its message is the one of its status, and between two different
    accounts the reported new balance is the stored balance of the
    source. *)
Theorem reply_matches_store now src tgt amt cur ty db su tu :
  passes_checks db src tgt amt su tu ->
  src <> tgt ->
  exists r db',
    create_transaction fraud_service now src tgt amt cur ty db = (inr r, db')
    /\ balance_of db' src = Some (r_new_balance r)
    /\ (r_account_frozen r = true <-> r_status r = "BLOCKED"%string)
    /\ (r_account_frozen r = true <-> status_of db' src = Some "FROZEN"%string)
    /\ (r_status r = "BLOCKED"%string ->
        r_message r = "Account frozen due to structuring detection"%string)
    /\ (r_status r = "FLAGGED"%string ->
        r_message r = "Transaction flagged for compliance review"%string)
    /\ (r_status r = "APPROVED"%string -> r_message r = "Transaction approved"%string).
Proof.
  intros Hp Hne.
  destruct (create_transaction_reply now src tgt amt cur ty db su tu Hp)
    as (r & db' & Hrun & _ & _ & _ & Hsd & Hfr & Hblk & Hnb & Hm1 & Hm2 & Hm3).
  destruct (ProcessorFacts.processed_store fraud_service now src tgt amt cur ty db su tu Hp)
    as (r1 & db1 & sd & approved & row & Hrun1 & Hsd1 & Hap1 & Himp & _ & _ & _ & Hus).
  rewrite Hrun in Hrun1. injection Hrun1 as <- <-.
  exists r, db'. split; [exact Hrun|].
  destruct Hp as (Hs & Ht & Hnf & _).
  pose proof (StoreFacts.get_user_found_id db src su Hs) as Hid.
  assert (Hfind : forall f : User -> User,
            (forall u, user_id (f u) = user_id u) ->
            find (fun u => (user_id u =? src)%string)
                 (map (fun u => if (user_id u =? src)%string then f u else u) (users db))
            = Some (f su)).
  { intros f Hf. rewrite (StoreFacts.find_map_update src src f (users db) Hf).
    unfold get_user_by_id in Hs. rewrite Hs. simpl. now rewrite Hid, String.eqb_refl. }
  assert (Hstore : get_user_by_id db' src
                   = Some (if approved then set_balance (balance su - amt) su
                           else if sd then set_status "FROZEN" su else su)).
  { unfold get_user_by_id. rewrite Hus. destruct approved; [|destruct sd].
    - rewrite (StoreFacts.find_map_update tgt src) by reflexivity.
      rewrite (Hfind (set_balance (balance su - amt))) by reflexivity. simpl.
      apply String.eqb_neq in Hne. now rewrite Hid, Hne.
    - now rewrite (Hfind (set_status "FROZEN")).
    - exact Hs. }
  split.
  { unfold balance_of. rewrite Hstore, Hnb, <- Hap1.
    destruct approved; [reflexivity | destruct sd; reflexivity]. }
  split; [rewrite Hfr, <- Hsd; exact Hblk|]. split.
  { unfold status_of. rewrite Hstore, Hfr, <- Hsd1. split.
    - intros ->. rewrite (Himp eq_refl). reflexivity.
    - destruct approved; [|destruct sd]; simpl; intros H;
        try reflexivity; injection H as H; contradiction. }
  repeat split; assumption.
Qed.

End Processor.

Lemma distinct_parties : "U1"%string <> "U2"%string.
Proof. discriminate. Defined.

Lemma flagged_listing_after_submission_witness :
  passes_checks Fixtures.two_priors_db "S" "T" 9700
    (Fixtures.user "S" 0.1 50000 "ACTIVE") (Fixtures.user "T" 0.1 0 "ACTIVE")
  /\ exists r db' row,
      create_transaction Fraud.detect_fraud 200000 "S" "T" 9700 "USD" "transfer"
                         Fixtures.two_priors_db = (inr r, db')
      /\ transactions db' = transactions Fixtures.two_priors_db ++ [row]
      /\ transaction_id row = r_transaction_id r
      /\ forall t, In t (get_flagged_transactions db')
                   <-> In t (get_flagged_transactions Fixtures.two_priors_db)
                       \/ (r_status r = "FLAGGED"%string /\ t = row).
Proof.
  split; [exact TxnFacts.two_priors_checks|].
  exact (flagged_listing_after_submission Fraud.detect_fraud 200000 "S" "T" 9700
           "USD" "transfer" Fixtures.two_priors_db _ _ TxnFacts.two_priors_checks).
Defined.

Lemma reply_matches_store_witness :
  passes_checks Fixtures.single_db "U1" "U2" 10
    (Fixtures.user "U1" 0.1 100 "ACTIVE") (Fixtures.user "U2" 0.1 100 "ACTIVE")
  /\ "U1"%string <> "U2"%string
  /\ exists r db',
      create_transaction Fraud.detect_fraud 0 "U1" "U2" 10 "USD" "transfer"
                         Fixtures.single_db = (inr r, db')
      /\ balance_of db' "U1" = Some (r_new_balance r).
Proof.
  split; [exact TxnFacts.single_db_checks|]. split; [exact distinct_parties|].
  destruct (reply_matches_store Fraud.detect_fraud 0 "U1" "U2" 10 "USD" "transfer"
              Fixtures.single_db _ _ TxnFacts.single_db_checks distinct_parties)
    as (r & db' & Hrun & Hbal & _).
  exists r, db'. split; [exact Hrun | exact Hbal].
Defined.

End ListingFacts.

(* ================================================================== *)
(** ** Factors and primary flag *)
(* ================================================================== *)

Module FactorFacts.
Import Store Fraud ReportSpec.
Local Open Scope Q_scope.

(** X27: the parts of a report agree: a factor of a pattern is listed
    exactly when the pattern is detected, the high-risk factor exactly
    when the score exceeds 0.7, the new-account factor exactly when the
    account is younger than 90 days, and the primary flag is absent
    exactly when no pattern factor is listed. *)
Theorem report_parts_agree (user : User) (p : Patterns) (score : Q) :
  let fs := _build_contributing_factors user p score in
  has_factor "high_risk" fs = negb (Qle_bool score 0.7)
  /\ has_factor "smurfing" fs = smurfing_detected p
  /\ has_factor "structuring" fs = structuring_detected p
  /\ has_factor "circular_flow" fs = circular_flow_detected p
  /\ has_factor "high_velocity" fs = high_velocity_detected p
  /\ has_factor "new_account" fs = (account_age_days user <? 90)%Z
  /\ (_get_primary_flag p = None
      <-> has_factor "circular_flow" fs || has_factor "smurfing" fs
          || has_factor "structuring" fs || has_factor "high_velocity" fs = false)
  /\ (List.length fs <= 6)%nat.
Proof.
  cbv zeta. unfold _build_contributing_factors, _get_primary_flag, has_factor.
  destruct (Qle_bool score 0.7); destruct (smurfing_detected p);
    destruct (structuring_detected p); destruct (circular_flow_detected p);
    destruct (high_velocity_detected p); destruct (account_age_days user <? 90)%Z;
    cbn -[str_nat String.append];
    repeat split; intros; try reflexivity; try discriminate; try lia.
Qed.

End FactorFacts.
